(** * pyswarms.utils.plotters.plotters

    A shallow embedding of [plot_cost_history], [plot_contour],
    [plot_surface], [_animate] and [_mesh], together with the parts of
    Python, NumPy, multiprocessing and matplotlib they call.

    Conventions of the model:
    - floating-point numbers are exact rationals ([Q]); [pos_history] is a
      3-D float array, [cost_history] and [mark] are sequences of floats,
      [best_pos] is [None], a vector of floats or a vector of integers
      (dtype int64), the plotting indices are Python integers;
    - a Python exception is a value of [exn]; code that can raise returns
      [result], and code that also logs or creates figures runs in the
      monad [M] over the state [World];
    - a call into the plotting library records its arguments on the axes it
      is made on; [ax.contour] checks its arguments first and raises on a
      mesh smaller than 2 x 2 and on levels that do not increase; the
      objective function of a mesher is a total function from an array of
      points to an array of values. *)

From Stdlib Require Import String Bool Arith ZArith QArith Qround List Lia.
Import ListNotations.

Local Open Scope Z_scope.
Local Open Scope list_scope.

(** ** Exceptions and results *)

Inductive exn : Type :=
| IndexError
| ValueError
| ZeroDivisionError
| TypeError.

Inductive result (A : Type) : Type :=
| Ok (a : A)
| Raise (e : exn).

Arguments Ok {A} a.
Arguments Raise {A} e.

Definition rbind {A B : Type} (r : result A) (k : A -> result B) : result B :=
  match r with
  | Ok a => k a
  | Raise e => Raise e
  end.

Declare Scope result_scope.
Delimit Scope result_scope with res.
Notation "x <- r ;; k" := (rbind r (fun x => k))
  (at level 100, r at next level, right associativity) : result_scope.
Notation "' p <- r ;; k" := (rbind r (fun p => k))
  (at level 100, p pattern, r at next level, right associativity) : result_scope.

Definition is_ok {A : Type} (r : result A) : bool :=
  match r with
  | Ok _ => true
  | Raise _ => false
  end.

(** ** Python sequences *)

(** [seq[i]] for a Python list or tuple: a negative index counts from the
    end, anything outside [-len, len) raises [IndexError]. *)
Definition norm_index (n : nat) (i : Z) : result nat :=
  let k := if i <? 0 then i + Z.of_nat n else i in
  if (0 <=? k) && (k <? Z.of_nat n) then Ok (Z.to_nat k) else Raise IndexError.

Definition py_getitem {A : Type} (l : list A) (i : Z) : result A :=
  (k <- norm_index (length l) i ;;
   match nth_error l k with
   | Some a => Ok a
   | None => Raise IndexError
   end)%res.

(** [l[start:stop]] for [0 <= start] and [0 <= stop]. *)
Definition slice {A : Type} (l : list A) (start stop : nat) : list A :=
  firstn (stop - start) (skipn start l).

Fixpoint list_set {A : Type} (l : list A) (k : nat) (v : A) : list A :=
  match l, k with
  | [], _ => []
  | _ :: t, O => v :: t
  | a :: t, S k' => a :: list_set t k' v
  end.

(** ** NumPy arrays *)

(** An element of an array: a float, an integer, or the object [None] (an
    array built from [None] has dtype object). *)
Inductive pyobj : Type :=
| PyFloat (q : Q)
| PyInt (z : Z)
| PyNone.

(** The element types of the arrays of [_mesh]. *)
Inductive dtype : Type :=
| float64
| int64
| object_.

(** A 1-D array of floats or of integers, as [best_pos] is given. *)
Inductive vector : Type :=
| Floats (v : list Q)
| Ints (v : list Z).

Definition vector_len (v : vector) : nat :=
  match v with
  | Floats l => length l
  | Ints l => length l
  end.

(** The cast of a float to int64: the fraction is dropped (rounding toward
    zero); a value outside the range of int64 gives the smallest int64, as
    the conversion does on x86-64. *)
Definition float_to_int64 (q : Q) : Z :=
  let t := Z.quot (Qnum q) (Zpos (Qden q)) in
  if (- 2 ^ 63 <=? t) && (t <? 2 ^ 63) then t else - 2 ^ 63.

(** The value an array of dtype [dt] stores when it is assigned [o]. *)
Definition astype (dt : dtype) (o : pyobj) : pyobj :=
  match dt, o with
  | int64, PyFloat q => PyInt (float_to_int64 q)
  | float64, PyInt z => PyFloat (inject_Z z)
  | _, _ => o
  end.

(** A 2-D array handled row by row; its shape is
    [(length nd_rows, nd_cols)]. *)
Record ndarray (A : Type) : Type := mk_ndarray {
  nd_cols : nat;
  nd_rows : list (list A)
}.

Arguments mk_ndarray {A} nd_cols nd_rows.
Arguments nd_cols {A} n.
Arguments nd_rows {A} n.

(** A 2-D float array as NumPy stores it: a shape and a row-major buffer. *)
Record grid : Type := mk_grid {
  g_shape : nat * nat;
  g_data : list Q
}.

(** [a[j, i]] on a [grid], for [j] and [i] within the shape. *)
Definition grid_at (a : grid) (j i : nat) : option Q :=
  if (j <? fst (g_shape a))%nat && (i <? snd (g_shape a))%nat
  then nth_error (g_data a) (j * snd (g_shape a) + i)
  else None.

(** [np.arange(start, stop, step)]: [ceil((stop - start) / step)] values
    [start + i * step]; a zero step raises. *)
Definition arange_len (start stop step : Q) : nat :=
  Z.to_nat (Qceiling ((stop - start) / step)).

Definition np_arange (start stop step : Q) : result (list Q) :=
  if Qeq_bool step 0 then Raise ZeroDivisionError
  else Ok (map (fun i => (start + inject_Z (Z.of_nat i) * step)%Q)
               (seq 0 (arange_len start stop step))).

(** [np.meshgrid(x, y)]: both results have shape [(len y, len x)], with
    [xx[j, i] = x[i]] and [yy[j, i] = y[j]]. *)
Definition np_meshgrid (x y : list Q) : grid * grid :=
  (mk_grid (length y, length x) (flat_map (fun _ => x) y),
   mk_grid (length y, length x) (flat_map (fun yj => map (fun _ => yj) x) y)).

(** [a.reshape(-1)] *)
Definition ravel (a : grid) : list Q := g_data a.

(** [np.vstack([a, b]).T] for two 1-D arrays: one row [[a_k, b_k]] per
    element; [vstack] raises when the lengths differ. *)
Definition vstack_T (a b : list Q) : result (ndarray pyobj) :=
  if (length a =? length b)%nat
  then Ok (mk_ndarray 2 (map (fun p => [PyFloat (fst p); PyFloat (snd p)]) (combine a b)))
  else Raise ValueError.

(** [np.tile(best_pos, (n, 1))]: [n] copies of the vector as rows, in an
    array of the vector's dtype; [None] is first made a 1 x 1 object array,
    so its tiling has one column. *)
Definition tile_dtype (best_pos : option vector) : dtype :=
  match best_pos with
  | Some (Floats _) => float64
  | Some (Ints _) => int64
  | None => object_
  end.

Definition np_tile (best_pos : option vector) (n : nat) : ndarray pyobj :=
  match best_pos with
  | Some (Floats v) => mk_ndarray (length v) (repeat (map PyFloat v) n)
  | Some (Ints v) => mk_ndarray (length v) (repeat (map PyInt v) n)
  | None => mk_ndarray 1 (repeat [PyNone] n)
  end.

(** [a[:, idx]] *)
Definition get_column (a : ndarray pyobj) (idx : Z) : result (list pyobj) :=
  (k <- norm_index (nd_cols a) idx ;;
   Ok (map (fun row => nth k row PyNone) (nd_rows a)))%res.

(** [a[:, idx] = col] for an array [a] of dtype [dt]: the values of [col]
    are cast to [dt] when they are stored. *)
Definition set_column (dt : dtype) (a : ndarray pyobj) (idx : Z) (col : list pyobj)
    : result (ndarray pyobj) :=
  (k <- norm_index (nd_cols a) idx ;;
   if (length col =? length (nd_rows a))%nat
   then Ok (mk_ndarray (nd_cols a)
              (map (fun p => list_set (fst p) k (astype dt (snd p)))
                   (combine (nd_rows a) col)))
   else Raise ValueError)%res.

(** [np.array_split(ary, Nsections)] along axis 0, as [numpy.lib.shape_base]
    computes it: the first [Ntotal mod Nsections] sections get one row more. *)
Fixpoint cumsum (acc : nat) (l : list nat) : list nat :=
  match l with
  | [] => []
  | a :: t => (acc + a)%nat :: cumsum (acc + a) t
  end.

Definition section_sizes (Ntotal Nsections : nat) : list nat :=
  let Neach_section := (Ntotal / Nsections)%nat in
  let extras := (Ntotal mod Nsections)%nat in
  (0 :: repeat (Neach_section + 1) extras ++ repeat Neach_section (Nsections - extras))%nat.

Definition np_array_split {A : Type} (ary : ndarray A) (Nsections : Z) : result (list (ndarray A)) :=
  if Nsections <=? 0 then Raise ValueError
  else
    let n := Z.to_nat Nsections in
    let div_points := cumsum 0 (section_sizes (length (nd_rows ary)) n) in
    Ok (map (fun i => mk_ndarray (nd_cols ary)
                        (slice (nd_rows ary) (nth i div_points O) (nth (S i) div_points O)))
            (seq 0 n)).

(** [np.concatenate(arrays)] of 1-D arrays *)
Definition np_concatenate (arrays : list (list Q)) : result (list Q) :=
  match arrays with
  | [] => Raise ValueError
  | _ => Ok (concat arrays)
  end.

(** [z.reshape(shape)] of a 1-D array *)
Definition reshape (z : list Q) (shape : nat * nat) : result grid :=
  if (length z =? fst shape * snd shape)%nat then Ok (mk_grid shape z)
  else Raise ValueError.

(** ** multiprocessing *)

Record Pool : Type := mk_Pool { _processes : Z }.

(** [mp.Pool(n)] *)
Definition mp_Pool (n : Z) : result Pool :=
  if n <? 1 then Raise ValueError else Ok (mk_Pool n).

(** [pool.map(f, chunks)]: the results of a pure [f], in the order of the
    chunks. *)
Definition pool_map {A B : Type} (p : Pool) (f : A -> B) (chunks : list A) : list B :=
  map f chunks.

(** ** formatters.Mesher *)

Module Mesher.
Record t : Type := mk {
  func : ndarray pyobj -> list Q;
  delta : Q;
  limits : list (Q * Q);
  levels : list Q;
  alpha : Q
}.
End Mesher.

(** ** _mesh *)

Definition is_not_None {A : Type} (o : option A) : bool :=
  match o with
  | Some _ => true
  | None => false
  end.

Definition _mesh (mesher : Mesher.t) (n_processes : option Z)
    (x_index y_index : Z) (best_pos : option vector) : result (grid * grid * grid) :=
  (xlim <- py_getitem (Mesher.limits mesher) x_index ;;
   ylim <- py_getitem (Mesher.limits mesher) y_index ;;
   x <- np_arange (fst xlim) (snd xlim) (Mesher.delta mesher) ;;
   y <- np_arange (fst ylim) (snd ylim) (Mesher.delta mesher) ;;
   let xx := fst (np_meshgrid x y) in
   let yy := snd (np_meshgrid x y) in
   xypairs <- vstack_T (ravel xx) (ravel yy) ;;
   xypairs <-
     (if negb (x_index =? 0) || negb (y_index =? 1) || is_not_None best_pos then
        let best_pos_column := np_tile best_pos (length (nd_rows xypairs)) in
        let dt := tile_dtype best_pos in
        c0 <- get_column xypairs 0 ;;
        best_pos_column <- set_column dt best_pos_column x_index c0 ;;
        c1 <- get_column xypairs 1 ;;
        best_pos_column <- set_column dt best_pos_column y_index c1 ;;
        Ok best_pos_column
      else Ok xypairs) ;;
   pool <- match n_processes with
           | None => Ok None
           | Some n => p <- mp_Pool n ;; Ok (Some p)
           end ;;
   z <- match pool with
        | None => Ok (Mesher.func mesher xypairs)
        | Some p =>
            chunks <- np_array_split xypairs (_processes p) ;;
            let results := pool_map p (Mesher.func mesher) chunks in
            np_concatenate results
        end ;;
   zz <- reshape z (g_shape xx) ;;
   Ok (xx, yy, zz))%res.

(** ** Position histories *)

(** A 3-D float array of shape [(length nd3_iters, nd3_particles, nd3_dims)]:
    one 2-D array of positions per iteration. *)
Record ndarray3 : Type := mk_ndarray3 {
  nd3_particles : nat;
  nd3_dims : nat;
  nd3_iters : list (list (list Q))
}.

(** [a[i]] on a 3-D array *)
Definition getitem3 (a : ndarray3) (i : Z) : result (ndarray Q) :=
  (rows <- py_getitem (nd3_iters a) i ;;
   Ok (mk_ndarray (nd3_dims a) rows))%res.

Fixpoint map_result {A B : Type} (f : A -> result B) (l : list A) : result (list B) :=
  match l with
  | [] => Ok []
  | a :: t => (b <- f a ;; bs <- map_result f t ;; Ok (b :: bs))%res
  end.

(** [a[:, :, idxs]]: the listed columns of every row, each index checked
    against the size of the last axis. *)
Definition take_columns (a : ndarray3) (idxs : list Z) : result ndarray3 :=
  (ks <- map_result (norm_index (nd3_dims a)) idxs ;;
   Ok (mk_ndarray3 (nd3_particles a) (length idxs)
         (map (map (fun row => map (fun k => nth k row 0%Q) ks)) (nd3_iters a))))%res.

(** [a.T] *)
Definition transpose (a : ndarray Q) : ndarray Q :=
  mk_ndarray (length (nd_rows a))
    (map (fun k => map (fun row => nth k row 0%Q) (nd_rows a)) (seq 0 (nd_cols a))).

(** ** Python integer objects

    [is] and [is not] compare the identity of two objects.  CPython keeps
    one shared object for each integer from -5 to 256; any other integer
    value computed at run time is a new object. *)

Inductive obj_id : Type :=
| Cached (v : Z)
| Allocated (a : nat).

Record pyint : Type := mk_pyint {
  int_id : obj_id;
  int_val : Z
}.

Definition obj_id_eqb (a b : obj_id) : bool :=
  match a, b with
  | Cached v, Cached v' => v =? v'
  | Allocated n, Allocated n' => (n =? n')%nat
  | _, _ => false
  end.

Definition py_is (a b : pyint) : bool := obj_id_eqb (int_id a) (int_id b).

Definition py_is_not (a b : pyint) : bool := negb (py_is a b).

Definition small_int (v : Z) : bool := (-5 <=? v) && (v <=? 256).

(** An integer literal of the small range, such as the [2] of
    [len(mark) is 2]. *)
Definition int_literal (v : Z) : pyint := mk_pyint (Cached v) v.

(** ** matplotlib objects *)

Record PathCollection : Type := mk_PathCollection {
  pc_offsets : ndarray Q;
  pc_offsets3d : option (ndarray Q);
  pc_c : string;
  pc_alpha : Q;
  pc_kwargs : list (string * string)
}.

Definition set_offsets (plot : PathCollection) (offsets : ndarray Q) : PathCollection :=
  mk_PathCollection offsets (pc_offsets3d plot) (pc_c plot) (pc_alpha plot) (pc_kwargs plot).

Definition set__offsets3d (plot : PathCollection) (offsets : ndarray Q) : PathCollection :=
  mk_PathCollection (pc_offsets plot) (Some offsets) (pc_c plot) (pc_alpha plot) (pc_kwargs plot).

Inductive artist : Type :=
| Line2D (xdata : list Z) (ydata : list Q) (fmt : string) (lw : Z) (label : string)
| ContourSet (xx yy zz : grid) (levels : list Q)
| Poly3DCollection (xx yy zz : grid) (cmap : string) (alpha : Q)
| MarkPoint (coords : list Q) (color marker : string)
| Scatter (plot : PathCollection).

Record Axes : Type := mk_Axes {
  ax_fig : nat;
  ax_3d : bool;
  ax_title : option (string * string);
  ax_xlabel : option (string * string);
  ax_ylabel : option (string * string);
  ax_zlabel : option (string * string);
  ax_xlim : option (Q * Q);
  ax_ylim : option (Q * Q);
  ax_zlim : option (Q * Q);
  ax_legend : option string;
  ax_tick_labelsize : option string;
  ax_artists : list artist
}.

Definition new_Axes (fig : nat) (is3d : bool) : Axes :=
  mk_Axes fig is3d None None None None None None None None None [].

Definition with_title (v : string * string) (a : Axes) : Axes :=
  mk_Axes (ax_fig a) (ax_3d a) (Some v) (ax_xlabel a) (ax_ylabel a) (ax_zlabel a)
    (ax_xlim a) (ax_ylim a) (ax_zlim a) (ax_legend a) (ax_tick_labelsize a) (ax_artists a).

Definition with_xlabel (v : string * string) (a : Axes) : Axes :=
  mk_Axes (ax_fig a) (ax_3d a) (ax_title a) (Some v) (ax_ylabel a) (ax_zlabel a)
    (ax_xlim a) (ax_ylim a) (ax_zlim a) (ax_legend a) (ax_tick_labelsize a) (ax_artists a).

Definition with_ylabel (v : string * string) (a : Axes) : Axes :=
  mk_Axes (ax_fig a) (ax_3d a) (ax_title a) (ax_xlabel a) (Some v) (ax_zlabel a)
    (ax_xlim a) (ax_ylim a) (ax_zlim a) (ax_legend a) (ax_tick_labelsize a) (ax_artists a).

Definition with_zlabel (v : string * string) (a : Axes) : Axes :=
  mk_Axes (ax_fig a) (ax_3d a) (ax_title a) (ax_xlabel a) (ax_ylabel a) (Some v)
    (ax_xlim a) (ax_ylim a) (ax_zlim a) (ax_legend a) (ax_tick_labelsize a) (ax_artists a).

Definition with_xlim (v : Q * Q) (a : Axes) : Axes :=
  mk_Axes (ax_fig a) (ax_3d a) (ax_title a) (ax_xlabel a) (ax_ylabel a) (ax_zlabel a)
    (Some v) (ax_ylim a) (ax_zlim a) (ax_legend a) (ax_tick_labelsize a) (ax_artists a).

Definition with_ylim (v : Q * Q) (a : Axes) : Axes :=
  mk_Axes (ax_fig a) (ax_3d a) (ax_title a) (ax_xlabel a) (ax_ylabel a) (ax_zlabel a)
    (ax_xlim a) (Some v) (ax_zlim a) (ax_legend a) (ax_tick_labelsize a) (ax_artists a).

Definition with_zlim (v : Q * Q) (a : Axes) : Axes :=
  mk_Axes (ax_fig a) (ax_3d a) (ax_title a) (ax_xlabel a) (ax_ylabel a) (ax_zlabel a)
    (ax_xlim a) (ax_ylim a) (Some v) (ax_legend a) (ax_tick_labelsize a) (ax_artists a).

Definition with_legend (v : string) (a : Axes) : Axes :=
  mk_Axes (ax_fig a) (ax_3d a) (ax_title a) (ax_xlabel a) (ax_ylabel a) (ax_zlabel a)
    (ax_xlim a) (ax_ylim a) (ax_zlim a) (Some v) (ax_tick_labelsize a) (ax_artists a).

Definition with_tick_labelsize (v : string) (a : Axes) : Axes :=
  mk_Axes (ax_fig a) (ax_3d a) (ax_title a) (ax_xlabel a) (ax_ylabel a) (ax_zlabel a)
    (ax_xlim a) (ax_ylim a) (ax_zlim a) (ax_legend a) (Some v) (ax_artists a).

Definition add_artist (v : artist) (a : Axes) : Axes :=
  mk_Axes (ax_fig a) (ax_3d a) (ax_title a) (ax_xlabel a) (ax_ylabel a) (ax_zlabel a)
    (ax_xlim a) (ax_ylim a) (ax_zlim a) (ax_legend a) (ax_tick_labelsize a)
    (ax_artists a ++ [v]).

(** ** The state of a run

    Axes are mutable objects that callers and callees share: they live in a
    store and are passed around as references, the index in [w_axes].
    [w_figs] holds the size of every figure created, [w_log] what the
    module's logger received, [w_ints] the number of integer objects
    allocated so far. *)

Record World : Type := mk_World {
  w_log : list string;
  w_figs : list (Q * Q);
  w_axes : list Axes;
  w_ints : nat
}.

Definition M (A : Type) : Type := World -> World * result A.

Definition ret {A : Type} (a : A) : M A := fun w => (w, Ok a).

Definition bind {A B : Type} (m : M A) (k : A -> M B) : M B :=
  fun w =>
    match m w with
    | (w', Ok a) => k a w'
    | (w', Raise e) => (w', Raise e)
    end.

Definition lift {A : Type} (r : result A) : M A := fun w => (w, r).

Declare Scope monad_scope.
Delimit Scope monad_scope with M.
Notation "x <- m ;; k" := (bind m (fun x => k))
  (at level 100, m at next level, right associativity) : monad_scope.
Notation "' p <- m ;; k" := (bind m (fun p => k))
  (at level 100, p pattern, m at next level, right associativity) : monad_scope.
Notation "m ;;; k" := (bind m (fun _ => k))
  (at level 100, right associativity) : monad_scope.

Definition when (b : bool) (m : M unit) : M unit :=
  if b then m else ret tt.

(** [rep.logger.warn(msg)] *)
Definition warn (msg : string) : M unit :=
  fun w => (mk_World (w_log w ++ [msg]) (w_figs w) (w_axes w) (w_ints w), Ok tt).

(** [try: body / except TypeError: rep.logger.exception(...); raise / else:
    return] *)
Definition except_TypeError {A : Type} (body : M A) : M A :=
  fun w =>
    match body w with
    | (w', Raise TypeError) =>
        (mk_World (w_log w' ++ ["Please check your input type"%string])
           (w_figs w') (w_axes w') (w_ints w'),
         Raise TypeError)
    | r => r
    end.

(** A run-time integer result: the shared object when the value is small,
    a new object otherwise. *)
Definition PyLong_FromSsize_t (v : Z) : M pyint :=
  fun w =>
    if small_int v then (w, Ok (mk_pyint (Cached v) v))
    else (mk_World (w_log w) (w_figs w) (w_axes w) (S (w_ints w)),
          Ok (mk_pyint (Allocated (w_ints w)) v)).

(** [len(l)] *)
Definition len {A : Type} (l : list A) : M pyint :=
  PyLong_FromSsize_t (Z.of_nat (length l)).

(** [range(n)] *)
Definition range (n : pyint) : list nat := seq 0 (Z.to_nat (int_val n)).

(** [np.arange(n)] for an integer [n] *)
Definition np_arange_int (n : pyint) : list Z :=
  map Z.of_nat (seq 0 (Z.to_nat (int_val n))).

(** [plt.subplots(1, 1, figsize=figsize)]: a new figure with one new 2-D
    axes. *)
Definition plt_subplots (figsize : Q * Q) : M (nat * nat) :=
  fun w =>
    let fig := length (w_figs w) in
    let ax := length (w_axes w) in
    (mk_World (w_log w) (w_figs w ++ [figsize]) (w_axes w ++ [new_Axes fig false]) (w_ints w),
     Ok (fig, ax)).

(** [Axes3D(fig)]: a new 3-D axes on [fig]. *)
Definition Axes3D (fig : nat) : M nat :=
  fun w =>
    let ax := length (w_axes w) in
    (mk_World (w_log w) (w_figs w) (w_axes w ++ [new_Axes fig true]) (w_ints w), Ok ax).

Definition update_axes (ax : nat) (f : Axes -> Axes) : M unit :=
  fun w =>
    (mk_World (w_log w) (w_figs w)
       (match nth_error (w_axes w) ax with
        | Some a => list_set (w_axes w) ax (f a)
        | None => w_axes w
        end)
       (w_ints w),
     Ok tt).

(** [hasattr(ax, 'get_zlim')] *)
Definition has_get_zlim (ax : nat) : M bool :=
  fun w =>
    (w, Ok match nth_error (w_axes w) ax with
           | Some a => ax_3d a
           | None => false
           end).

Definition ax_plot (ax : nat) (x : list Z) (y : list Q) (fmt : string) (lw : Z)
    (label : string) : M unit :=
  update_axes ax (add_artist (Line2D x y fmt lw label)).

Definition ax_set_title (ax : nat) (title fontsize : string) : M unit :=
  update_axes ax (with_title (title, fontsize)).

Definition ax_legend_ (ax : nat) (fontsize : string) : M unit :=
  update_axes ax (with_legend fontsize).

Definition ax_set_xlabel (ax : nat) (label fontsize : string) : M unit :=
  update_axes ax (with_xlabel (label, fontsize)).

Definition ax_set_ylabel (ax : nat) (label fontsize : string) : M unit :=
  update_axes ax (with_ylabel (label, fontsize)).

Definition ax_set_zlabel (ax : nat) (label fontsize : string) : M unit :=
  update_axes ax (with_zlabel (label, fontsize)).

Definition ax_set_xlim (ax : nat) (lim : Q * Q) : M unit :=
  update_axes ax (with_xlim lim).

Definition ax_set_ylim (ax : nat) (lim : Q * Q) : M unit :=
  update_axes ax (with_ylim lim).

Definition ax_set_zlim (ax : nat) (lim : Q * Q) : M unit :=
  update_axes ax (with_zlim lim).

Definition ax_tick_params (ax : nat) (labelsize : string) : M unit :=
  update_axes ax (with_tick_labelsize labelsize).

(** [ax.contour(xx, yy, zz, levels=levels)] checks its arguments before it
    draws: [zz] must have at least two rows and two columns, otherwise
    [TypeError] is raised; of more than one level each must be greater than
    the one before, otherwise [ValueError] is raised. *)
Fixpoint increasing (levels : list Q) : bool :=
  match levels with
  | a :: t => match t with
              | b :: _ => negb (Qle_bool b a) && increasing t
              | [] => true
              end
  | [] => true
  end.

Definition contour_args (zz : grid) (levels : list Q) : result unit :=
  if (fst (g_shape zz) <? 2)%nat || (snd (g_shape zz) <? 2)%nat then Raise TypeError
  else if increasing levels then Ok tt
  else Raise ValueError.

Definition ax_contour (ax : nat) (xx yy zz : grid) (levels : list Q) : M unit :=
  (lift (contour_args zz levels) ;;;
   update_axes ax (add_artist (ContourSet xx yy zz levels)))%M.

Definition ax_plot_surface (ax : nat) (xx yy zz : grid) (cmap : string) (alpha : Q) : M unit :=
  update_axes ax (add_artist (Poly3DCollection xx yy zz cmap alpha)).

(** [ax.scatter(c0, c1, ..., color=color, marker=marker)] for one point *)
Definition ax_scatter_point (ax : nat) (coords : list Q) (color marker : string) : M unit :=
  update_axes ax (add_artist (MarkPoint coords color marker)).

(** [ax.scatter(x=[], y=[], c=c, alpha=alpha, **kwargs)] and its 3-D form
    with [xs], [ys], [zs]: an empty collection, which is returned. *)
Definition ax_scatter_empty (ax : nat) (is3d : bool) (c : string) (alpha : Q)
    (kwargs : list (string * string)) : M PathCollection :=
  let plot :=
    mk_PathCollection (mk_ndarray 2 [])
      (if is3d then Some (mk_ndarray 0 [[]; []; []]) else None) c alpha kwargs in
  (update_axes ax (add_artist (Scatter plot)) ;;; ret plot)%M.

(** ** formatters.Designer and formatters.Animator *)

Module Designer.
Record t : Type := mk {
  figsize : Q * Q;
  title_fontsize : string;
  text_fontsize : string;
  legend : string;
  label : list string;
  limits : list (Q * Q);
  colormap : string
}.
End Designer.

Module Animator.
Record t : Type := mk {
  interval : Z;
  repeat : bool;
  repeat_delay : option Z
}.
End Animator.

(** ** _animate and matplotlib.animation.FuncAnimation *)

Definition _animate (i : nat) (data : ndarray3) (plot : PathCollection)
    : result PathCollection :=
  (current_pos <- getitem3 data (Z.of_nat i) ;;
   if (nd_cols current_pos =? 2)%nat
   then Ok (set_offsets plot current_pos)
   else Ok (set__offsets3d plot (transpose current_pos)))%res.

Module FuncAnimation.
Record t : Type := mk {
  fig : nat;
  func : nat -> ndarray3 -> PathCollection -> result PathCollection;
  frames : list nat;
  fargs : ndarray3 * PathCollection;
  interval : Z;
  repeat : bool;
  repeat_delay : option Z
}.
End FuncAnimation.

(** What the animation draws for frame [i]: [func(i, *fargs)]. *)
Definition draw_frame (anim : FuncAnimation.t) (i : nat) : result PathCollection :=
  FuncAnimation.func anim i (fst (FuncAnimation.fargs anim)) (snd (FuncAnimation.fargs anim)).

(** ** The plotting functions *)

(** [if v is None: v = d] *)
Definition or_default {A : Type} (v : option A) (d : A) : A :=
  match v with
  | Some a => a
  | None => d
  end.

Section Plotters.

(** The attribute values [Designer()] and [Animator()] give when nothing is
    passed; the classes are defined in [formatters]. *)
Variable Designer_defaults : Designer.t.
Variable Animator_defaults : Animator.t.

(** [Designer(legend=..., label=..., limits=..., colormap=...)]: the keyword
    arguments given replace the defaults. *)
Definition Designer_init (legend : option string) (label : option (list string))
    (limits : option (list (Q * Q))) (colormap : option string) : Designer.t :=
  let d := Designer_defaults in
  Designer.mk (Designer.figsize d) (Designer.title_fontsize d) (Designer.text_fontsize d)
    (match legend with Some v => v | None => Designer.legend d end)
    (match label with Some v => v | None => Designer.label d end)
    (match limits with Some v => v | None => Designer.limits d end)
    (match colormap with Some v => v | None => Designer.colormap d end).

Definition cm_viridis : string := "viridis".

(** The designers the three functions fall back to. *)
Definition cost_history_designer : Designer.t :=
  Designer_init (Some "Cost"%string) (Some ["Iterations"; "Cost"]%string) None None.

Definition contour_designer : Designer.t :=
  Designer_init None (Some ["x-axis"; "y-axis"]%string) (Some [(-1, 1); (-1, 1)]%Q) None.

Definition surface_designer : Designer.t :=
  Designer_init None (Some ["x-axis"; "y-axis"; "z-axis"]%string)
    (Some [(-1, 1); (-1, 1); (-1, 1)]%Q) (Some cm_viridis).

Definition plot_cost_history (cost_history : list Q) (ax : option nat) (title : string)
    (designer : option Designer.t) : M nat :=
  except_TypeError
    (iters <- len cost_history ;;
     let designer := or_default designer cost_history_designer in
     ax <- match ax with
           | None => ' (_, ax) <- plt_subplots (Designer.figsize designer) ;; ret ax
           | Some a => ret a
           end ;;
     ax_plot ax (np_arange_int iters) cost_history "k" 2 (Designer.legend designer) ;;;
     ax_set_title ax title (Designer.title_fontsize designer) ;;;
     ax_legend_ ax (Designer.text_fontsize designer) ;;;
     xl <- lift (py_getitem (Designer.label designer) 0) ;;
     ax_set_xlabel ax xl (Designer.text_fontsize designer) ;;;
     yl <- lift (py_getitem (Designer.label designer) 1) ;;
     ax_set_ylabel ax yl (Designer.text_fontsize designer) ;;;
     ax_tick_params ax (Designer.text_fontsize designer) ;;;
     ret ax)%M.

(** *** plot_contour

    The blocks of the body carry the names of the source's comments. *)

(** [# Input checks] *)
Definition plot_contour_input_checks (designer : Designer.t) (n_dim x y : pyint) : M unit :=
  (when (int_val n_dim <? 2)
     (warn "Given pos_history has too less dimensions to be plotted in 2D.") ;;;
   n_limits <- len (Designer.limits designer) ;;
   when (py_is_not n_limits n_dim)
     (warn "Limits in designer has incorrect dimensions.") ;;;
   n_label <- len (Designer.label designer) ;;
   when (py_is_not n_label n_dim)
     (warn "Labels in designer has incorrect dimensions.") ;;;
   when ((int_val x <? 0) || (int_val x >=? int_val n_dim))
     (warn "Index of dimension to plot on x-axis out of bound.") ;;;
   when ((int_val y <? 0) || (int_val y >=? int_val n_dim))
     (warn "Index of dimension to plot on y-axis out of bound.") ;;;
   when (py_is x y)
     (warn "Index for plotting x- and y-axis is the same, that is probably not what you want."))%M.

(** [# Customize plot] *)
Definition plot_contour_customize (ax : nat) (title : string) (designer : Designer.t)
    (x y : pyint) : M unit :=
  (ax_set_title ax title (Designer.title_fontsize designer) ;;;
   xl <- lift (py_getitem (Designer.label designer) (int_val x)) ;;
   ax_set_xlabel ax xl (Designer.text_fontsize designer) ;;;
   yl <- lift (py_getitem (Designer.label designer) (int_val y)) ;;
   ax_set_ylabel ax yl (Designer.text_fontsize designer) ;;;
   xlim <- lift (py_getitem (Designer.limits designer) (int_val x)) ;;
   ax_set_xlim ax xlim ;;;
   ylim <- lift (py_getitem (Designer.limits designer) (int_val y)) ;;
   ax_set_ylim ax ylim)%M.

(** [# Make a contour map if possible] *)
Definition plot_contour_mesh (ax : nat) (mesher : option Mesher.t) (n_dim : pyint)
    (n_processes : option Z) (x y : pyint) (best_pos : option vector) : M unit :=
  match mesher with
  | Some mesher =>
      (n_mlimits <- len (Mesher.limits mesher) ;;
       when (py_is_not n_mlimits n_dim)
         (warn "Limits in mesher has incorrect dimensions.") ;;;
       ' (xx, yy, zz) <- lift (_mesh mesher n_processes (int_val x) (int_val y) best_pos) ;;
       ax_contour ax xx yy zz (Mesher.levels mesher))%M
  | None => ret tt
  end.

(** [# Mark global best if possible] *)
Definition plot_contour_mark (ax : nat) (mark : option (list Q)) (n_dim x y : pyint)
    : M unit :=
  match mark with
  | Some mark =>
      (n_mark <- len mark ;;
       if int_val n_mark <? 2 then
         warn "Given mark has too less values to be plotted."
       else
         n_mark <- len mark ;;
         if py_is n_mark (int_literal 2) then
           m0 <- lift (py_getitem mark 0) ;;
           m1 <- lift (py_getitem mark 1) ;;
           ax_scatter_point ax [m0; m1] "red" "x"
         else
           n_mark <- len mark ;;
           if py_is n_mark n_dim then
             mx <- lift (py_getitem mark (int_val x)) ;;
             my <- lift (py_getitem mark (int_val y)) ;;
             ax_scatter_point ax [mx; my] "red" "x"
           else
             warn "Number of dimensions of given mark does not fit plotting dimension nor problem dimension.")%M
  | None => ret tt
  end.

Definition plot_contour (pos_history : ndarray3) (canvas : option (nat * nat))
    (title : string) (mark : option (list Q)) (designer : option Designer.t)
    (mesher : option Mesher.t) (animator : option Animator.t) (n_processes : option Z)
    (x y : pyint) (best_pos : option vector) (kwargs : list (string * string))
    : M FuncAnimation.t :=
  except_TypeError
    (let designer := or_default designer contour_designer in
     let animator := or_default animator Animator_defaults in
     ' (fig, ax) <- match canvas with
                    | None => plt_subplots (Designer.figsize designer)
                    | Some c => ret c
                    end ;;
     first <- lift (getitem3 pos_history 0) ;;
     n_dim <- PyLong_FromSsize_t (Z.of_nat (nd_cols first)) ;;
     plot_contour_input_checks designer n_dim x y ;;;
     n_iters <- len (nd3_iters pos_history) ;;
     plot_contour_customize ax title designer x y ;;;
     plot_contour_mesh ax mesher n_dim n_processes x y best_pos ;;;
     plot_contour_mark ax mark n_dim x y ;;;
     plot <- ax_scatter_empty ax false "black" (6 # 10) kwargs ;;
     pos_history <- lift (take_columns pos_history [int_val x; int_val y]) ;;
     ret (FuncAnimation.mk fig _animate (range n_iters) (pos_history, plot)
            (Animator.interval animator) (Animator.repeat animator)
            (Animator.repeat_delay animator)))%M.

(** *** plot_surface *)

(** [# Input checks] *)
Definition plot_surface_input_checks (designer : Designer.t) (n_dim x y : pyint) : M unit :=
  (when (int_val n_dim <? 2)
     (warn "Given pos_history has too less dimensions to be plotted in 3D.") ;;;
   n_limits <- len (Designer.limits designer) ;;
   n_dim1 <- PyLong_FromSsize_t (int_val n_dim + 1) ;;
   when (py_is_not n_limits n_dim1)
     (warn "Limits in designer has incorrect dimensions.") ;;;
   n_label <- len (Designer.label designer) ;;
   n_dim1 <- PyLong_FromSsize_t (int_val n_dim + 1) ;;
   when (py_is_not n_label n_dim1)
     (warn "Labels in designer has incorrect dimensions.") ;;;
   when ((int_val x <? 0) || (int_val x >=? int_val n_dim))
     (warn "Index of dimension to plot on x-axis out of bound.") ;;;
   when ((int_val y <? 0) || (int_val y >=? int_val n_dim))
     (warn "Index of dimension to plot on y-axis out of bound.") ;;;
   when (py_is x y)
     (warn "Index for plotting x- and y-axis is the same, that is probably not what you want."))%M.

(** [# Customize plot] *)
Definition plot_surface_customize (ax : nat) (title : string) (designer : Designer.t)
    (n_dim x y : pyint) : M unit :=
  (ax_set_title ax title (Designer.title_fontsize designer) ;;;
   xl <- lift (py_getitem (Designer.label designer) (int_val x)) ;;
   ax_set_xlabel ax xl (Designer.text_fontsize designer) ;;;
   yl <- lift (py_getitem (Designer.label designer) (int_val y)) ;;
   ax_set_ylabel ax yl (Designer.text_fontsize designer) ;;;
   zl <- lift (py_getitem (Designer.label designer) (int_val n_dim)) ;;
   ax_set_zlabel ax zl (Designer.text_fontsize designer) ;;;
   xlim <- lift (py_getitem (Designer.limits designer) (int_val x)) ;;
   ax_set_xlim ax xlim ;;;
   ylim <- lift (py_getitem (Designer.limits designer) (int_val y)) ;;
   ax_set_ylim ax ylim ;;;
   zlim <- lift (py_getitem (Designer.limits designer) (int_val n_dim)) ;;
   ax_set_zlim ax zlim)%M.

(** [# mesher] *)
Definition plot_surface_mesh (ax : nat) (designer : Designer.t) (mesher : option Mesher.t)
    (n_dim : pyint) (n_processes : option Z) (x y : pyint) (best_pos : option vector)
    : M unit :=
  match mesher with
  | Some mesher =>
      (n_mlimits <- len (Mesher.limits mesher) ;;
       when (py_is_not n_mlimits n_dim)
         (warn "Limits in mesher has incorrect dimensions.") ;;;
       ' (xx, yy, zz) <- lift (_mesh mesher n_processes (int_val x) (int_val y) best_pos) ;;
       ax_plot_surface ax xx yy zz (Designer.colormap designer) (Mesher.alpha mesher))%M
  | None => ret tt
  end.

(** [# Mark global best if possible] *)
Definition plot_surface_mark (ax : nat) (mark : option (list Q)) (n_dim x y : pyint)
    : M unit :=
  match mark with
  | Some mark =>
      (n_mark <- len mark ;;
       if int_val n_mark <? 3 then
         warn "Given mark has too less values to be plotted."
       else
         n_mark <- len mark ;;
         if int_val n_mark =? 3 then
           m0 <- lift (py_getitem mark 0) ;;
           m1 <- lift (py_getitem mark 1) ;;
           m2 <- lift (py_getitem mark 2) ;;
           ax_scatter_point ax [m0; m1; m2] "red" "x"
         else
           n_mark <- len mark ;;
           n_dim1 <- PyLong_FromSsize_t (int_val n_dim + 1) ;;
           if int_val n_mark =? int_val n_dim1 then
             mx <- lift (py_getitem mark (int_val x)) ;;
             my <- lift (py_getitem mark (int_val y)) ;;
             mz <- lift (py_getitem mark (int_val n_dim)) ;;
             ax_scatter_point ax [mx; my; mz] "red" "x"
           else
             warn "Number of dimensions of given mark does not fit plotting dimension nor problem dimension.")%M
  | None => ret tt
  end.

Definition plot_surface (pos_history : ndarray3) (canvas : option (nat * nat))
    (title : string) (designer : option Designer.t) (mesher : option Mesher.t)
    (animator : option Animator.t) (mark : option (list Q)) (n_processes : option Z)
    (x y : pyint) (best_pos : option vector) (kwargs : list (string * string))
    : M FuncAnimation.t :=
  except_TypeError
    (let designer := or_default designer surface_designer in
     let animator := or_default animator Animator_defaults in
     ' (fig, ax) <- match canvas with
                    | None => plt_subplots (Designer.figsize designer)
                    | Some c => ret c
                    end ;;
     first <- lift (getitem3 pos_history 0) ;;
     n_cols <- PyLong_FromSsize_t (Z.of_nat (nd_cols first)) ;;
     n_dim <- PyLong_FromSsize_t (int_val n_cols - 1) ;;
     plot_surface_input_checks designer n_dim x y ;;;
     is3d <- has_get_zlim ax ;;
     ax <- (if negb is3d then Axes3D fig else ret ax) ;;
     n_iters <- len (nd3_iters pos_history) ;;
     plot_surface_customize ax title designer n_dim x y ;;;
     plot_surface_mesh ax designer mesher n_dim n_processes x y best_pos ;;;
     plot_surface_mark ax mark n_dim x y ;;;
     plot <- ax_scatter_empty ax true "black" (6 # 10) kwargs ;;
     first <- lift (getitem3 pos_history 0) ;;
     n_cols <- PyLong_FromSsize_t (Z.of_nat (nd_cols first)) ;;
     last <- PyLong_FromSsize_t (int_val n_cols - 1) ;;
     pos_history <- lift (take_columns pos_history [int_val x; int_val y; int_val last]) ;;
     ret (FuncAnimation.mk fig _animate (range n_iters) (pos_history, plot)
            (Animator.interval animator) (Animator.repeat animator)
            (Animator.repeat_delay animator)))%M.

End Plotters.

(** ** Vocabulary of the statements *)

(** The objective function computes one value per row, each from that row
    alone. *)
Definition row_wise (f : ndarray pyobj -> list Q) : Prop :=
  exists g : list pyobj -> Q, forall a, f a = map g (nd_rows a).

(** The objective function returns one value per row it is given. *)
Definition one_value_per_row (f : ndarray pyobj -> list Q) : Prop :=
  forall a, length (f a) = length (nd_rows a).

(** The grid points in the order [_mesh] lists them: for every [y], every
    [x]. *)
Definition grid_pairs (xs ys : list Q) : list (Q * Q) :=
  flat_map (fun yj => map (fun xi => (xi, yj)) xs) ys.

(** One row of [np.tile(best_pos, (n, 1))], and its width. *)
Definition tile_row (best_pos : option vector) : list pyobj :=
  match best_pos with
  | Some (Floats v) => map PyFloat v
  | Some (Ints v) => map PyInt v
  | None => [PyNone]
  end.

Definition tile_width (best_pos : option vector) : Z :=
  Z.of_nat (length (tile_row best_pos)).

(** [_mesh] is called with the defaults [x_index=0, y_index=1,
    best_pos=None]. *)
Definition default_case (x_index y_index : Z) (best_pos : option vector) : Prop :=
  x_index = 0 /\ y_index = 1 /\ best_pos = None.

(** Both indices are column indices of the tiled [best_pos]. *)
Definition columns_of_tile (x_index y_index : Z) (best_pos : option vector) : Prop :=
  (- tile_width best_pos <= x_index < tile_width best_pos)
  /\ (- tile_width best_pos <= y_index < tile_width best_pos).

(** A grid coordinate as the tiled [best_pos] stores it: as it is in a
    float or object array, without its fraction in an integer array. *)
Definition stored (best_pos : option vector) (q : Q) : pyobj :=
  astype (tile_dtype best_pos) (PyFloat q).

(** The rows [_mesh] hands to the objective function for the axes [xs] and
    [ys]: the pairs themselves in the default case, otherwise the tiled
    [best_pos] with the two columns overwritten. *)
Definition mesh_row (multi : bool) (best_pos : option vector) (kx ky : nat)
    (p : Q * Q) : list pyobj :=
  if multi
  then list_set (list_set (tile_row best_pos) kx (stored best_pos (fst p))) ky
         (stored best_pos (snd p))
  else [PyFloat (fst p); PyFloat (snd p)].

Definition multi_dimension (x_index y_index : Z) (best_pos : option vector) : bool :=
  negb (x_index =? 0) || negb (y_index =? 1) || is_not_None best_pos.

Definition mesh_points (x_index y_index : Z) (best_pos : option vector)
    (xs ys : list Q) : result (ndarray pyobj) :=
  if multi_dimension x_index y_index best_pos then
    (kx <- norm_index (length (tile_row best_pos)) x_index ;;
     ky <- norm_index (length (tile_row best_pos)) y_index ;;
     Ok (mk_ndarray (length (tile_row best_pos))
           (map (mesh_row true best_pos kx ky) (grid_pairs xs ys))))%res
  else Ok (mk_ndarray 2 (map (mesh_row false best_pos 0 0) (grid_pairs xs ys))).

(** [p] has the coordinates of [row], except [cx] at [x_index] and [cy] at
    [y_index]. *)
Definition point_with (x_index y_index : nat) (cx cy : pyobj) (row p : list pyobj)
    : Prop :=
  length p = length row
  /\ nth_error p y_index = Some cy
  /\ (x_index <> y_index -> nth_error p x_index = Some cx)
  /\ (forall k, k <> x_index -> k <> y_index -> nth_error p k = nth_error row k).

(** [p] is the point [_mesh] evaluates for the grid point [(xi, yj)].
    Without [best_pos] it is the pair itself.  With a float [best_pos] it
    has [xi] at coordinate [x_index], [yj] at coordinate [y_index] and
    every other coordinate taken from [best_pos].  With an integer
    [best_pos] the two coordinates are [xi] and [yj] without their
    fractions. *)
Definition is_grid_point (x_index y_index : nat) (best_pos : option vector)
    (xi yj : Q) (p : list pyobj) : Prop :=
  match best_pos with
  | None => p = [PyFloat xi; PyFloat yj]
  | Some (Floats v) =>
      point_with x_index y_index (PyFloat xi) (PyFloat yj) (map PyFloat v) p
  | Some (Ints v) =>
      point_with x_index y_index (PyInt (float_to_int64 xi)) (PyInt (float_to_int64 yj))
        (map PyInt v) p
  end.

(** The indices are the defaults, or [best_pos] is given and has both
    coordinates. *)
Definition hidden_dimensions_given (x_index y_index : nat) (best_pos : option vector)
    : Prop :=
  default_case (Z.of_nat x_index) (Z.of_nat y_index) best_pos
  \/ exists v, best_pos = Some v
               /\ (x_index < vector_len v)%nat /\ (y_index < vector_len v)%nat.

(** The call of [_mesh] with the result [r] returned three arrays for the
    axes [xs] and [ys]: [xx[j, i]] is [x_i], [yy[j, i]] is [y_j], [zz] has
    their shape and [zz[j, i]] is the value of [g] at a point that [point]
    relates to [(x_i, y_j)]. *)
Definition evaluates_grid (r : result (grid * grid * grid)) (xs ys : list Q)
    (g : list pyobj -> Q) (point : Q -> Q -> list pyobj -> Prop) : Prop :=
  exists xx yy zz,
    r = Ok (xx, yy, zz)
    /\ g_shape xx = (length ys, length xs)
    /\ g_shape zz = g_shape xx
    /\ forall (j i : nat) (xi yj : Q),
         nth_error xs i = Some xi ->
         nth_error ys j = Some yj ->
         grid_at xx j i = Some xi
         /\ grid_at yy j i = Some yj
         /\ exists p, grid_at zz j i = Some (g p) /\ point xi yj p.

(** *** Runs of the plotting functions *)

(** The run of [m] from [w] returns normally, with a value and a final
    state that satisfy [Q]. *)
Definition returns {A : Type} (m : M A) (w : World) (Q : A -> World -> Prop) : Prop :=
  exists a w1, m w = (w1, Ok a) /\ Q a w1.

(** The state changes the primitives make. *)
Definition log_msg (msg : string) (w : World) : World :=
  mk_World (w_log w ++ [msg]) (w_figs w) (w_axes w) (w_ints w).

Definition log_if (b : bool) (msg : string) (w : World) : World :=
  if b then log_msg msg w else w.

Definition alloc_for (v : Z) (w : World) : World :=
  if small_int v then w
  else mk_World (w_log w) (w_figs w) (w_axes w) (S (w_ints w)).

Definition int_for (v : Z) (w : World) : pyint :=
  if small_int v then mk_pyint (Cached v) v
  else mk_pyint (Allocated (w_ints w)) v.

Definition modify_axes (ax : nat) (f : Axes -> Axes) (w : World) : World :=
  mk_World (w_log w) (w_figs w)
    (match nth_error (w_axes w) ax with
     | Some a => list_set (w_axes w) ax (f a)
     | None => w_axes w
     end)
    (w_ints w).

(** An axes without what was drawn on it: its figure, kind, title, labels,
    limits, legend and tick size. *)
Definition decor (a : Axes) : Axes :=
  mk_Axes (ax_fig a) (ax_3d a) (ax_title a) (ax_xlabel a) (ax_ylabel a) (ax_zlabel a)
    (ax_xlim a) (ax_ylim a) (ax_zlim a) (ax_legend a) (ax_tick_labelsize a) [].

(** From [w] to [w1] the log and the integer objects only grew and the
    axes [ax], if it exists, kept its decor: at most artists were added. *)
Record grows (ax : nat) (w w1 : World) : Prop := mk_grows {
  grows_figs : w_figs w1 = w_figs w;
  grows_log : exists msgs, w_log w1 = w_log w ++ msgs;
  grows_ints : (w_ints w <= w_ints w1)%nat;
  grows_decor : forall a, nth_error (w_axes w) ax = Some a ->
                exists a1, nth_error (w_axes w1) ax = Some a1 /\ decor a1 = decor a
}.

(** The integer object [n] exists in [w]: a shared small integer, or one
    allocated earlier. *)
Definition int_known (n : pyint) (w : World) : Prop :=
  match int_id n with
  | Cached v => int_val n = v
  | Allocated a => (a < w_ints w)%nat
  end.

(** The mesher, when there is one, gives a mesh for these arguments. *)
Definition mesh_ready (mesher : option Mesher.t) (n_processes : option Z)
    (x_index y_index : Z) (best_pos : option vector) : Prop :=
  match mesher with
  | None => True
  | Some m => exists r, _mesh m n_processes x_index y_index best_pos = Ok r
  end.

(** The mesher, when there is one, gives a mesh of at least two rows and
    two columns. *)
Definition mesh_drawable (mesher : option Mesher.t) (n_processes : option Z)
    (x_index y_index : Z) (best_pos : option vector) : Prop :=
  match mesher with
  | None => True
  | Some m =>
      exists xx yy zz,
        _mesh m n_processes x_index y_index best_pos = Ok (xx, yy, zz)
        /\ (2 <= fst (g_shape zz))%nat /\ (2 <= snd (g_shape zz))%nat
  end.

(** The mesher, when there is one, gives what [ax.contour] accepts: a mesh
    of at least two rows and two columns, and levels in increasing order. *)
Definition contour_ready (mesher : option Mesher.t) (n_processes : option Z)
    (x_index y_index : Z) (best_pos : option vector) : Prop :=
  mesh_drawable mesher n_processes x_index y_index best_pos
  /\ match mesher with
     | None => True
     | Some m => increasing (Mesher.levels m) = true
     end.

(** [i] is an index of a sequence of length [n], counted from either end. *)
Definition index_of (n : Z) (i : Z) : Prop := - n <= i < n.

(** The canvas, when given, holds an axes of the state. *)
Definition canvas_live (canvas : option (nat * nat)) (w : World) : Prop :=
  match canvas with
  | Some c => (snd c < length (w_axes w))%nat
  | None => True
  end.

(** The figure and the axes a call draws on: those of the canvas, or the
    next new ones. *)
Definition canvas_fig (canvas : option (nat * nat)) (w : World) : nat :=
  match canvas with
  | Some c => fst c
  | None => length (w_figs w)
  end.

Definition canvas_ax (canvas : option (nat * nat)) (w : World) : nat :=
  match canvas with
  | Some c => snd c
  | None => length (w_axes w)
  end.

(** The empty collections [ax.scatter] returns in 2-D and in 3-D. *)
Definition empty_scatter (is3d : bool) (kwargs : list (string * string)) : PathCollection :=
  mk_PathCollection (mk_ndarray 2 [])
    (if is3d then Some (mk_ndarray 0 [[]; []; []]) else None) "black" (6 # 10) kwargs.

(** The columns [ks] of every position of a history. *)
Definition columns (ks : list nat) (pos_history : ndarray3) : ndarray3 :=
  mk_ndarray3 (nd3_particles pos_history) (length ks)
    (map (map (fun row => map (fun k => nth k row 0%Q) ks)) (nd3_iters pos_history)).

(** [ax] is a 3-D axes of the state. *)
Definition is_3d (w : World) (ax : nat) : bool :=
  match nth_error (w_axes w) ax with
  | Some a => ax_3d a
  | None => false
  end.

(** The axes [plot_surface] draws on: the canvas's when it is 3-D, otherwise
    a new 3-D axes. *)
Definition surface_ax (canvas : option (nat * nat)) (w : World) : nat :=
  match canvas with
  | Some c => if is_3d w (snd c) then snd c else length (w_axes w)
  | None => S (length (w_axes w))
  end.

(** The designer has a label and limits at every one of the indices. *)
Definition designer_covers (d : Designer.t) (idxs : list Z) : Prop :=
  Forall (fun i => index_of (Z.of_nat (length (Designer.label d))) i
                   /\ index_of (Z.of_nat (length (Designer.limits d))) i) idxs.

(** The axes argument, when given, is an axes of the state. *)
Definition ax_live (ax : option nat) (w : World) : Prop :=
  match ax with
  | Some r => (r < length (w_axes w))%nat
  | None => True
  end.

(** The line [plot_cost_history] draws. *)
Definition cost_line (cost_history : list Q) (legend : string) : artist :=
  Line2D (map Z.of_nat (seq 0 (length cost_history))) cost_history "k" 2 legend.

(** The points of a line: its x data paired with its y data. *)
Definition line_points (a : artist) : list (Z * Q) :=
  match a with
  | Line2D xdata ydata _ _ _ => combine xdata ydata
  | _ => []
  end.

(** The positions of one iteration restricted to the columns [ks]. *)
Definition restrict (ks : list nat) (positions : list (list Q)) : ndarray Q :=
  mk_ndarray (length ks) (map (fun row => map (fun k => nth k row 0%Q) ks) positions).

(** Two rows agree on the columns selected by the indices [idxs], and two
    histories have the same shape and agree on these columns at every
    iteration and particle. *)
Definition same_columns (dims : nat) (idxs : list Z) (r1 r2 : list Q) : Prop :=
  forall (i : Z) (k : nat),
    In i idxs -> norm_index dims i = Ok k -> nth k r1 0%Q = nth k r2 0%Q.

Definition histories_agree (idxs : list Z) (h1 h2 : ndarray3) : Prop :=
  nd3_particles h1 = nd3_particles h2
  /\ nd3_dims h1 = nd3_dims h2
  /\ Forall2 (Forall2 (same_columns (nd3_dims h1) idxs)) (nd3_iters h1) (nd3_iters h2).

(** Whatever its outcome, [m] only appends to the log. *)
Definition log_kept {A : Type} (m : M A) : Prop :=
  forall w, exists msgs, w_log (fst (m w)) = w_log w ++ msgs.

(** [m] raises from every state. *)
Definition raises {A : Type} (m : M A) : Prop :=
  forall w, exists e, snd (m w) = Raise e.

(** [m] raises from every state, an exception that satisfies [P]. *)
Definition raises_with {A : Type} (P : exn -> Prop) (m : M A) : Prop :=
  forall w, exists e, snd (m w) = Raise e /\ P e.

(** Whenever [m] raises, the exception satisfies [P]. *)
Definition fails_with {A : Type} (P : exn -> Prop) (m : M A) : Prop :=
  forall w e, snd (m w) = Raise e -> P e.

(** Whenever the run of [m] from [w] returns, its value and final state
    satisfy [Q]. *)
Definition yields {A : Type} (m : M A) (w : World) (Q : A -> World -> Prop) : Prop :=
  forall a w1, m w = (w1, Ok a) -> Q a w1.

(** Whatever its outcome, [m] only appends to the log, allocates integers
    and adds artists to the axes [ax]. *)
Definition keeps_decor {A : Type} (ax : nat) (m : M A) : Prop :=
  forall w, grows ax w (fst (m w)).

(** *** Values for the examples *)

Definition example_designer : Designer.t :=
  Designer.mk (10, 8)%Q "large" "medium" "Cost" ["x-axis"; "y-axis"; "z-axis"]%string
    [(-1, 1); (-1, 1); (-1, 1)]%Q "viridis".

Definition example_animator : Animator.t := Animator.mk 80 true None.

Definition empty_world : World := mk_World [] [] [] 0.

(** Two iterations of two particles in two dimensions. *)
Definition flat_history : ndarray3 :=
  mk_ndarray3 2 2 [[[1; 2]; [3; 4]]; [[5; 6]; [7; 8]]]%Q.

(** Two iterations of two particles in three columns, and a history that
    differs from it in the last column only. *)
Definition deep_history : ndarray3 :=
  mk_ndarray3 2 3 [[[1; 2; 3]; [4; 5; 6]]; [[7; 8; 9]; [10; 11; 12]]]%Q.

Definition other_deep_history : ndarray3 :=
  mk_ndarray3 2 3 [[[1; 2; 30]; [4; 5; 60]]; [[7; 8; 90]; [10; 11; 120]]]%Q.

(** One iteration of one particle in 257 dimensions, and a designer with
    257 labels and 257 limits. *)
Definition wide_history : ndarray3 :=
  mk_ndarray3 1 257 [[List.repeat 0%Q 257]].

Definition wide_designer : Designer.t :=
  Designer.mk (10, 8)%Q "large" "medium" "Cost" (List.repeat "axis"%string 257)
    (List.repeat (-1, 1)%Q 257) "viridis".

(** The number of processes is absent or positive. *)
Definition pool_size_ok (n_processes : option Z) : Prop :=
  match n_processes with
  | None => True
  | Some n => 0 < n
  end.

(** An objective function for the examples: the sum of the squares of the
    floats of each row. *)
Definition sum_squares_row (row : list pyobj) : Q :=
  fold_right (fun o acc => match o with
                           | PyFloat q => Qred (q * q + acc)
                           | PyInt z => Qred (inject_Z (z * z) + acc)
                           | PyNone => acc
                           end) 0%Q row.

Definition sum_squares (a : ndarray pyobj) : list Q :=
  map sum_squares_row (nd_rows a).

(** A mesher for the examples: two axes from 0 to 1 in steps of 1/2, and
    the values [np.arange(0, 1, 1/2)] of each axis. *)
Definition example_mesher : Mesher.t :=
  Mesher.mk sum_squares (1 # 2) [(0, 1); (0, 1)]%Q [] 1%Q.

Definition example_axis : list Q := [0 # 2; 1 # 2].

(** Both sides run the same step first: continue with its result. *)
Ltac same_step :=
  match goal with
  | |- rbind ?r _ = rbind ?r _ => destruct r; cbn [rbind]; [|reflexivity]
  end.

(** ** Vocabulary of the further properties *)

(** Whatever its outcome, [m] leaves the log as it is and does not raise
    [TypeError]. *)
Definition quiet {A : Type} (m : M A) : Prop :=
  forall w, w_log (fst (m w)) = w_log w /\ snd (m w) <> Raise TypeError.

(** What the input checks of [plot_contour] are to log for [n_dim]
    dimensions, the lengths compared by value. *)
Definition expected_contour_warnings (d : Designer.t) (n_dim : Z) (x y : pyint)
    : list string :=
  (if n_dim <? 2
   then ["Given pos_history has too less dimensions to be plotted in 2D."%string]
   else [])
  ++ (if Z.of_nat (length (Designer.limits d)) =? n_dim
      then [] else ["Limits in designer has incorrect dimensions."%string])
  ++ (if Z.of_nat (length (Designer.label d)) =? n_dim
      then [] else ["Labels in designer has incorrect dimensions."%string])
  ++ (if (int_val x <? 0) || (int_val x >=? n_dim)
      then ["Index of dimension to plot on x-axis out of bound."%string] else [])
  ++ (if (int_val y <? 0) || (int_val y >=? n_dim)
      then ["Index of dimension to plot on y-axis out of bound."%string] else [])
  ++ (if py_is x y
      then ["Index for plotting x- and y-axis is the same, that is probably not what you want."%string]
      else []).

(** Whatever its outcome, [m] creates no figure and no axes and changes no
    axes other than [ax]. *)
Definition touches_only {A : Type} (ax : nat) (m : M A) : Prop :=
  forall w,
    w_figs (fst (m w)) = w_figs w
    /\ length (w_axes (fst (m w))) = length (w_axes w)
    /\ forall r, r <> ax -> nth_error (w_axes (fst (m w))) r = nth_error (w_axes w) r.

(** An objective function that returns no value at all, and a mesher with
    it. *)
Definition no_values (a : ndarray pyobj) : list Q := [].

Definition silent_mesher : Mesher.t :=
  Mesher.mk no_values (1 # 2) [(0, 1); (0, 1)]%Q [] 1%Q.

(** A designer with a single label. *)
Definition one_label_designer : Designer.t :=
  Designer.mk (10, 8)%Q "large" "medium" "Cost" ["Iterations"]%string
    [(-1, 1); (-1, 1)]%Q "viridis".

(** A history without iterations. *)
Definition empty_history : ndarray3 := mk_ndarray3 2 2 [].

(** One iteration of one particle in three dimensions, with its fitness in
    the fourth column. *)
Definition fitness_history : ndarray3 := mk_ndarray3 1 4 [[[1; 2; 3; 4]]]%Q.

(** A mesher with increasing levels whose mesh is 2 x 2, and one whose mesh
    is 1 x 1. *)
Definition level_mesher : Mesher.t :=
  Mesher.mk sum_squares (1 # 2) [(0, 1); (0, 1)]%Q [1 # 4; 1 # 2] 1%Q.

Definition point_mesher : Mesher.t :=
  Mesher.mk sum_squares (1 # 2) [(0, 1 # 2); (0, 1 # 2)]%Q [] 1%Q.

(** * Properties *)

(** ** Lists *)

Lemma firstn_plus {A : Type} : forall (m k : nat) (l : list A),
  firstn (m + k) l = firstn m l ++ firstn k (skipn m l).
Proof.
  induction m as [|m IH]; intros k l.
  - reflexivity.
  - destruct l as [|a l].
    + simpl. now rewrite firstn_nil.
    + simpl. now rewrite IH.
Qed.

Lemma slice_app {A : Type} : forall (l : list A) (a b c : nat),
  (a <= b)%nat -> (b <= c)%nat -> slice l a b ++ slice l b c = slice l a c.
Proof.
  intros l a b c Hab Hbc. unfold slice.
  replace (c - a)%nat with ((b - a) + (c - b))%nat by lia.
  rewrite firstn_plus, skipn_skipn.
  now replace (b - a + a)%nat with b by lia.
Qed.

Lemma slice_all {A : Type} : forall l : list A, slice l 0 (length l) = l.
Proof.
  intros l. unfold slice. rewrite Nat.sub_0_r. simpl. apply firstn_all.
Qed.

Lemma list_sum_repeat : forall a k : nat, list_sum (repeat a k) = (k * a)%nat.
Proof.
  induction k as [|k IH]; simpl; [reflexivity | now rewrite IH].
Qed.

(** ** np.array_split cuts an array into consecutive pieces *)

Lemma concat_slices {A : Type} : forall (sizes : list nat) (acc : nat) (l : list A),
  concat (map (fun i => slice l (nth i (acc :: cumsum acc sizes) O)
                                (nth (S i) (acc :: cumsum acc sizes) O))
              (seq 0 (length sizes)))
  = slice l acc (acc + list_sum sizes).
Proof.
  induction sizes as [|s sizes IH]; intros acc l.
  - simpl. unfold slice. now replace (acc + 0 - acc)%nat with O by lia.
  - cbn [length seq map concat]. rewrite <- seq_shift, map_map.
    cbn [cumsum].
    change (nth 0 (acc :: (acc + s)%nat :: cumsum (acc + s) sizes) O) with acc.
    change (nth 1 (acc :: (acc + s)%nat :: cumsum (acc + s) sizes) O) with (acc + s)%nat.
    rewrite (map_ext _ (fun i => slice l (nth i ((acc + s)%nat :: cumsum (acc + s) sizes) O)
                                       (nth (S i) ((acc + s)%nat :: cumsum (acc + s) sizes) O)))
      by reflexivity.
    rewrite IH. cbn [list_sum fold_right].
    rewrite slice_app by lia. f_equal. unfold list_sum. lia.
Qed.

Lemma section_sizes_length : forall Ntotal Nsections : nat,
  Nsections <> O ->
  length (repeat (Ntotal / Nsections + 1)%nat (Ntotal mod Nsections)
          ++ repeat (Ntotal / Nsections)%nat (Nsections - Ntotal mod Nsections)) = Nsections.
Proof.
  intros Ntotal Nsections Hn.
  rewrite length_app, !repeat_length.
  pose proof (Nat.mod_upper_bound Ntotal Nsections Hn). lia.
Qed.

Lemma section_sizes_sum : forall Ntotal Nsections : nat,
  Nsections <> O ->
  list_sum (repeat (Ntotal / Nsections + 1)%nat (Ntotal mod Nsections)
            ++ repeat (Ntotal / Nsections)%nat (Nsections - Ntotal mod Nsections)) = Ntotal.
Proof.
  intros Ntotal Nsections Hn.
  rewrite list_sum_app, !list_sum_repeat.
  pose proof (Nat.mod_upper_bound Ntotal Nsections Hn) as Hlt.
  pose proof (Nat.div_mod_eq Ntotal Nsections) as Hdm.
  nia.
Qed.

Lemma np_array_split_ok {A : Type} : forall (ary : ndarray A) (n : Z),
  0 < n ->
  exists chunks,
    np_array_split ary n = Ok chunks
    /\ length chunks = Z.to_nat n
    /\ concat (map nd_rows chunks) = nd_rows ary
    /\ Forall (fun c => nd_cols c = nd_cols ary) chunks.
Proof.
  intros ary n Hn. unfold np_array_split.
  destruct (n <=? 0) eqn:E; [apply Z.leb_le in E; lia|].
  eexists. split; [reflexivity|].
  assert (Hnz : Z.to_nat n <> O) by lia.
  split; [now rewrite length_map, length_seq|].
  split.
  - rewrite map_map. cbn [nd_rows].
    unfold section_sizes. cbn [cumsum]. rewrite Nat.add_0_r.
    set (sizes := repeat _ _ ++ repeat _ _).
    assert (Hlen : length sizes = Z.to_nat n) by (apply section_sizes_length; assumption).
    rewrite <- Hlen.
    rewrite concat_slices. unfold sizes.
    rewrite section_sizes_sum by assumption. apply slice_all.
  - apply Forall_forall. intros c Hc. apply in_map_iff in Hc.
    destruct Hc as [i [<- _]]. reflexivity.
Qed.

(** ** Chunked evaluation of a row-wise objective function *)

Lemma split_map_concat : forall (f : ndarray pyobj -> list Q) (p : Pool) (xypairs : ndarray pyobj),
  row_wise f -> 0 < _processes p ->
  (chunks <- np_array_split xypairs (_processes p) ;;
   np_concatenate (pool_map p f chunks))%res = Ok (f xypairs).
Proof.
  intros f p xypairs [g Hg] Hn.
  destruct (np_array_split_ok xypairs (_processes p) Hn) as [chunks [-> [Hlen [Hcat _]]]].
  cbn [rbind]. unfold pool_map, np_concatenate.
  destruct chunks as [|c chunks]; [simpl in Hlen; lia|].
  cbn [map]. f_equal.
  change (f c :: map f chunks) with (map f (c :: chunks)).
  rewrite (map_ext f (fun a => map g (nd_rows a))) by exact Hg.
  rewrite <- (map_map nd_rows (map g)), <- concat_map, Hcat.
  symmetry. apply Hg.
Qed.

(** C1. For a mesher whose objective function is pure and row-wise and a
    positive number of processes, [_mesh] run on a pool returns what the
    sequential call returns: splitting the grid points into chunks, mapping
    the function over each chunk and concatenating the results in order is
    one application of the function to the whole grid. *)
Theorem mesh_parallel_eq_sequential :
  forall (mesher : Mesher.t) (n_processes x_index y_index : Z) (best_pos : option vector),
    row_wise (Mesher.func mesher) ->
    0 < n_processes ->
    _mesh mesher (Some n_processes) x_index y_index best_pos
    = _mesh mesher None x_index y_index best_pos.
Proof.
  intros mesher n x_index y_index best_pos Hrow Hn. unfold _mesh.
  repeat same_step.
  unfold mp_Pool. destruct (n <? 1) eqn:E; [apply Z.ltb_lt in E; lia|].
  cbn [rbind].
  rewrite (split_map_concat (Mesher.func mesher) (mk_Pool n)) by assumption.
  reflexivity.
Qed.

(** ** The grid of points *)

Lemma combine_app_eq {A B : Type} : forall (l1 l2 : list A) (l1' l2' : list B),
  length l1 = length l1' ->
  combine (l1 ++ l2) (l1' ++ l2') = combine l1 l1' ++ combine l2 l2'.
Proof.
  induction l1 as [|a l1 IH]; intros l2 l1' l2' Hlen; destruct l1' as [|b l1'];
    simpl in *; try discriminate; [reflexivity|].
  f_equal. apply IH. congruence.
Qed.

Lemma combine_map_map {A B C : Type} : forall (f : A -> B) (h : A -> C) (l : list A),
  combine (map f l) (map h l) = map (fun a => (f a, h a)) l.
Proof.
  induction l as [|a l IH]; simpl; [reflexivity | now rewrite IH].
Qed.

Lemma repeat_as_map {A B : Type} : forall (b : B) (l : list A),
  repeat b (length l) = map (fun _ => b) l.
Proof.
  induction l as [|a l IH]; simpl; [reflexivity | now rewrite IH].
Qed.

Lemma map_flat_map {A B C : Type} : forall (h : B -> C) (f : A -> list B) (l : list A),
  map h (flat_map f l) = flat_map (fun a => map h (f a)) l.
Proof.
  induction l as [|a l IH]; simpl; [reflexivity|].
  now rewrite map_app, IH.
Qed.

Lemma combine_meshgrid : forall xs ys : list Q,
  combine (ravel (fst (np_meshgrid xs ys))) (ravel (snd (np_meshgrid xs ys)))
  = grid_pairs xs ys.
Proof.
  intros xs ys. unfold ravel, np_meshgrid, grid_pairs. cbn [fst snd g_data].
  induction ys as [|y ys IH]; [reflexivity|].
  cbn [flat_map]. rewrite combine_app_eq by now rewrite length_map.
  rewrite IH. f_equal.
  rewrite <- (map_id xs) at 1. apply combine_map_map.
Qed.

Lemma length_grid_pairs : forall xs ys : list Q,
  length (grid_pairs xs ys) = (length ys * length xs)%nat.
Proof.
  intros xs ys. unfold grid_pairs.
  induction ys as [|y ys IH]; [reflexivity|].
  cbn [flat_map]. rewrite length_app, length_map, IH. reflexivity.
Qed.

Lemma length_meshgrid : forall xs ys : list Q,
  length (ravel (fst (np_meshgrid xs ys))) = (length ys * length xs)%nat
  /\ length (ravel (snd (np_meshgrid xs ys))) = (length ys * length xs)%nat.
Proof.
  intros xs ys. unfold ravel, np_meshgrid. cbn [fst snd g_data].
  induction ys as [|y ys [IHx IHy]]; [split; reflexivity|].
  cbn [flat_map]. rewrite !length_app, length_map, IHx, IHy. split; reflexivity.
Qed.

Lemma nth_error_grid {A : Type} : forall (F : Q -> Q -> A) (xs ys : list Q) (j i : nat) (xi yj : Q),
  nth_error ys j = Some yj ->
  nth_error xs i = Some xi ->
  nth_error (flat_map (fun y => map (fun x => F x y) xs) ys) (j * length xs + i)
  = Some (F xi yj).
Proof.
  intros F xs ys. induction ys as [|y ys IH]; intros j i xi yj Hj Hi.
  - destruct j; discriminate.
  - assert (Hlt : (i < length xs)%nat) by (apply nth_error_Some; congruence).
    destruct j as [|j]; cbn [flat_map].
    + injection Hj as ->. cbn [Nat.mul Nat.add].
      rewrite nth_error_app1 by now rewrite length_map.
      rewrite nth_error_map, Hi. reflexivity.
    + rewrite nth_error_app2 by (rewrite length_map; simpl; lia).
      rewrite length_map.
      replace (S j * length xs + i - length xs)%nat with (j * length xs + i)%nat
        by (simpl; lia).
      now apply IH.
Qed.

(** ** Indices *)

Lemma norm_index_cases : forall (n : nat) (i : Z),
  (- Z.of_nat n <= i < Z.of_nat n /\ exists k, norm_index n i = Ok k /\ (k < n)%nat)
  \/ (~ (- Z.of_nat n <= i < Z.of_nat n) /\ norm_index n i = Raise IndexError).
Proof.
  intros n i. unfold norm_index.
  destruct (i <? 0) eqn:Hneg;
    [apply Z.ltb_lt in Hneg | apply Z.ltb_ge in Hneg];
    match goal with
    | |- context [(0 <=? ?k) && (?k <? ?m)] =>
        destruct (0 <=? k) eqn:H0; destruct (k <? m) eqn:H1
    end;
    try apply Z.leb_le in H0; try apply Z.leb_gt in H0;
    try apply Z.ltb_lt in H1; try apply Z.ltb_ge in H1;
    cbn [andb];
    first [ left; split; [lia | eexists; split; [reflexivity | lia]]
          | right; split; [lia | reflexivity] ].
Qed.

Lemma norm_index_nat : forall (n k : nat),
  (k < n)%nat -> norm_index n (Z.of_nat k) = Ok k.
Proof.
  intros n k Hk. unfold norm_index.
  destruct (Z.of_nat k <? 0) eqn:Hneg; [apply Z.ltb_lt in Hneg; lia|].
  destruct (0 <=? Z.of_nat k) eqn:H0; [|apply Z.leb_gt in H0; lia].
  destruct (Z.of_nat k <? Z.of_nat n) eqn:H1; [|apply Z.ltb_ge in H1; lia].
  cbn [andb]. now rewrite Nat2Z.id.
Qed.

Lemma py_getitem_nat {A : Type} : forall (l : list A) (k : nat) (a : A),
  nth_error l k = Some a -> py_getitem l (Z.of_nat k) = Ok a.
Proof.
  intros l k a H. unfold py_getitem.
  rewrite norm_index_nat by (apply nth_error_Some; congruence).
  cbn [rbind]. now rewrite H.
Qed.

Lemma py_getitem_raises {A : Type} : forall (l : list A) (i : Z),
  ~ (- Z.of_nat (length l) <= i < Z.of_nat (length l)) ->
  py_getitem l i = Raise IndexError.
Proof.
  intros l i H. unfold py_getitem.
  destruct (norm_index_cases (length l) i) as [[Hin _] | [_ ->]]; [contradiction | reflexivity].
Qed.

Lemma py_getitem_in_range {A : Type} : forall (l : list A) (i : Z),
  - Z.of_nat (length l) <= i < Z.of_nat (length l) ->
  exists a, py_getitem l i = Ok a.
Proof.
  intros l i H. unfold py_getitem.
  destruct (norm_index_cases (length l) i) as [[_ [k [-> Hk]]] | [Hout _]]; [|contradiction].
  cbn [rbind]. destruct (nth_error l k) eqn:E; [eauto|].
  apply nth_error_None in E. lia.
Qed.

(** ** The points _mesh evaluates *)

Lemma np_tile_as_map {A : Type} : forall (best_pos : option vector) (P : list A),
  np_tile best_pos (length P)
  = mk_ndarray (length (tile_row best_pos)) (map (fun _ => tile_row best_pos) P).
Proof.
  intros best_pos P. destruct best_pos as [[v|v]|]; cbn [np_tile tile_row].
  - now rewrite repeat_as_map, length_map.
  - now rewrite repeat_as_map, length_map.
  - now rewrite repeat_as_map.
Qed.

Lemma set_column_map {A : Type} :
  forall (dt : dtype) (w : nat) (h : A -> list pyobj) (f : A -> pyobj) (P : list A)
         (idx : Z) (k : nat),
    norm_index w idx = Ok k ->
    set_column dt (mk_ndarray w (map h P)) idx (map f P)
    = Ok (mk_ndarray w (map (fun p => list_set (h p) k (astype dt (f p))) P)).
Proof.
  intros dt w h f P idx k Hk. unfold set_column. cbn [nd_cols nd_rows].
  rewrite Hk. cbn [rbind]. rewrite !length_map, Nat.eqb_refl.
  now rewrite combine_map_map, map_map.
Qed.

Lemma set_column_raise :
  forall (dt : dtype) (a : ndarray pyobj) (idx : Z) (col : list pyobj) (e : exn),
    norm_index (nd_cols a) idx = Raise e -> set_column dt a idx col = Raise e.
Proof.
  intros dt a idx col e H. unfold set_column. now rewrite H.
Qed.

Lemma get_column_pairs : forall P : list (Q * Q),
  get_column (mk_ndarray 2 (map (mesh_row false None 0 0) P)) 0
  = Ok (map (fun p => PyFloat (fst p)) P)
  /\ get_column (mk_ndarray 2 (map (mesh_row false None 0 0) P)) 1
     = Ok (map (fun p => PyFloat (snd p)) P).
Proof.
  intros P. unfold get_column. cbn [nd_cols nd_rows].
  split; (change (norm_index 2 0) with (@Ok nat 0%nat) ||
          change (norm_index 2 1) with (@Ok nat 1%nat));
    cbn [rbind]; now rewrite map_map.
Qed.

Lemma mesh_unfold :
  forall (mesher : Mesher.t) (n_processes : option Z) (x_index y_index : Z)
         (best_pos : option vector) (xlim ylim : Q * Q) (xs ys : list Q),
    py_getitem (Mesher.limits mesher) x_index = Ok xlim ->
    py_getitem (Mesher.limits mesher) y_index = Ok ylim ->
    np_arange (fst xlim) (snd xlim) (Mesher.delta mesher) = Ok xs ->
    np_arange (fst ylim) (snd ylim) (Mesher.delta mesher) = Ok ys ->
    _mesh mesher n_processes x_index y_index best_pos
    = (xypairs <- mesh_points x_index y_index best_pos xs ys ;;
       pool <- match n_processes with
               | None => Ok None
               | Some n => p <- mp_Pool n ;; Ok (Some p)
               end ;;
       z <- match pool with
            | None => Ok (Mesher.func mesher xypairs)
            | Some p =>
                chunks <- np_array_split xypairs (_processes p) ;;
                np_concatenate (pool_map p (Mesher.func mesher) chunks)
            end ;;
       zz <- reshape z (length ys, length xs) ;;
       Ok (fst (np_meshgrid xs ys), snd (np_meshgrid xs ys), zz))%res.
Proof.
  intros mesher n_processes x_index y_index best_pos xlim ylim xs ys Hx Hy Hxs Hys.
  unfold _mesh. rewrite Hx, Hy. cbn [rbind]. rewrite Hxs, Hys. cbn [rbind]. cbv zeta.
  unfold vstack_T.
  destruct (length_meshgrid xs ys) as [Lx Ly]. rewrite Lx, Ly, Nat.eqb_refl.
  rewrite combine_meshgrid. cbn [rbind].
  unfold mesh_points.
  change (negb (x_index =? 0) || negb (y_index =? 1) || is_not_None best_pos)
    with (multi_dimension x_index y_index best_pos).
  change (fun p : Q * Q => [PyFloat (fst p); PyFloat (snd p)])
    with (mesh_row false None 0 0).
  destruct (multi_dimension x_index y_index best_pos); [|reflexivity].
  destruct (get_column_pairs (grid_pairs xs ys)) as [-> ->]. cbn [rbind nd_rows].
  rewrite length_map, np_tile_as_map.
  destruct (norm_index (length (tile_row best_pos)) x_index) as [kx|e] eqn:Ex.
  - rewrite (set_column_map _ _ _ _ _ _ _ Ex). cbn [rbind].
    destruct (norm_index (length (tile_row best_pos)) y_index) as [ky|e] eqn:Ey.
    + rewrite (set_column_map _ _ _ _ _ _ _ Ey). cbn [rbind]. reflexivity.
    + rewrite set_column_raise with (e := e) by exact Ey. reflexivity.
  - rewrite set_column_raise with (e := e) by exact Ex. reflexivity.
Qed.

Lemma multi_dimension_false : forall (x_index y_index : Z) (best_pos : option vector),
  multi_dimension x_index y_index best_pos = false <-> default_case x_index y_index best_pos.
Proof.
  intros x_index y_index best_pos. unfold multi_dimension, default_case.
  rewrite !orb_false_iff, !negb_false_iff, !Z.eqb_eq.
  destruct best_pos as [v|]; cbn [is_not_None]; split.
  - intros [_ H]. discriminate.
  - intros [_ [_ H]]. discriminate.
  - intros [[Hx Hy] _]. auto.
  - intros [Hx [Hy _]]. auto.
Qed.

Lemma mesh_points_ok :
  forall (x_index y_index : Z) (best_pos : option vector) (xs ys : list Q),
    default_case x_index y_index best_pos \/ columns_of_tile x_index y_index best_pos ->
    exists a, mesh_points x_index y_index best_pos xs ys = Ok a
              /\ length (nd_rows a) = (length ys * length xs)%nat.
Proof.
  intros x_index y_index best_pos xs ys H. unfold mesh_points.
  destruct (multi_dimension x_index y_index best_pos) eqn:E.
  - destruct H as [H | [Hx Hy]].
    + apply multi_dimension_false in H. congruence.
    + unfold tile_width in Hx, Hy.
      destruct (norm_index_cases (length (tile_row best_pos)) x_index)
        as [[_ [kx [-> _]]] | [Hout _]]; [|contradiction].
      destruct (norm_index_cases (length (tile_row best_pos)) y_index)
        as [[_ [ky [-> _]]] | [Hout _]]; [|contradiction].
      cbn [rbind nd_rows]. eexists. split; [reflexivity|].
      cbn [nd_rows]. now rewrite length_map, length_grid_pairs.
  - eexists. split; [reflexivity|].
    cbn [nd_rows]. now rewrite length_map, length_grid_pairs.
Qed.

Lemma mesh_points_raise :
  forall (x_index y_index : Z) (best_pos : option vector) (xs ys : list Q),
    ~ default_case x_index y_index best_pos ->
    ~ columns_of_tile x_index y_index best_pos ->
    mesh_points x_index y_index best_pos xs ys = Raise IndexError.
Proof.
  intros x_index y_index best_pos xs ys Hd Hc. unfold mesh_points.
  destruct (multi_dimension x_index y_index best_pos) eqn:E.
  - unfold columns_of_tile, tile_width in Hc.
    destruct (norm_index_cases (length (tile_row best_pos)) x_index)
      as [[Hx [kx [-> _]]] | [_ ->]]; [|reflexivity].
    destruct (norm_index_cases (length (tile_row best_pos)) y_index)
      as [[Hy [ky [-> _]]] | [_ ->]]; [|reflexivity].
    exfalso. apply Hc. split; assumption.
  - apply multi_dimension_false in E. contradiction.
Qed.

(** ** Evaluating the objective function, with or without a pool *)

Lemma row_wise_one_value : forall f, row_wise f -> one_value_per_row f.
Proof.
  intros f [g Hg] a. now rewrite Hg, length_map.
Qed.

Lemma evaluate_row_wise :
  forall (B : Type) (f : ndarray pyobj -> list Q) (n_processes : option Z)
         (xypairs : ndarray pyobj) (K : list Q -> result B),
    pool_size_ok n_processes ->
    row_wise f ->
    (pool <- match n_processes with
             | None => Ok None
             | Some n => p <- mp_Pool n ;; Ok (Some p)
             end ;;
     z <- match pool with
          | None => Ok (f xypairs)
          | Some p =>
              chunks <- np_array_split xypairs (_processes p) ;;
              np_concatenate (pool_map p f chunks)
          end ;;
     K z)%res = K (f xypairs).
Proof.
  intros B f n_processes xypairs K Hn Hf.
  destruct n_processes as [n|]; [|reflexivity].
  cbn in Hn. unfold mp_Pool.
  destruct (n <? 1) eqn:E; [apply Z.ltb_lt in E; lia|].
  cbn [rbind].
  now rewrite (split_map_concat f (mk_Pool n)).
Qed.

Lemma evaluate_length :
  forall (f : ndarray pyobj -> list Q) (n_processes : option Z) (xypairs : ndarray pyobj),
    pool_size_ok n_processes ->
    one_value_per_row f ->
    exists z,
      length z = length (nd_rows xypairs)
      /\ (n_processes = None -> z = f xypairs)
      /\ forall (B : Type) (K : list Q -> result B),
           (pool <- match n_processes with
                    | None => Ok None
                    | Some n => p <- mp_Pool n ;; Ok (Some p)
                    end ;;
            z <- match pool with
                 | None => Ok (f xypairs)
                 | Some p =>
                     chunks <- np_array_split xypairs (_processes p) ;;
                     np_concatenate (pool_map p f chunks)
                 end ;;
            K z)%res = K z.
Proof.
  intros f n_processes xypairs Hn Hf.
  destruct n_processes as [n|].
  - cbn in Hn.
    destruct (np_array_split_ok xypairs n Hn) as [chunks [Hs [Hlen [Hcat _]]]].
    exists (concat (map f chunks)). split; [|split; [discriminate|]].
    + rewrite length_concat, map_map.
      rewrite (map_ext (fun c => length (f c)) (fun c => length (nd_rows c)))
        by (intros c; apply Hf).
      rewrite <- (map_map nd_rows (@length (list pyobj))), <- length_concat.
      now rewrite Hcat.
    + intros B K. unfold mp_Pool.
      destruct (n <? 1) eqn:E; [apply Z.ltb_lt in E; lia|].
      cbn [rbind _processes]. rewrite Hs. cbn [rbind]. unfold pool_map, np_concatenate.
      destruct chunks as [|c chunks]; [simpl in Hlen; lia|]. reflexivity.
  - exists (f xypairs). split; [apply Hf | split; reflexivity].
Qed.

(** ** What _mesh returns *)

(** C10. When the limits at the chosen indices give the axes [xs] and [ys]
    and the objective function returns one value per grid point, [_mesh]
    returns three arrays of the same two-dimensional shape
    [(len ys, len xs)]. *)
Theorem mesh_shapes :
  forall (mesher : Mesher.t) (n_processes : option Z) (x_index y_index : Z)
         (best_pos : option vector) (xlim ylim : Q * Q) (xs ys : list Q),
    py_getitem (Mesher.limits mesher) x_index = Ok xlim ->
    py_getitem (Mesher.limits mesher) y_index = Ok ylim ->
    np_arange (fst xlim) (snd xlim) (Mesher.delta mesher) = Ok xs ->
    np_arange (fst ylim) (snd ylim) (Mesher.delta mesher) = Ok ys ->
    one_value_per_row (Mesher.func mesher) ->
    pool_size_ok n_processes ->
    default_case x_index y_index best_pos \/ columns_of_tile x_index y_index best_pos ->
    exists xx yy zz,
      _mesh mesher n_processes x_index y_index best_pos = Ok (xx, yy, zz)
      /\ g_shape xx = (length ys, length xs)
      /\ g_shape yy = (length ys, length xs)
      /\ g_shape zz = (length ys, length xs)
      /\ length (g_data xx) = (length ys * length xs)%nat
      /\ length (g_data yy) = (length ys * length xs)%nat
      /\ length (g_data zz) = (length ys * length xs)%nat.
Proof.
  intros mesher n_processes x_index y_index best_pos xlim ylim xs ys
         Hx Hy Hxs Hys Hf Hn Hfit.
  rewrite (mesh_unfold _ _ _ _ _ _ _ _ _ Hx Hy Hxs Hys).
  destruct (mesh_points_ok x_index y_index best_pos xs ys Hfit) as [a [-> Hlen]].
  cbn [rbind].
  destruct (evaluate_length (Mesher.func mesher) n_processes a Hn Hf) as [z [Hz [_ ->]]].
  unfold reshape. cbn [fst snd]. rewrite Hz, Hlen, Nat.eqb_refl. cbn [rbind].
  destruct (length_meshgrid xs ys) as [Lx Ly].
  do 3 eexists. split; [reflexivity|].
  cbn [g_shape g_data]. unfold ravel in Lx, Ly.
  repeat split; try assumption; try reflexivity. congruence.
Qed.

Lemma length_list_set {A : Type} : forall (l : list A) (k : nat) (v : A),
  length (list_set l k v) = length l.
Proof.
  induction l as [|a l IH]; intros k v; [reflexivity|].
  destruct k; simpl; [reflexivity | now rewrite IH].
Qed.

Lemma nth_error_list_set_eq {A : Type} : forall (l : list A) (k : nat) (v : A),
  (k < length l)%nat -> nth_error (list_set l k v) k = Some v.
Proof.
  induction l as [|a l IH]; intros k v Hk; [simpl in Hk; lia|].
  destruct k; simpl; [reflexivity|]. apply IH. simpl in Hk. lia.
Qed.

Lemma nth_error_list_set_neq {A : Type} : forall (l : list A) (k k' : nat) (v : A),
  k <> k' -> nth_error (list_set l k v) k' = nth_error l k'.
Proof.
  induction l as [|a l IH]; intros k k' v Hk; [reflexivity|].
  destruct k; destruct k'; simpl; try reflexivity; try congruence.
  apply IH. congruence.
Qed.

Lemma map_grid_pairs {A : Type} : forall (h : Q * Q -> A) (xs ys : list Q),
  map h (grid_pairs xs ys) = flat_map (fun y => map (fun x => h (x, y)) xs) ys.
Proof.
  intros h xs ys. unfold grid_pairs. rewrite map_flat_map.
  apply flat_map_ext. intros y. now rewrite map_map.
Qed.

Lemma meshgrid_at : forall (xs ys : list Q) (j i : nat) (xi yj : Q),
  nth_error xs i = Some xi ->
  nth_error ys j = Some yj ->
  grid_at (fst (np_meshgrid xs ys)) j i = Some xi
  /\ grid_at (snd (np_meshgrid xs ys)) j i = Some yj.
Proof.
  intros xs ys j i xi yj Hi Hj.
  assert (Hi' : (i < length xs)%nat) by (apply nth_error_Some; congruence).
  assert (Hj' : (j < length ys)%nat) by (apply nth_error_Some; congruence).
  unfold grid_at, np_meshgrid. cbn [fst snd g_shape g_data].
  apply Nat.ltb_lt in Hi'. apply Nat.ltb_lt in Hj'. rewrite Hi', Hj'. cbn [andb].
  split.
  - rewrite (flat_map_ext (fun _ => xs) (fun y => map (fun x => x) xs))
      by (intros; now rewrite map_id).
    now apply (nth_error_grid (fun x _ => x) xs ys j i xi yj).
  - now apply (nth_error_grid (fun _ y => y) xs ys j i xi yj).
Qed.

Lemma mesh_row_is_grid_point :
  forall (x_index y_index : nat) (best_pos : option vector) (xi yj : Q),
    hidden_dimensions_given x_index y_index best_pos ->
    is_grid_point x_index y_index best_pos xi yj
      (mesh_row (multi_dimension (Z.of_nat x_index) (Z.of_nat y_index) best_pos)
         best_pos x_index y_index (xi, yj)).
Proof.
  intros x_index y_index best_pos xi yj [Hd | [v [-> [Hx Hy]]]].
  - pose proof Hd as [_ [_ ->]].
    apply multi_dimension_false in Hd. rewrite Hd. reflexivity.
  - unfold multi_dimension. cbn [is_not_None]. rewrite !orb_true_r.
    destruct v as [v|v];
      cbn [mesh_row tile_row is_grid_point stored tile_dtype astype fst snd vector_len]
        in Hx, Hy |- *;
      unfold point_with; repeat split.
    + now rewrite !length_list_set.
    + apply nth_error_list_set_eq. now rewrite length_list_set, length_map.
    + intros Hne. rewrite nth_error_list_set_neq by congruence.
      apply nth_error_list_set_eq. now rewrite length_map.
    + intros k Hkx Hky. now rewrite !nth_error_list_set_neq by congruence.
    + now rewrite !length_list_set.
    + apply nth_error_list_set_eq. now rewrite length_list_set, length_map.
    + intros Hne. rewrite nth_error_list_set_neq by congruence.
      apply nth_error_list_set_eq. now rewrite length_map.
    + intros k Hkx Hky. now rewrite !nth_error_list_set_neq by congruence.
Qed.

Lemma evaluates_grid_weaken :
  forall (r : result (grid * grid * grid)) (xs ys : list Q) (g : list pyobj -> Q)
         (point point' : Q -> Q -> list pyobj -> Prop),
    (forall xi yj p, point xi yj p -> point' xi yj p) ->
    evaluates_grid r xs ys g point -> evaluates_grid r xs ys g point'.
Proof.
  intros r xs ys g point point' Hp [xx [yy [zz [E [Sx [Sz H]]]]]].
  exists xx, yy, zz. repeat split; try assumption.
  - apply (H j i xi yj); assumption.
  - apply (H j i xi yj); assumption.
  - destruct (H j i xi yj) as [_ [_ [p [Hz Hpt]]]]; try assumption.
    exists p. split; [exact Hz | now apply Hp].
Qed.

(** Whenever the rows can be built, [zz[j, i]] is the value of the
    objective function on the row made for [(x_i, y_j)]. *)
Lemma mesh_values_rows :
  forall (mesher : Mesher.t) (n_processes : option Z) (x_index y_index : nat)
         (best_pos : option vector) (xlim ylim : Q * Q) (xs ys : list Q)
         (g : list pyobj -> Q),
    nth_error (Mesher.limits mesher) x_index = Some xlim ->
    nth_error (Mesher.limits mesher) y_index = Some ylim ->
    np_arange (fst xlim) (snd xlim) (Mesher.delta mesher) = Ok xs ->
    np_arange (fst ylim) (snd ylim) (Mesher.delta mesher) = Ok ys ->
    (forall a, Mesher.func mesher a = map g (nd_rows a)) ->
    pool_size_ok n_processes ->
    default_case (Z.of_nat x_index) (Z.of_nat y_index) best_pos
    \/ ((x_index < length (tile_row best_pos))%nat
        /\ (y_index < length (tile_row best_pos))%nat) ->
    evaluates_grid
      (_mesh mesher n_processes (Z.of_nat x_index) (Z.of_nat y_index) best_pos) xs ys g
      (fun xi yj p =>
         p = mesh_row (multi_dimension (Z.of_nat x_index) (Z.of_nat y_index) best_pos)
               best_pos x_index y_index (xi, yj)).
Proof.
  intros mesher n_processes x_index y_index best_pos xlim ylim xs ys g
         Hx Hy Hxs Hys Hg Hn Hbp.
  unfold evaluates_grid.
  rewrite (mesh_unfold _ _ _ _ _ _ _ _ _
             (py_getitem_nat _ _ _ Hx) (py_getitem_nat _ _ _ Hy) Hxs Hys).
  set (multi := multi_dimension (Z.of_nat x_index) (Z.of_nat y_index) best_pos).
  assert (Hpts : exists w,
             mesh_points (Z.of_nat x_index) (Z.of_nat y_index) best_pos xs ys
             = Ok (mk_ndarray w (map (mesh_row multi best_pos x_index y_index)
                                      (grid_pairs xs ys)))).
  { unfold mesh_points. fold multi. destruct multi eqn:E.
    - destruct Hbp as [Hd | [Hvx Hvy]].
      + apply multi_dimension_false in Hd. unfold multi in E. congruence.
      + rewrite !norm_index_nat by assumption. cbn [rbind]. eauto.
    - eexists. reflexivity. }
  destruct Hpts as [w ->]. cbn [rbind].
  rewrite evaluate_row_wise by (try assumption; now exists g).
  rewrite Hg. cbn [nd_rows]. unfold reshape. cbn [fst snd].
  rewrite !length_map, length_grid_pairs, Nat.eqb_refl. cbn [rbind].
  do 3 eexists. split; [reflexivity|].
  split; [reflexivity|]. split; [reflexivity|].
  intros j i xi yj Hi Hj.
  destruct (meshgrid_at xs ys j i xi yj Hi Hj) as [Hxx Hyy].
  split; [exact Hxx|]. split; [exact Hyy|].
  exists (mesh_row multi best_pos x_index y_index (xi, yj)). split; [|reflexivity].
  assert (Hi' : (i < length xs)%nat) by (apply nth_error_Some; congruence).
  assert (Hj' : (j < length ys)%nat) by (apply nth_error_Some; congruence).
  unfold grid_at. cbn [g_shape g_data fst snd].
  apply Nat.ltb_lt in Hi'. apply Nat.ltb_lt in Hj'. rewrite Hi', Hj'. cbn [andb].
  rewrite map_map, map_grid_pairs.
  now apply (nth_error_grid
               (fun x y => g (mesh_row multi best_pos x_index y_index (x, y)))
               xs ys j i xi yj).
Qed.

Lemma length_tile_row_vector : forall v : vector,
  length (tile_row (Some v)) = vector_len v.
Proof. intros [v|v]; apply length_map. Qed.


(** ** When the multi dimension case of _mesh is defined *)

Lemma multi_dimension_true : forall (x_index y_index : Z) (best_pos : option vector),
  ~ default_case x_index y_index best_pos ->
  multi_dimension x_index y_index best_pos = true.
Proof.
  intros x_index y_index best_pos H.
  destruct (multi_dimension x_index y_index best_pos) eqn:E; [reflexivity|].
  apply multi_dimension_false in E. contradiction.
Qed.

(** The two cases of the condition: for a vector and indices counted from
    the start the vector must reach the larger index; without [best_pos]
    the tiling has one column, whose indices are 0 and -1. *)
Lemma columns_of_tile_vector : forall (x_index y_index : Z) (v : vector),
  0 <= x_index -> 0 <= y_index ->
  (columns_of_tile x_index y_index (Some v)
   <-> Z.max x_index y_index + 1 <= Z.of_nat (vector_len v)).
Proof.
  intros x_index y_index v Hx Hy. unfold columns_of_tile, tile_width.
  destruct v; cbn [tile_row vector_len]; rewrite length_map; lia.
Qed.

Lemma columns_of_tile_None : forall x_index y_index : Z,
  columns_of_tile x_index y_index None
  <-> (x_index = 0 \/ x_index = -1) /\ (y_index = 0 \/ y_index = -1).
Proof.
  intros x_index y_index. unfold columns_of_tile, tile_width. cbn. lia.
Qed.

(** C8, as amended. Outside the default case [_mesh] tiles [best_pos] into
    one row per grid point and overwrites the columns [x_index] and
    [y_index] with the grid coordinates.  It returns exactly when both
    indices are column indices of the tiled array, whose width is
    [len(best_pos)], or 1 when [best_pos] is [None]; otherwise the column
    assignment raises [IndexError]. *)
Theorem mesh_multi_dimension_defined :
  forall (mesher : Mesher.t) (n_processes : option Z) (x_index y_index : Z)
         (best_pos : option vector) (xlim ylim : Q * Q) (xs ys : list Q),
    py_getitem (Mesher.limits mesher) x_index = Ok xlim ->
    py_getitem (Mesher.limits mesher) y_index = Ok ylim ->
    np_arange (fst xlim) (snd xlim) (Mesher.delta mesher) = Ok xs ->
    np_arange (fst ylim) (snd ylim) (Mesher.delta mesher) = Ok ys ->
    one_value_per_row (Mesher.func mesher) ->
    pool_size_ok n_processes ->
    ~ default_case x_index y_index best_pos ->
    (columns_of_tile x_index y_index best_pos ->
     exists kx ky zz,
       norm_index (length (tile_row best_pos)) x_index = Ok kx
       /\ norm_index (length (tile_row best_pos)) y_index = Ok ky
       /\ _mesh mesher n_processes x_index y_index best_pos
          = Ok (fst (np_meshgrid xs ys), snd (np_meshgrid xs ys), zz)
       /\ (n_processes = None ->
           g_data zz
           = Mesher.func mesher
               (mk_ndarray (length (tile_row best_pos))
                  (map (mesh_row true best_pos kx ky) (grid_pairs xs ys)))))
    /\ (~ columns_of_tile x_index y_index best_pos ->
        _mesh mesher n_processes x_index y_index best_pos = Raise IndexError).
Proof.
  intros mesher n_processes x_index y_index best_pos xlim ylim xs ys
         Hx Hy Hxs Hys Hf Hn Hnd.
  rewrite (mesh_unfold _ _ _ _ _ _ _ _ _ Hx Hy Hxs Hys).
  split.
  - intros [Hcx Hcy]. unfold tile_width in Hcx, Hcy.
    unfold mesh_points. rewrite (multi_dimension_true _ _ _ Hnd).
    destruct (norm_index_cases (length (tile_row best_pos)) x_index)
      as [[_ [kx [Ex _]]] | [Hout _]]; [|contradiction].
    destruct (norm_index_cases (length (tile_row best_pos)) y_index)
      as [[_ [ky [Ey _]]] | [Hout _]]; [|contradiction].
    rewrite Ex, Ey. cbn [rbind].
    destruct (evaluate_length (Mesher.func mesher) n_processes
                (mk_ndarray (length (tile_row best_pos))
                   (map (mesh_row true best_pos kx ky) (grid_pairs xs ys))) Hn Hf)
      as [z [Hz [Hseq ->]]].
    cbn [nd_rows] in Hz. rewrite length_map, length_grid_pairs in Hz.
    unfold reshape. cbn [fst snd]. rewrite Hz, Nat.eqb_refl. cbn [rbind].
    exists kx, ky. eexists. repeat split; try reflexivity. exact Hseq.
  - intros Hc. now rewrite (mesh_points_raise _ _ _ xs ys Hnd Hc).
Qed.

(** C8, counterexample. With the indices [(0, 0)] and [best_pos = None]
    the call is not the default one, the tiling gives a one-column array,
    both column assignments succeed and [_mesh] returns a result. *)
Lemma mesh_without_best_pos_defined :
  ~ default_case 0 0 None
  /\ exists r, _mesh example_mesher None 0 0 None = Ok r.
Proof.
  split.
  - intros [_ [H _]]. discriminate.
  - vm_compute. eexists. reflexivity.
Qed.


(** ** Running the monad *)

Lemma returns_ret {A : Type} : forall (a : A) (w : World) (Q : A -> World -> Prop),
  Q a w -> returns (ret a) w Q.
Proof.
  intros a w Q H. exists a, w. split; [reflexivity | exact H].
Qed.

Lemma returns_bind {A B : Type} :
  forall (m : M A) (k : A -> M B) (w : World) (Q : B -> World -> Prop),
    returns m w (fun a w1 => returns (k a) w1 Q) -> returns (bind m k) w Q.
Proof.
  intros m k w Q [a [w1 [Hm [b [w2 [Hk HQ]]]]]].
  exists b, w2. split; [|exact HQ]. unfold bind. now rewrite Hm.
Qed.

Lemma returns_weaken {A : Type} :
  forall (m : M A) (w : World) (Q Q' : A -> World -> Prop),
    returns m w Q -> (forall a w1, Q a w1 -> Q' a w1) -> returns m w Q'.
Proof.
  intros m w Q Q' [a [w1 [Hm HQ]]] H. exists a, w1. auto.
Qed.

Lemma returns_lift {A : Type} :
  forall (r : result A) (a : A) (w : World) (Q : A -> World -> Prop),
    r = Ok a -> Q a w -> returns (lift r) w Q.
Proof.
  intros r a w Q -> H. exists a, w. split; [reflexivity | exact H].
Qed.

Lemma returns_warn : forall (msg : string) (w : World) (Q : unit -> World -> Prop),
  Q tt (log_msg msg w) -> returns (warn msg) w Q.
Proof.
  intros msg w Q H. exists tt, (log_msg msg w). split; [reflexivity | exact H].
Qed.

Lemma returns_when_warn :
  forall (b : bool) (msg : string) (w : World) (Q : unit -> World -> Prop),
    Q tt (log_if b msg w) -> returns (when b (warn msg)) w Q.
Proof.
  intros b msg w Q H. exists tt, (log_if b msg w).
  split; [destruct b; reflexivity | exact H].
Qed.

Lemma returns_PyLong : forall (v : Z) (w : World) (Q : pyint -> World -> Prop),
  Q (int_for v w) (alloc_for v w) -> returns (PyLong_FromSsize_t v) w Q.
Proof.
  intros v w Q H. exists (int_for v w), (alloc_for v w). split; [|exact H].
  unfold PyLong_FromSsize_t, int_for, alloc_for. destruct (small_int v); reflexivity.
Qed.

Lemma returns_len {A : Type} : forall (l : list A) (w : World) (Q : pyint -> World -> Prop),
  Q (int_for (Z.of_nat (length l)) w) (alloc_for (Z.of_nat (length l)) w) ->
  returns (len l) w Q.
Proof.
  intros l w Q H. now apply returns_PyLong.
Qed.

Lemma returns_update_axes :
  forall (ax : nat) (f : Axes -> Axes) (w : World) (Q : unit -> World -> Prop),
    Q tt (modify_axes ax f w) -> returns (update_axes ax f) w Q.
Proof.
  intros ax f w Q H. exists tt, (modify_axes ax f w). split; [reflexivity | exact H].
Qed.

Lemma returns_except_TypeError {A : Type} :
  forall (body : M A) (w : World) (Q : A -> World -> Prop),
    returns body w Q -> returns (except_TypeError body) w Q.
Proof.
  intros body w Q [a [w1 [Hm HQ]]]. exists a, w1. split; [|exact HQ].
  unfold except_TypeError. now rewrite Hm.
Qed.

(** ** How the state grows *)

Lemma grows_refl : forall (ax : nat) (w : World), grows ax w w.
Proof.
  intros ax w. constructor; auto.
  - exists []. now rewrite app_nil_r.
  - intros a H. eauto.
Qed.

Lemma grows_trans : forall (ax : nat) (w w1 w2 : World),
  grows ax w w1 -> grows ax w1 w2 -> grows ax w w2.
Proof.
  intros ax w w1 w2 [F1 [m1 L1] I1 D1] [F2 [m2 L2] I2 D2]. constructor.
  - congruence.
  - exists (m1 ++ m2). rewrite L2, L1. now rewrite app_assoc.
  - lia.
  - intros a Ha. destruct (D1 a Ha) as [a1 [Ha1 E1]].
    destruct (D2 a1 Ha1) as [a2 [Ha2 E2]]. exists a2. split; congruence.
Qed.

Lemma grows_log_if : forall (ax : nat) (b : bool) (msg : string) (w : World),
  grows ax w (log_if b msg w).
Proof.
  intros ax b msg w. destruct b; [|apply grows_refl].
  constructor; cbn; eauto.
Qed.

Lemma grows_log_msg : forall (ax : nat) (msg : string) (w : World),
  grows ax w (log_msg msg w).
Proof.
  intros ax msg w. apply (grows_log_if ax true).
Qed.

Lemma grows_alloc_for : forall (ax : nat) (v : Z) (w : World),
  grows ax w (alloc_for v w).
Proof.
  intros ax v w. unfold alloc_for. destruct (small_int v); [apply grows_refl|].
  constructor; cbn; eauto. exists []. now rewrite app_nil_r.
Qed.

Lemma nth_error_modify_axes : forall (ax : nat) (f : Axes -> Axes) (w : World) (a : Axes),
  nth_error (w_axes w) ax = Some a ->
  nth_error (w_axes (modify_axes ax f w)) ax = Some (f a).
Proof.
  intros ax f w a H. unfold modify_axes. cbn [w_axes]. rewrite H.
  apply nth_error_list_set_eq. apply nth_error_Some. congruence.
Qed.

Lemma grows_add_artist : forall (ax : nat) (v : artist) (w : World),
  grows ax w (modify_axes ax (add_artist v) w).
Proof.
  intros ax v w. constructor; cbn; auto.
  - exists []. now rewrite app_nil_r.
  - intros a Ha. exists (add_artist v a). split; [|reflexivity].
    now apply nth_error_modify_axes.
Qed.

Lemma int_known_grows : forall (ax : nat) (n : pyint) (w w1 : World),
  int_known n w -> grows ax w w1 -> int_known n w1.
Proof.
  intros ax n w w1 H [_ _ I _]. unfold int_known in *.
  destruct (int_id n); [assumption | lia].
Qed.

Lemma int_known_int_for : forall (v : Z) (w : World),
  int_known (int_for v w) (alloc_for v w).
Proof.
  intros v w. unfold int_known, int_for, alloc_for.
  destruct (small_int v); cbn; [reflexivity | lia].
Qed.

Lemma int_val_int_for : forall (v : Z) (w : World), int_val (int_for v w) = v.
Proof.
  intros v w. unfold int_for. destruct (small_int v); reflexivity.
Qed.

(** An integer just computed is an object known before only when it is a
    shared small integer of the same value. *)
Lemma py_is_int_for : forall (v : Z) (w : World) (n : pyint),
  int_known n w -> py_is (int_for v w) n = true -> int_val n = v.
Proof.
  intros v w n Hn H. unfold py_is, int_for, int_known in *.
  destruct (small_int v); destruct (int_id n) as [v'|a]; cbn in H; try discriminate.
  - apply Z.eqb_eq in H. congruence.
  - apply Nat.eqb_eq in H. lia.
Qed.

Lemma w_axes_log_if : forall (b : bool) (msg : string) (w : World),
  w_axes (log_if b msg w) = w_axes w.
Proof. intros b msg w. destruct b; reflexivity. Qed.

Lemma w_axes_alloc_for : forall (v : Z) (w : World),
  w_axes (alloc_for v w) = w_axes w.
Proof. intros v w. unfold alloc_for. destruct (small_int v); reflexivity. Qed.

Lemma w_log_alloc_for : forall (v : Z) (w : World),
  w_log (alloc_for v w) = w_log w.
Proof. intros v w. unfold alloc_for. destruct (small_int v); reflexivity. Qed.

Lemma in_log_if_here : forall (msg : string) (w : World),
  In msg (w_log (log_if true msg w)).
Proof. intros msg w. cbn. apply in_or_app. right. now left. Qed.

Lemma in_log_if_later : forall (b : bool) (msg msg' : string) (w : World),
  In msg (w_log w) -> In msg (w_log (log_if b msg' w)).
Proof.
  intros b msg msg' w H. destruct b; [|exact H]. cbn. apply in_or_app. now left.
Qed.

Lemma in_log_grows : forall (ax : nat) (msg : string) (w w1 : World),
  grows ax w w1 -> In msg (w_log w) -> In msg (w_log w1).
Proof.
  intros ax msg w w1 [_ [msgs L] _ _] H. rewrite L. apply in_or_app. now left.
Qed.

(** One step of a run. *)
Ltac run1 :=
  cbv beta iota;
  match goal with
  | |- returns (bind _ _) _ _ => apply returns_bind
  | |- returns (when _ (warn _)) _ _ => apply returns_when_warn
  | |- returns (warn _) _ _ => apply returns_warn
  | |- returns (len _) _ _ => apply returns_len
  | |- returns (PyLong_FromSsize_t _) _ _ => apply returns_PyLong
  | |- returns (update_axes _ _) _ _ => apply returns_update_axes
  | |- returns (lift _) _ _ => eapply returns_lift; [first [eassumption | reflexivity]|]
  | |- returns (ret _) _ _ => apply returns_ret
  end.

(** The state reached by logging, allocating integers and drawing grew. *)
Ltac solve_grows :=
  repeat first
    [ apply grows_refl
    | assumption
    | eapply grows_trans;
      [| first [ apply grows_log_if | apply grows_log_msg | apply grows_alloc_for
               | apply grows_add_artist ] ] ].

(** ** The blocks of plot_contour *)

Lemma contour_input_checks_run :
  forall (ax : nat) (designer : Designer.t) (n_dim x y : pyint) (w : World),
    returns (plot_contour_input_checks designer n_dim x y) w
      (fun _ w1 =>
         grows ax w w1
         /\ w_axes w1 = w_axes w
         /\ ((int_val x <? 0) || (int_val x >=? int_val n_dim) = true ->
             In "Index of dimension to plot on x-axis out of bound."%string (w_log w1))
         /\ ((int_val y <? 0) || (int_val y >=? int_val n_dim) = true ->
             In "Index of dimension to plot on y-axis out of bound."%string (w_log w1))).
Proof.
  intros ax designer n_dim x y w. unfold plot_contour_input_checks.
  repeat run1. cbv beta.
  split; [solve_grows|].
  split; [now repeat (rewrite w_axes_log_if || rewrite w_axes_alloc_for)|].
  split; intros ->.
  - do 2 apply in_log_if_later. apply in_log_if_here.
  - apply in_log_if_later. apply in_log_if_here.
Qed.

Lemma contour_customize_run :
  forall (ax : nat) (title : string) (designer : Designer.t) (x y : pyint) (w : World)
         (xl yl : string) (xlim ylim : Q * Q),
    py_getitem (Designer.label designer) (int_val x) = Ok xl ->
    py_getitem (Designer.label designer) (int_val y) = Ok yl ->
    py_getitem (Designer.limits designer) (int_val x) = Ok xlim ->
    py_getitem (Designer.limits designer) (int_val y) = Ok ylim ->
    returns (plot_contour_customize ax title designer x y) w
      (fun _ w1 =>
         w_log w1 = w_log w /\ w_figs w1 = w_figs w /\ w_ints w1 = w_ints w
         /\ forall a, nth_error (w_axes w) ax = Some a ->
              nth_error (w_axes w1) ax
              = Some (with_ylim ylim
                        (with_xlim xlim
                           (with_ylabel (yl, Designer.text_fontsize designer)
                              (with_xlabel (xl, Designer.text_fontsize designer)
                                 (with_title (title, Designer.title_fontsize designer) a)))))).
Proof.
  intros ax title designer x y w xl yl xlim ylim Hxl Hyl Hxlim Hylim.
  unfold plot_contour_customize, ax_set_title, ax_set_xlabel, ax_set_ylabel,
    ax_set_xlim, ax_set_ylim.
  repeat run1. cbv beta.
  repeat split; try reflexivity.
  intros a Ha. now repeat apply nth_error_modify_axes.
Qed.

Lemma contour_ready_None :
  forall (n_processes : option Z) (x_index y_index : Z) (best_pos : option vector),
    contour_ready None n_processes x_index y_index best_pos.
Proof. intros. split; exact I. Qed.

Lemma contour_mesh_run :
  forall (ax : nat) (mesher : option Mesher.t) (n_dim : pyint) (n_processes : option Z)
         (x y : pyint) (best_pos : option vector) (w : World),
    contour_ready mesher n_processes (int_val x) (int_val y) best_pos ->
    returns (plot_contour_mesh ax mesher n_dim n_processes x y best_pos) w
      (fun _ w1 => grows ax w w1).
Proof.
  intros ax mesher n_dim n_processes x y best_pos w Hm.
  unfold plot_contour_mesh. destruct mesher as [m|].
  - destruct Hm as [[xx [yy [zz [Hm [Hr Hc]]]]] Hl].
    assert (Hargs : contour_args zz (Mesher.levels m) = Ok tt).
    { unfold contour_args. rewrite Hl.
      apply Nat.ltb_ge in Hr. apply Nat.ltb_ge in Hc. now rewrite Hr, Hc. }
    unfold ax_contour.
    repeat run1. solve_grows.
  - run1. solve_grows.
Qed.

Lemma py_is_literal : forall (v k : Z) (w : World),
  py_is (int_for v w) (int_literal k) = true -> v = k.
Proof.
  intros v k w H. symmetry. apply (py_is_int_for v w (int_literal k)); [reflexivity | exact H].
Qed.

Lemma contour_mark_run :
  forall (ax : nat) (mark : option (list Q)) (n_dim x y : pyint) (w : World),
    int_known n_dim w ->
    index_of (int_val n_dim) (int_val x) ->
    index_of (int_val n_dim) (int_val y) ->
    returns (plot_contour_mark ax mark n_dim x y) w (fun _ w1 => grows ax w w1).
Proof.
  intros ax mark n_dim x y w Hn Hx Hy. unfold plot_contour_mark.
  destruct mark as [mark|]; [|run1; solve_grows].
  run1. run1. cbv beta. rewrite int_val_int_for.
  destruct (Z.of_nat (length mark) <? 2) eqn:E2; [run1; solve_grows|].
  apply Z.ltb_ge in E2.
  run1. run1. cbv beta.
  match goal with |- context [py_is ?a (int_literal 2)] =>
    destruct (py_is a (int_literal 2)) eqn:P2 end.
  - apply py_is_literal in P2.
    destruct (py_getitem_in_range mark 0) as [m0 H0]; [lia|].
    destruct (py_getitem_in_range mark 1) as [m1 H1]; [lia|].
    unfold ax_scatter_point. repeat run1. solve_grows.
  - run1. run1. cbv beta.
    match goal with |- context [py_is ?a n_dim] =>
      destruct (py_is a n_dim) eqn:Pn end.
    + apply py_is_int_for in Pn;
        [|repeat (eapply int_known_grows; [|apply (grows_alloc_for ax)]); exact Hn].
      unfold index_of in Hx, Hy. rewrite Pn in Hx, Hy.
      destruct (py_getitem_in_range mark (int_val x)) as [mx Hmx]; [lia|].
      destruct (py_getitem_in_range mark (int_val y)) as [my Hmy]; [lia|].
      unfold ax_scatter_point. repeat run1. solve_grows.
    + run1. solve_grows.
Qed.

(** ** Position histories *)

Lemma getitem3_first : forall pos_history : ndarray3,
  nd3_iters pos_history <> [] ->
  exists rows, getitem3 pos_history 0 = Ok (mk_ndarray (nd3_dims pos_history) rows).
Proof.
  intros [p d iters] H. cbn in H. destruct iters as [|rows iters]; [contradiction|].
  exists rows. reflexivity.
Qed.

Lemma getitem3_empty : forall pos_history : ndarray3,
  nd3_iters pos_history = [] -> getitem3 pos_history 0 = Raise IndexError.
Proof.
  intros [p d iters] H. cbn in H. subst. reflexivity.
Qed.

Lemma map_result_norm_index : forall (n : nat) (idxs : list Z),
  Forall (index_of (Z.of_nat n)) idxs ->
  exists ks, map_result (norm_index n) idxs = Ok ks
             /\ length ks = length idxs
             /\ Forall2 (fun i k => norm_index n i = Ok k) idxs ks.
Proof.
  intros n idxs H. induction H as [|i idxs Hi _ [ks [E [L F]]]].
  - exists []. repeat split. constructor.
  - destruct (norm_index_cases n i) as [[_ [k [Ek _]]] | [Hout _]]; [|contradiction].
    exists (k :: ks). cbn [map_result]. rewrite Ek, E. cbn [rbind length].
    repeat split; [congruence | now constructor].
Qed.

Lemma map_result_raises : forall (n : nat) (idxs : list Z),
  ~ Forall (index_of (Z.of_nat n)) idxs ->
  map_result (norm_index n) idxs = Raise IndexError.
Proof.
  intros n idxs. induction idxs as [|i idxs IH]; intros H.
  - exfalso. apply H. constructor.
  - cbn [map_result].
    destruct (norm_index_cases n i) as [[Hin [k [-> _]]] | [_ ->]]; [|reflexivity].
    cbn [rbind]. rewrite IH; [reflexivity|].
    intros HF. apply H. now constructor.
Qed.

Lemma take_columns_ok : forall (pos_history : ndarray3) (idxs : list Z),
  Forall (index_of (Z.of_nat (nd3_dims pos_history))) idxs ->
  exists ks, Forall2 (fun i k => norm_index (nd3_dims pos_history) i = Ok k) idxs ks
             /\ take_columns pos_history idxs = Ok (columns ks pos_history).
Proof.
  intros pos_history idxs H.
  destruct (map_result_norm_index _ _ H) as [ks [E [L F]]].
  exists ks. split; [exact F|]. unfold take_columns, columns.
  rewrite E. cbn [rbind]. now rewrite L.
Qed.

Lemma take_columns_raises : forall (pos_history : ndarray3) (idxs : list Z),
  ~ Forall (index_of (Z.of_nat (nd3_dims pos_history))) idxs ->
  take_columns pos_history idxs = Raise IndexError.
Proof.
  intros pos_history idxs H. unfold take_columns.
  now rewrite map_result_raises.
Qed.

Lemma returns_plt_subplots :
  forall (figsize : Q * Q) (w : World) (Q : nat * nat -> World -> Prop),
    Q (length (w_figs w), length (w_axes w))
      (mk_World (w_log w) (w_figs w ++ [figsize])
         (w_axes w ++ [new_Axes (length (w_figs w)) false]) (w_ints w)) ->
    returns (plt_subplots figsize) w Q.
Proof.
  intros figsize w Q H. eexists. eexists. split; [reflexivity | exact H].
Qed.

Lemma returns_Axes3D : forall (fig : nat) (w : World) (Q : nat -> World -> Prop),
  Q (length (w_axes w))
    (mk_World (w_log w) (w_figs w) (w_axes w ++ [new_Axes fig true]) (w_ints w)) ->
  returns (Axes3D fig) w Q.
Proof.
  intros fig w Q H. eexists. eexists. split; [reflexivity | exact H].
Qed.

Lemma int_known_ints : forall (n : pyint) (w w1 : World),
  (w_ints w <= w_ints w1)%nat -> int_known n w -> int_known n w1.
Proof.
  intros n w w1 H. unfold int_known. destruct (int_id n); [auto | lia].
Qed.

Lemma decor_fields : forall a b : Axes,
  decor a = decor b ->
  ax_fig a = ax_fig b /\ ax_3d a = ax_3d b /\ ax_title a = ax_title b
  /\ ax_xlabel a = ax_xlabel b /\ ax_ylabel a = ax_ylabel b /\ ax_zlabel a = ax_zlabel b
  /\ ax_xlim a = ax_xlim b /\ ax_ylim a = ax_ylim b /\ ax_zlim a = ax_zlim b.
Proof.
  intros a b H. unfold decor in H. injection H. intros. repeat split; assumption.
Qed.

(** ** plot_contour *)

Section PlotRuns.

Variable Designer_defaults : Designer.t.
Variable Animator_defaults : Animator.t.

(** A call of [plot_contour] whose indices are indices of the dimensions
    and of the designer's labels and limits returns the animation of the
    two columns, on an axes that carries the chosen labels and limits. *)
Lemma plot_contour_run :
  forall (pos_history : ndarray3) (canvas : option (nat * nat)) (title : string)
         (mark : option (list Q)) (designer : option Designer.t)
         (mesher : option Mesher.t) (animator : option Animator.t)
         (n_processes : option Z) (x y : pyint) (best_pos : option vector)
         (kwargs : list (string * string)) (w : World)
         (xl yl : string) (xlim ylim : Q * Q),
    let d := or_default designer (contour_designer Designer_defaults) in
    let a := or_default animator Animator_defaults in
    nd3_iters pos_history <> [] ->
    canvas_live canvas w ->
    index_of (Z.of_nat (nd3_dims pos_history)) (int_val x) ->
    index_of (Z.of_nat (nd3_dims pos_history)) (int_val y) ->
    py_getitem (Designer.label d) (int_val x) = Ok xl ->
    py_getitem (Designer.label d) (int_val y) = Ok yl ->
    py_getitem (Designer.limits d) (int_val x) = Ok xlim ->
    py_getitem (Designer.limits d) (int_val y) = Ok ylim ->
    contour_ready mesher n_processes (int_val x) (int_val y) best_pos ->
    returns
      (plot_contour Designer_defaults Animator_defaults pos_history canvas title mark
         designer mesher animator n_processes x y best_pos kwargs) w
      (fun anim w1 =>
         (exists kx ky,
            norm_index (nd3_dims pos_history) (int_val x) = Ok kx
            /\ norm_index (nd3_dims pos_history) (int_val y) = Ok ky
            /\ anim = FuncAnimation.mk (canvas_fig canvas w) _animate
                        (seq 0 (length (nd3_iters pos_history)))
                        (columns [kx; ky] pos_history, empty_scatter false kwargs)
                        (Animator.interval a) (Animator.repeat a) (Animator.repeat_delay a))
         /\ (exists msgs, w_log w1 = w_log w ++ msgs)
         /\ exists a1,
              nth_error (w_axes w1) (canvas_ax canvas w) = Some a1
              /\ ax_title a1 = Some (title, Designer.title_fontsize d)
              /\ ax_xlabel a1 = Some (xl, Designer.text_fontsize d)
              /\ ax_ylabel a1 = Some (yl, Designer.text_fontsize d)
              /\ ax_xlim a1 = Some xlim
              /\ ax_ylim a1 = Some ylim).
Proof.
  intros pos_history canvas title mark designer mesher animator n_processes x y best_pos
         kwargs w xl yl xlim ylim d a Hne Hlive Hx Hy Hxl Hyl Hxlim Hylim Hmesh.
  unfold plot_contour. apply returns_except_TypeError. cbv zeta. fold d. fold a.
  destruct (getitem3_first pos_history Hne) as [rows Hfirst].
  destruct (take_columns_ok pos_history [int_val x; int_val y]) as [ks [Hks Htake]];
    [constructor; [exact Hx | constructor; [exact Hy | constructor]]|].
  inversion Hks as [|? kx ? ks' Hkx Hks' ]; subst.
  inversion Hks' as [|? ky ? ks'' Hky Hks'' ]; subst.
  inversion Hks''; subst.
  (* the canvas *)
  apply returns_bind.
  assert (Hcanvas :
    returns match canvas with
            | Some c => ret c
            | None => plt_subplots (Designer.figsize d)
            end w
      (fun c w0 => c = (canvas_fig canvas w, canvas_ax canvas w)
                   /\ w_log w0 = w_log w /\ w_ints w0 = w_ints w
                   /\ exists a0, nth_error (w_axes w0) (canvas_ax canvas w) = Some a0)).
  { destruct canvas as [[fig ax]|].
    - run1. repeat split; try reflexivity. cbn in Hlive |- *.
      destruct (nth_error (w_axes w) ax) eqn:E; [eauto|].
      apply nth_error_None in E. lia.
    - apply returns_plt_subplots. repeat split; try reflexivity. cbn.
      rewrite nth_error_app2, Nat.sub_diag by lia. cbn. eauto. }
  eapply returns_weaken; [exact Hcanvas|]. clear Hcanvas.
  intros c w0 [-> [L0 [I0 [a0 Ha0]]]]. cbv beta iota.
  set (ax := canvas_ax canvas w) in *.
  (* the number of dimensions and the input checks *)
  run1. run1. run1. run1. cbn [nd_cols]. run1.
  eapply returns_weaken; [apply (contour_input_checks_run ax)|].
  intros [] w1 [G1 [A1 _]]. cbv beta.
  run1. run1.
  (* the labels and limits *)
  run1.
  eapply returns_weaken;
    [apply (contour_customize_run ax title d x y _ xl yl xlim ylim); assumption|].
  intros [] w2 [L2 [F2 [I2 A2]]]. cbv beta.
  specialize (A2 a0).
  rewrite w_axes_alloc_for, A1, w_axes_alloc_for in A2. specialize (A2 Ha0).
  (* the mesh, the mark and the scatter *)
  run1. eapply returns_weaken; [apply (contour_mesh_run ax); exact Hmesh|].
  intros [] w3 G3. cbv beta.
  run1.
  assert (I1 := grows_ints _ _ _ G1). assert (I3 := grows_ints _ _ _ G3).
  assert (Ia : forall v w', (w_ints w' <= w_ints (alloc_for v w'))%nat)
    by (intros v w'; apply (grows_ints 0), grows_alloc_for).
  pose proof (Ia (Z.of_nat (nd3_dims pos_history)) w0) as Ia0.
  pose proof (Ia (Z.of_nat (length (nd3_iters pos_history))) w1) as Ia1.
  eapply returns_weaken;
    [apply (contour_mark_run ax);
     [ apply (int_known_ints _ (alloc_for (Z.of_nat (nd3_dims pos_history)) w0));
       [lia | apply int_known_int_for]
     | now rewrite int_val_int_for
     | now rewrite int_val_int_for ]|].
  intros [] w4 G4. cbv beta.
  unfold ax_scatter_empty. cbv zeta. repeat run1.
  assert (G34 : grows ax w2 w4) by (eapply grows_trans; eassumption).
  split; [|split].
  - exists kx, ky. repeat split; try assumption.
    unfold range. now rewrite int_val_int_for, Nat2Z.id.
  - destruct (grows_log _ _ _ G1) as [m1 E1]. destruct (grows_log _ _ _ G34) as [m4 E4].
    exists (m1 ++ m4). cbn [w_log modify_axes].
    rewrite E4, L2, w_log_alloc_for, E1, w_log_alloc_for, L0.
    now rewrite app_assoc.
  - destruct (grows_decor _ _ _ G34 _ A2) as [a4 [Ha4 D4]].
    eexists. split; [apply nth_error_modify_axes; exact Ha4|].
    apply decor_fields in D4. cbn in D4. cbn. tauto.
Qed.


(** ** plot_surface *)

Lemma returns_has_get_zlim : forall (ax : nat) (w : World) (Q : bool -> World -> Prop),
  Q (is_3d w ax) w -> returns (has_get_zlim ax) w Q.
Proof.
  intros ax w Q H. exists (is_3d w ax), w. split; [reflexivity | exact H].
Qed.

Lemma surface_input_checks_run :
  forall (ax : nat) (designer : Designer.t) (n_dim x y : pyint) (w : World),
    returns (plot_surface_input_checks designer n_dim x y) w
      (fun _ w1 => grows ax w w1 /\ w_axes w1 = w_axes w).
Proof.
  intros ax designer n_dim x y w. unfold plot_surface_input_checks.
  repeat run1. cbv beta.
  split; [solve_grows|].
  now repeat (rewrite w_axes_log_if || rewrite w_axes_alloc_for).
Qed.

Lemma surface_customize_run :
  forall (ax : nat) (title : string) (designer : Designer.t) (n_dim x y : pyint) (w : World)
         (xl yl zl : string) (xlim ylim zlim : Q * Q),
    py_getitem (Designer.label designer) (int_val x) = Ok xl ->
    py_getitem (Designer.label designer) (int_val y) = Ok yl ->
    py_getitem (Designer.label designer) (int_val n_dim) = Ok zl ->
    py_getitem (Designer.limits designer) (int_val x) = Ok xlim ->
    py_getitem (Designer.limits designer) (int_val y) = Ok ylim ->
    py_getitem (Designer.limits designer) (int_val n_dim) = Ok zlim ->
    returns (plot_surface_customize ax title designer n_dim x y) w
      (fun _ w1 =>
         w_log w1 = w_log w /\ w_figs w1 = w_figs w /\ w_ints w1 = w_ints w
         /\ forall a, nth_error (w_axes w) ax = Some a ->
              nth_error (w_axes w1) ax
              = Some (with_zlim zlim
                        (with_ylim ylim
                           (with_xlim xlim
                              (with_zlabel (zl, Designer.text_fontsize designer)
                                 (with_ylabel (yl, Designer.text_fontsize designer)
                                    (with_xlabel (xl, Designer.text_fontsize designer)
                                       (with_title (title, Designer.title_fontsize designer)
                                          a)))))))).
Proof.
  intros ax title designer n_dim x y w xl yl zl xlim ylim zlim Hxl Hyl Hzl Hxlim Hylim Hzlim.
  unfold plot_surface_customize, ax_set_title, ax_set_xlabel, ax_set_ylabel, ax_set_zlabel,
    ax_set_xlim, ax_set_ylim, ax_set_zlim.
  repeat run1. cbv beta.
  repeat split; try reflexivity.
  intros a Ha. now repeat apply nth_error_modify_axes.
Qed.

Lemma surface_mesh_run :
  forall (ax : nat) (designer : Designer.t) (mesher : option Mesher.t) (n_dim : pyint)
         (n_processes : option Z) (x y : pyint) (best_pos : option vector) (w : World),
    mesh_ready mesher n_processes (int_val x) (int_val y) best_pos ->
    returns (plot_surface_mesh ax designer mesher n_dim n_processes x y best_pos) w
      (fun _ w1 => grows ax w w1).
Proof.
  intros ax designer mesher n_dim n_processes x y best_pos w Hm.
  unfold plot_surface_mesh. destruct mesher as [m|].
  - destruct Hm as [[[xx yy] zz] Hm]. unfold ax_plot_surface.
    repeat run1. solve_grows.
  - run1. solve_grows.
Qed.

Lemma surface_mark_run :
  forall (ax : nat) (mark : option (list Q)) (n_dim x y : pyint) (w : World),
    index_of (int_val n_dim + 1) (int_val x) ->
    index_of (int_val n_dim + 1) (int_val y) ->
    returns (plot_surface_mark ax mark n_dim x y) w (fun _ w1 => grows ax w w1).
Proof.
  intros ax mark n_dim x y w Hx Hy. unfold plot_surface_mark.
  destruct mark as [mark|]; [|run1; solve_grows].
  run1. run1. cbv beta. rewrite int_val_int_for.
  destruct (Z.of_nat (length mark) <? 3) eqn:E3; [run1; solve_grows|].
  apply Z.ltb_ge in E3.
  run1. run1. cbv beta. rewrite int_val_int_for.
  destruct (Z.of_nat (length mark) =? 3) eqn:P3.
  - apply Z.eqb_eq in P3.
    destruct (py_getitem_in_range mark 0) as [m0 H0]; [lia|].
    destruct (py_getitem_in_range mark 1) as [m1 H1]; [lia|].
    destruct (py_getitem_in_range mark 2) as [m2 H2]; [lia|].
    unfold ax_scatter_point. repeat run1. solve_grows.
  - run1. run1. run1. run1. cbv beta. rewrite !int_val_int_for.
    destruct (Z.of_nat (length mark) =? int_val n_dim + 1) eqn:Pn.
    + apply Z.eqb_eq in Pn. unfold index_of in Hx, Hy. rewrite <- Pn in Hx, Hy.
      destruct (py_getitem_in_range mark (int_val x)) as [mx Hmx]; [lia|].
      destruct (py_getitem_in_range mark (int_val y)) as [my Hmy]; [lia|].
      destruct (py_getitem_in_range mark (int_val n_dim)) as [mz Hmz]; [lia|].
      unfold ax_scatter_point. repeat run1. solve_grows.
    + run1. solve_grows.
Qed.

(** A call of [plot_surface] whose indices are indices of the dimensions
    and of the designer's labels and limits returns the animation of the
    two columns and the fitness column, on a 3-D axes that carries the
    chosen labels and limits. *)
Lemma plot_surface_run :
  forall (pos_history : ndarray3) (canvas : option (nat * nat)) (title : string)
         (designer : option Designer.t) (mesher : option Mesher.t)
         (animator : option Animator.t) (mark : option (list Q))
         (n_processes : option Z) (x y : pyint) (best_pos : option vector)
         (kwargs : list (string * string)) (w : World)
         (xl yl zl : string) (xlim ylim zlim : Q * Q),
    let d := or_default designer (surface_designer Designer_defaults) in
    let a := or_default animator Animator_defaults in
    let n_dim := Z.of_nat (nd3_dims pos_history) - 1 in
    nd3_iters pos_history <> [] ->
    canvas_live canvas w ->
    0 <= n_dim ->
    index_of (Z.of_nat (nd3_dims pos_history)) (int_val x) ->
    index_of (Z.of_nat (nd3_dims pos_history)) (int_val y) ->
    py_getitem (Designer.label d) (int_val x) = Ok xl ->
    py_getitem (Designer.label d) (int_val y) = Ok yl ->
    py_getitem (Designer.label d) n_dim = Ok zl ->
    py_getitem (Designer.limits d) (int_val x) = Ok xlim ->
    py_getitem (Designer.limits d) (int_val y) = Ok ylim ->
    py_getitem (Designer.limits d) n_dim = Ok zlim ->
    mesh_ready mesher n_processes (int_val x) (int_val y) best_pos ->
    returns
      (plot_surface Designer_defaults Animator_defaults pos_history canvas title
         designer mesher animator mark n_processes x y best_pos kwargs) w
      (fun anim w1 =>
         (exists kx ky,
            norm_index (nd3_dims pos_history) (int_val x) = Ok kx
            /\ norm_index (nd3_dims pos_history) (int_val y) = Ok ky
            /\ anim = FuncAnimation.mk (canvas_fig canvas w) _animate
                        (seq 0 (length (nd3_iters pos_history)))
                        (columns [kx; ky; Z.to_nat n_dim] pos_history,
                         empty_scatter true kwargs)
                        (Animator.interval a) (Animator.repeat a) (Animator.repeat_delay a))
         /\ (exists msgs, w_log w1 = w_log w ++ msgs)
         /\ exists a1,
              nth_error (w_axes w1) (surface_ax canvas w) = Some a1
              /\ ax_3d a1 = true
              /\ ax_title a1 = Some (title, Designer.title_fontsize d)
              /\ ax_xlabel a1 = Some (xl, Designer.text_fontsize d)
              /\ ax_ylabel a1 = Some (yl, Designer.text_fontsize d)
              /\ ax_zlabel a1 = Some (zl, Designer.text_fontsize d)
              /\ ax_xlim a1 = Some xlim
              /\ ax_ylim a1 = Some ylim
              /\ ax_zlim a1 = Some zlim).
Proof.
  intros pos_history canvas title designer mesher animator mark n_processes x y best_pos
         kwargs w xl yl zl xlim ylim zlim d a n_dim Hne Hlive Hdim Hx Hy
         Hxl Hyl Hzl Hxlim Hylim Hzlim Hmesh.
  unfold plot_surface. apply returns_except_TypeError. cbv zeta. fold d. fold a.
  destruct (getitem3_first pos_history Hne) as [rows Hfirst].
  assert (Hlast : index_of (Z.of_nat (nd3_dims pos_history)) n_dim)
    by (unfold index_of, n_dim in *; lia).
  destruct (take_columns_ok pos_history [int_val x; int_val y; n_dim]) as [ks [Hks Htake]];
    [constructor; [exact Hx | constructor; [exact Hy | constructor; [exact Hlast | constructor]]]|].
  inversion Hks as [|? kx ? ks1 Hkx Hks1]; subst.
  inversion Hks1 as [|? ky ? ks2 Hky Hks2]; subst.
  inversion Hks2 as [|? kz ? ks3 Hkz Hks3]; subst.
  inversion Hks3; subst.
  assert (kz = Z.to_nat n_dim).
  { destruct (norm_index_cases (nd3_dims pos_history) n_dim) as [[_ [k [E _]]] | [_ E]];
      [|congruence].
    unfold norm_index in Hkz.
    destruct (n_dim <? 0) eqn:N; [apply Z.ltb_lt in N; lia|].
    destruct ((0 <=? n_dim) && (n_dim <? Z.of_nat (nd3_dims pos_history)));
      congruence. }
  subst kz.
  (* the canvas *)
  apply returns_bind.
  assert (Hcanvas :
    returns match canvas with
            | Some c => ret c
            | None => plt_subplots (Designer.figsize d)
            end w
      (fun c w0 => c = (canvas_fig canvas w, canvas_ax canvas w)
                   /\ w_log w0 = w_log w /\ w_ints w0 = w_ints w
                   /\ (is_3d w0 (canvas_ax canvas w) = true ->
                       surface_ax canvas w = canvas_ax canvas w)
                   /\ (is_3d w0 (canvas_ax canvas w) = false ->
                       surface_ax canvas w = length (w_axes w0)))).
  { destruct canvas as [[fig ax]|].
    - run1. cbn [surface_ax canvas_ax snd]. repeat split; try reflexivity.
      + intros ->. reflexivity.
      + intros ->. reflexivity.
    - apply returns_plt_subplots. cbn [surface_ax canvas_ax].
      repeat split; try reflexivity.
      + unfold is_3d. cbn [w_axes].
        rewrite nth_error_app2, Nat.sub_diag by lia. cbn. discriminate.
      + intros _. cbn [w_axes]. rewrite length_app. cbn. lia. }
  eapply returns_weaken; [exact Hcanvas|]. clear Hcanvas.
  intros c w0 [-> [L0 [I0 [S3 S2]]]]. cbv beta iota.
  set (ax0 := canvas_ax canvas w) in *.
  set (ax := surface_ax canvas w) in *.
  (* the number of dimensions and the input checks *)
  run1. run1. run1. run1. cbn [nd_cols]. run1. run1. run1.
  rewrite !int_val_int_for. fold n_dim.
  eapply returns_weaken; [apply (surface_input_checks_run ax)|].
  intros [] w1 [G1 A1]. cbv beta.
  rewrite !w_axes_alloc_for in A1.
  (* the 3-D axes *)
  run1. apply returns_has_get_zlim. cbv beta. run1.
  assert (H3d :
    returns (if negb (is_3d w1 ax0) then Axes3D (canvas_fig canvas w) else ret ax0) w1
      (fun ax' w1' => ax' = ax /\ w_log w1' = w_log w1 /\ w_ints w1' = w_ints w1
                      /\ exists a0, nth_error (w_axes w1') ax = Some a0
                                    /\ ax_3d a0 = true)).
  { assert (E : is_3d w1 ax0 = is_3d w0 ax0) by (unfold is_3d; now rewrite A1).
    rewrite E. destruct (is_3d w0 ax0) eqn:D; cbn [negb].
    - run1. rewrite (S3 eq_refl). repeat split; try reflexivity.
      unfold is_3d in D. rewrite A1.
      destruct (nth_error (w_axes w0) ax0) as [a0|]; [eauto | discriminate].
    - apply returns_Axes3D. rewrite (S2 eq_refl), A1. repeat split; try reflexivity.
      cbn [w_axes]. rewrite nth_error_app2, Nat.sub_diag by lia. cbn. eauto. }
  eapply returns_weaken; [exact H3d|]. clear H3d.
  intros ax' w1' [-> [L1' [I1' [a0 [Ha0 D0]]]]]. cbv beta.
  run1. run1.
  (* the labels and limits *)
  run1.
  eapply returns_weaken;
    [apply (surface_customize_run ax title d _ x y _ xl yl zl xlim ylim zlim);
     rewrite ?int_val_int_for; assumption|].
  intros [] w2 [L2 [F2 [I2 A2]]]. cbv beta.
  specialize (A2 a0). rewrite w_axes_alloc_for in A2. specialize (A2 Ha0).
  (* the mesh, the mark and the scatter *)
  run1. eapply returns_weaken; [apply (surface_mesh_run ax); exact Hmesh|].
  intros [] w3 G3. cbv beta.
  run1.
  eapply returns_weaken;
    [apply (surface_mark_run ax); rewrite int_val_int_for;
     unfold index_of, n_dim in *; lia|].
  intros [] w4 G4. cbv beta.
  unfold ax_scatter_empty. cbv zeta. repeat run1.
  rewrite int_val_int_for. cbn [nd_cols]. rewrite int_val_int_for. fold n_dim.
  repeat run1.
  assert (G34 : grows ax w2 w4) by (eapply grows_trans; eassumption).
  split; [|split].
  - exists kx, ky. repeat split; try assumption.
    unfold range. now rewrite int_val_int_for, Nat2Z.id.
  - destruct (grows_log _ _ _ G1) as [m1 E1]. destruct (grows_log _ _ _ G34) as [m4 E4].
    exists (m1 ++ m4). rewrite !w_log_alloc_for. cbn [w_log modify_axes].
    rewrite E4, L2, w_log_alloc_for, L1', E1, !w_log_alloc_for, L0.
    now rewrite app_assoc.
  - destruct (grows_decor _ _ _ G34 _ A2) as [a4 [Ha4 D4]].
    eexists. split.
    + rewrite !w_axes_alloc_for. apply nth_error_modify_axes. exact Ha4.
    + apply decor_fields in D4. cbn in D4. cbn. intuition congruence.
Qed.


(** ** plot_cost_history *)

Lemma nth_error_cost_points : forall (cost_history : list Q) (i : nat) (c : Q),
  nth_error cost_history i = Some c ->
  nth_error (combine (map Z.of_nat (seq 0 (length cost_history))) cost_history) i
  = Some (Z.of_nat i, c).
Proof.
  intros cost_history i c H.
  assert (Hi : (i < length cost_history)%nat) by (apply nth_error_Some; congruence).
  rewrite <- (map_id cost_history) at 2.
  assert (E : forall (l : list Q) (s : nat) (j : nat) (q : Q),
             nth_error l j = Some q ->
             nth_error (combine (map Z.of_nat (seq s (length l))) (map (fun q => q) l)) j
             = Some (Z.of_nat (s + j), q)).
  { induction l as [|q0 l IH]; intros s j q Hj; [destruct j; discriminate|].
    destruct j as [|j]; cbn in Hj |- *.
    - injection Hj as ->. now rewrite Nat.add_0_r.
    - rewrite (IH (S s) j q Hj). f_equal. f_equal. lia. }
  now rewrite (E cost_history 0%nat i c H).
Qed.

(** C6. [plot_cost_history] draws one line whose points pair every
    iteration index [i] in [0 .. iters-1] with [cost_history[i]], and
    returns the axes it drew on: the axes passed in, or a newly created
    one. *)
Theorem plot_cost_history_line :
  forall (cost_history : list Q) (ax : option nat) (title : string)
         (designer : option Designer.t) (w : World) (xl yl : string),
    let d := or_default designer (cost_history_designer Designer_defaults) in
    ax_live ax w ->
    py_getitem (Designer.label d) 0 = Ok xl ->
    py_getitem (Designer.label d) 1 = Ok yl ->
    returns (plot_cost_history Designer_defaults cost_history ax title designer) w
      (fun r w1 =>
         r = match ax with Some r0 => r0 | None => length (w_axes w) end
         /\ exists a0 a1,
              match ax with
              | Some r0 => nth_error (w_axes w) r0 = Some a0
              | None => a0 = new_Axes (length (w_figs w)) false
              end
              /\ nth_error (w_axes w1) r = Some a1
              /\ ax_artists a1 = ax_artists a0 ++ [cost_line cost_history (Designer.legend d)]
              /\ length (line_points (cost_line cost_history (Designer.legend d)))
                 = length cost_history
              /\ (forall (i : nat) (c : Q),
                    nth_error cost_history i = Some c ->
                    nth_error (line_points (cost_line cost_history (Designer.legend d))) i
                    = Some (Z.of_nat i, c))
              /\ ax_title a1 = Some (title, Designer.title_fontsize d)
              /\ ax_xlabel a1 = Some (xl, Designer.text_fontsize d)
              /\ ax_ylabel a1 = Some (yl, Designer.text_fontsize d)).
Proof.
  intros cost_history ax title designer w xl yl d Hlive Hxl Hyl.
  unfold plot_cost_history. apply returns_except_TypeError. cbv zeta. fold d.
  run1. run1.
  assert (Hax :
    returns match ax with
            | Some a => ret a
            | None => (' (_, ax0) <- plt_subplots (Designer.figsize d) ;; ret ax0)%M
            end (alloc_for (Z.of_nat (length cost_history)) w)
      (fun r w0 => r = match ax with Some r0 => r0 | None => length (w_axes w) end
                   /\ exists a0,
                        match ax with
                        | Some r0 => nth_error (w_axes w) r0 = Some a0
                        | None => a0 = new_Axes (length (w_figs w)) false
                        end
                        /\ nth_error (w_axes w0) r = Some a0)).
  { destruct ax as [r0|].
    - run1. split; [reflexivity|]. cbn in Hlive.
      destruct (nth_error (w_axes w) r0) as [a0|] eqn:E;
        [|apply nth_error_None in E; lia].
      exists a0. split; [reflexivity|]. now rewrite w_axes_alloc_for.
    - run1. apply returns_plt_subplots. run1.
      unfold alloc_for. destruct (small_int _); cbn [w_axes w_figs];
        (split; [reflexivity|]; eexists; split; [reflexivity|];
         now rewrite nth_error_app2, Nat.sub_diag by lia). }
  run1. eapply returns_weaken; [exact Hax|]. clear Hax.
  intros r w0 [-> [a0 [Ha0 Hw0]]]. cbv beta.
  unfold ax_plot, ax_set_title, ax_legend_, ax_set_xlabel, ax_set_ylabel, ax_tick_params.
  repeat run1.
  split; [reflexivity|]. exists a0. eexists.
  split; [exact Ha0|].
  split; [repeat apply nth_error_modify_axes; exact Hw0|].
  unfold np_arange_int. rewrite int_val_int_for, Nat2Z.id.
  split; [reflexivity|].
  split; [cbn [cost_line line_points];
          now rewrite length_combine, length_map, length_seq, Nat.min_id|].
  split; [intros i c Hc; now apply nth_error_cost_points|].
  repeat split.
Qed.

(** ** Runs that may raise *)

Lemma run_bind_returns {A B : Type} :
  forall (m : M A) (k : A -> M B) (w : World) (P : World * result B -> Prop),
    returns m w (fun a w1 => P (k a w1)) -> P (bind m k w).
Proof.
  intros m k w P [a [w1 [Hm HP]]]. unfold bind. now rewrite Hm.
Qed.

(** Run the first step of the computation in the goal, which returns. *)
Ltac run_prefix :=
  match goal with
  | |- context [bind ?m ?k ?w] => pattern (bind m k w); apply run_bind_returns
  end.

Lemma except_TypeError_store {A : Type} : forall (body : M A) (w : World),
  w_figs (fst (except_TypeError body w)) = w_figs (fst (body w))
  /\ w_axes (fst (except_TypeError body w)) = w_axes (fst (body w)).
Proof.
  intros body w. unfold except_TypeError.
  destruct (body w) as [w1 [a|e]]; [split; reflexivity|].
  destruct e; split; reflexivity.
Qed.

(** *** What a run yields when it returns *)

Lemma yields_returns {A : Type} :
  forall (m : M A) (w : World) (Q : A -> World -> Prop),
    returns m w Q -> yields m w Q.
Proof.
  intros m w Q [a [w1 [E HQ]]] a' w1' E'. rewrite E in E'.
  injection E' as <- <-. exact HQ.
Qed.

Lemma yields_any {A : Type} :
  forall (m : M A) (w : World) (Q : A -> World -> Prop),
    (forall a w1, Q a w1) -> yields m w Q.
Proof. intros m w Q H a w1 _. apply H. Qed.

Lemma yields_bind {A B : Type} :
  forall (m : M A) (k : A -> M B) (w : World) (Q : B -> World -> Prop),
    yields m w (fun a w1 => yields (k a) w1 Q) -> yields (bind m k) w Q.
Proof.
  intros m k w Q H b w2 E. unfold bind in E.
  destruct (m w) as [w1 [a|e]] eqn:Em; [|discriminate].
  exact (H a w1 Em b w2 E).
Qed.

Lemma yields_lift {A : Type} :
  forall (r : result A) (w : World) (Q : A -> World -> Prop),
    (forall a, r = Ok a -> Q a w) -> yields (lift r) w Q.
Proof.
  intros r w Q H a w1 E. unfold lift in E. injection E as <- E. now apply H.
Qed.

Lemma yields_except_TypeError {A : Type} :
  forall (body : M A) (w : World) (Q : A -> World -> Prop),
    yields body w Q -> yields (except_TypeError body) w Q.
Proof.
  intros body w Q H a w1 E. unfold except_TypeError in E.
  destruct (body w) as [w' [a'|e]] eqn:Eb.
  - injection E as <- <-. exact (H a' w' Eb).
  - destruct e; discriminate.
Qed.

Lemma yields_run {A : Type} :
  forall (m : M A) (w : World) (Q : A -> World -> Prop),
    yields m w Q -> forall a, snd (m w) = Ok a -> Q a (fst (m w)).
Proof.
  intros m w Q H a E. destruct (m w) as [w1 r] eqn:Em. cbn in E |- *. subst r.
  exact (H a w1 Em).
Qed.

(** A step whose result the rest of the run does not depend on. *)
Ltac skip_step :=
  apply yields_bind; apply yields_any; intros ? ?; cbv beta iota.

Lemma getitem3_cols : forall (a : ndarray3) (i : Z) (first : ndarray Q),
  getitem3 a i = Ok first -> nd_cols first = nd3_dims a.
Proof.
  intros a i first H. unfold getitem3 in H.
  destruct (py_getitem (nd3_iters a) i) as [rows|e]; [|discriminate].
  cbn in H. injection H as <-. reflexivity.
Qed.

(** *** Runs that keep the decor of the axes *)

Lemma keeps_decor_ret {A : Type} : forall (ax : nat) (a : A), keeps_decor ax (ret a).
Proof. intros ax a w. apply grows_refl. Qed.

Lemma keeps_decor_lift {A : Type} : forall (ax : nat) (r : result A),
  keeps_decor ax (lift r).
Proof. intros ax r w. apply grows_refl. Qed.

Lemma keeps_decor_bind {A B : Type} : forall (ax : nat) (m : M A) (k : A -> M B),
  keeps_decor ax m -> (forall a, keeps_decor ax (k a)) -> keeps_decor ax (bind m k).
Proof.
  intros ax m k Hm Hk w. unfold bind. specialize (Hm w).
  destruct (m w) as [w1 [a|e]]; cbn [fst] in *; [|exact Hm].
  eapply grows_trans; [exact Hm | apply Hk].
Qed.

Lemma keeps_decor_warn : forall (ax : nat) (msg : string), keeps_decor ax (warn msg).
Proof. intros ax msg w. apply grows_log_msg. Qed.

Lemma keeps_decor_when : forall (ax : nat) (b : bool) (m : M unit),
  keeps_decor ax m -> keeps_decor ax (when b m).
Proof. intros ax b m H. destruct b; [exact H | apply keeps_decor_ret]. Qed.

Lemma keeps_decor_PyLong : forall (ax : nat) (v : Z),
  keeps_decor ax (PyLong_FromSsize_t v).
Proof.
  intros ax v w.
  assert (E : fst (PyLong_FromSsize_t v w) = alloc_for v w)
    by (unfold PyLong_FromSsize_t, alloc_for; destruct (small_int v); reflexivity).
  rewrite E. apply grows_alloc_for.
Qed.

Lemma keeps_decor_len {A : Type} : forall (ax : nat) (l : list A),
  keeps_decor ax (len l).
Proof. intros ax l. apply keeps_decor_PyLong. Qed.

Lemma keeps_decor_add_artist : forall (ax : nat) (v : artist),
  keeps_decor ax (update_axes ax (add_artist v)).
Proof. intros ax v w. apply grows_add_artist. Qed.

Create HintDb keeps.

#[local] Hint Resolve keeps_decor_ret keeps_decor_lift keeps_decor_warn keeps_decor_when
  keeps_decor_PyLong keeps_decor_len keeps_decor_add_artist : keeps.

Ltac solve_keeps :=
  repeat first
    [ solve [auto with keeps]
    | match goal with
      | |- keeps_decor _ (let '(_, _) := ?p in _) => destruct p
      | |- keeps_decor _ (if ?b then _ else _) => destruct b
      | |- keeps_decor _ (match ?o with Some _ => _ | None => _ end) => destruct o
      end
    | apply keeps_decor_bind; [|intros ?] ].

Lemma keeps_decor_contour_mesh :
  forall (ax : nat) (mesher : option Mesher.t) (n_dim : pyint) (n_processes : option Z)
         (x y : pyint) (best_pos : option vector),
    keeps_decor ax (plot_contour_mesh ax mesher n_dim n_processes x y best_pos).
Proof. intros. unfold plot_contour_mesh, ax_contour. solve_keeps. Qed.

Lemma keeps_decor_contour_mark :
  forall (ax : nat) (mark : option (list Q)) (n_dim x y : pyint),
    keeps_decor ax (plot_contour_mark ax mark n_dim x y).
Proof. intros. unfold plot_contour_mark, ax_scatter_point. solve_keeps. Qed.

Lemma keeps_decor_surface_mesh :
  forall (ax : nat) (designer : Designer.t) (mesher : option Mesher.t) (n_dim : pyint)
         (n_processes : option Z) (x y : pyint) (best_pos : option vector),
    keeps_decor ax (plot_surface_mesh ax designer mesher n_dim n_processes x y best_pos).
Proof. intros. unfold plot_surface_mesh, ax_plot_surface. solve_keeps. Qed.

Lemma keeps_decor_surface_mark :
  forall (ax : nat) (mark : option (list Q)) (n_dim x y : pyint),
    keeps_decor ax (plot_surface_mark ax mark n_dim x y).
Proof. intros. unfold plot_surface_mark, ax_scatter_point. solve_keeps. Qed.

Lemma keeps_decor_scatter_empty :
  forall (ax : nat) (is3d : bool) (c : string) (alpha : Q) (kwargs : list (string * string)),
    keeps_decor ax (ax_scatter_empty ax is3d c alpha kwargs).
Proof. intros. unfold ax_scatter_empty. cbv zeta. solve_keeps. Qed.

#[local] Hint Resolve keeps_decor_contour_mesh keeps_decor_contour_mark
  keeps_decor_surface_mesh keeps_decor_surface_mark keeps_decor_scatter_empty : keeps.

(** ** The animation *)

Lemma animate_columns :
  forall (ks : list nat) (pos_history : ndarray3) (plot : PathCollection)
         (i : nat) (positions : list (list Q)),
    nth_error (nd3_iters pos_history) i = Some positions ->
    _animate i (columns ks pos_history) plot
    = if (length ks =? 2)%nat
      then Ok (set_offsets plot (restrict ks positions))
      else Ok (set__offsets3d plot (transpose (restrict ks positions))).
Proof.
  intros ks pos_history plot i positions H. unfold _animate, getitem3, columns.
  cbn [nd3_iters nd3_dims].
  rewrite (py_getitem_nat _ i (map (fun row => map (fun k => nth k row 0%Q) ks) positions))
    by (rewrite nth_error_map, H; reflexivity).
  cbn [rbind nd_cols]. reflexivity.
Qed.

Lemma norm_index_of_nat : forall (n k k' : nat) (i : Z),
  i = Z.of_nat k -> norm_index n i = Ok k' -> k' = k.
Proof.
  intros n k k' i -> H. unfold norm_index in H.
  destruct (Z.of_nat k <? 0) eqn:N; [apply Z.ltb_lt in N; lia|].
  destruct ((0 <=? Z.of_nat k) && (Z.of_nat k <? Z.of_nat n)); [|discriminate].
  injection H as <-. apply Nat2Z.id.
Qed.

Lemma designer_covers_lookup : forall (d : Designer.t) (idxs : list Z) (i : Z),
  designer_covers d idxs -> In i idxs ->
  (exists l, py_getitem (Designer.label d) i = Ok l)
  /\ (exists l, py_getitem (Designer.limits d) i = Ok l).
Proof.
  intros d idxs i H Hin. unfold designer_covers in H.
  rewrite Forall_forall in H. destruct (H i Hin) as [H1 H2].
  split; apply py_getitem_in_range; assumption.
Qed.

Lemma mesh_drawable_ready :
  forall (mesher : option Mesher.t) (n_processes : option Z) (x_index y_index : Z)
         (best_pos : option vector),
    mesh_drawable mesher n_processes x_index y_index best_pos ->
    mesh_ready mesher n_processes x_index y_index best_pos.
Proof.
  intros [m|] n_processes x_index y_index best_pos H; [|exact I].
  destruct H as [xx [yy [zz [H _]]]]. eexists. exact H.
Qed.

(** Whenever [plot_contour] returns, it returns the animation of the
    columns [x] and [y] over all iterations. *)
Lemma plot_contour_yields :
  forall (pos_history : ndarray3) (canvas : option (nat * nat)) (title : string)
         (mark : option (list Q)) (designer : option Designer.t)
         (mesher : option Mesher.t) (animator : option Animator.t)
         (n_processes : option Z) (x y : pyint) (best_pos : option vector)
         (kwargs : list (string * string)) (w : World) (kx ky : nat),
    int_val x = Z.of_nat kx -> (kx < nd3_dims pos_history)%nat ->
    int_val y = Z.of_nat ky -> (ky < nd3_dims pos_history)%nat ->
    yields
      (plot_contour Designer_defaults Animator_defaults pos_history canvas title mark
         designer mesher animator n_processes x y best_pos kwargs) w
      (fun anim _ =>
         FuncAnimation.frames anim = seq 0 (length (nd3_iters pos_history))
         /\ FuncAnimation.func anim = _animate
         /\ FuncAnimation.fargs anim
            = (columns [kx; ky] pos_history, empty_scatter false kwargs)).
Proof.
  intros pos_history canvas title mark designer mesher animator n_processes x y best_pos
         kwargs w kx ky Ex Hkx Ey Hky.
  destruct (take_columns_ok pos_history [int_val x; int_val y]) as [ks [Hks Htake]];
    [repeat constructor; unfold index_of; lia|].
  inversion Hks as [|? kx' ? ks1 Hkx' Hks1]; subst.
  inversion Hks1 as [|? ky' ? ks2 Hky' Hks2]; subst.
  inversion Hks2; subst.
  apply (norm_index_of_nat _ kx) in Hkx'; [|exact Ex].
  apply (norm_index_of_nat _ ky) in Hky'; [|exact Ey]. subst kx' ky'.
  unfold plot_contour. apply yields_except_TypeError. cbv zeta.
  apply yields_bind; apply yields_any; intros [fig ax] w0; cbv beta iota.
  skip_step. skip_step. skip_step.
  apply yields_bind. apply yields_returns. run1. cbv beta.
  skip_step. skip_step. skip_step.
  apply yields_bind. apply yields_returns.
  unfold ax_scatter_empty. cbv zeta. repeat run1. cbv beta.
  rewrite Htake. apply yields_returns. repeat run1.
  cbn [FuncAnimation.frames FuncAnimation.func FuncAnimation.fargs].
  unfold range. rewrite int_val_int_for, Nat2Z.id. repeat split.
Qed.

(** Whenever [plot_surface] returns, it returns the animation of the
    columns [x], [y] and the last one over all iterations. *)
Lemma plot_surface_yields :
  forall (pos_history : ndarray3) (canvas : option (nat * nat)) (title : string)
         (designer : option Designer.t) (mesher : option Mesher.t)
         (animator : option Animator.t) (mark : option (list Q))
         (n_processes : option Z) (x y : pyint) (best_pos : option vector)
         (kwargs : list (string * string)) (w : World) (kx ky n_dim : nat),
    nd3_dims pos_history = S n_dim ->
    int_val x = Z.of_nat kx -> (kx < n_dim)%nat ->
    int_val y = Z.of_nat ky -> (ky < n_dim)%nat ->
    yields
      (plot_surface Designer_defaults Animator_defaults pos_history canvas title
         designer mesher animator mark n_processes x y best_pos kwargs) w
      (fun anim _ =>
         FuncAnimation.frames anim = seq 0 (length (nd3_iters pos_history))
         /\ FuncAnimation.func anim = _animate
         /\ FuncAnimation.fargs anim
            = (columns [kx; ky; n_dim] pos_history, empty_scatter true kwargs)).
Proof.
  intros pos_history canvas title designer mesher animator mark n_processes x y best_pos
         kwargs w kx ky n_dim Hdim Ex Hkx Ey Hky.
  assert (En : Z.of_nat (nd3_dims pos_history) - 1 = Z.of_nat n_dim) by lia.
  destruct (take_columns_ok pos_history [int_val x; int_val y; Z.of_nat n_dim])
    as [ks [Hks Htake]]; [repeat constructor; unfold index_of; lia|].
  inversion Hks as [|? kx' ? ks1 Hkx' Hks1]; subst.
  inversion Hks1 as [|? ky' ? ks2 Hky' Hks2]; subst.
  inversion Hks2 as [|? kz' ? ks3 Hkz' Hks3]; subst.
  inversion Hks3; subst.
  apply (norm_index_of_nat _ kx) in Hkx'; [|exact Ex].
  apply (norm_index_of_nat _ ky) in Hky'; [|exact Ey].
  apply (norm_index_of_nat _ n_dim) in Hkz'; [|reflexivity]. subst kx' ky' kz'.
  unfold plot_surface. apply yields_except_TypeError. cbv zeta.
  apply yields_bind; apply yields_any; intros [fig ax] w0; cbv beta iota.
  skip_step. skip_step. skip_step. skip_step. skip_step. skip_step.
  apply yields_bind. apply yields_returns. run1. cbv beta.
  skip_step. skip_step. skip_step.
  apply yields_bind. apply yields_returns.
  unfold ax_scatter_empty. cbv zeta. repeat run1. cbv beta.
  apply yields_bind. apply yields_lift. intros first Hfirst. cbv beta.
  rewrite (getitem3_cols _ _ _ Hfirst).
  apply yields_bind. apply yields_returns. run1. cbv beta.
  apply yields_bind. apply yields_returns. run1. cbv beta.
  rewrite !int_val_int_for, En, Htake. apply yields_returns. repeat run1.
  cbn [FuncAnimation.frames FuncAnimation.func FuncAnimation.fargs].
  unfold range. rewrite int_val_int_for, Nat2Z.id. repeat split.
Qed.


(** C7. [plot_contour] sets the label and the limits of the x-axis to
    [designer.label[x]] and [designer.limits[x]] and those of the y-axis to
    [designer.label[y]] and [designer.limits[y]]; [plot_surface] does the
    same and sets the label and the limits of the z-axis to the entries at
    [n_dim], the fitness column.  The axes carries them when the call ends,
    whether it returns or raises. *)
Theorem axes_follow_indices :
  (forall (pos_history : ndarray3) (canvas : option (nat * nat)) (title : string)
          (mark : option (list Q)) (designer : option Designer.t)
          (mesher : option Mesher.t) (animator : option Animator.t)
          (n_processes : option Z) (x y : pyint) (best_pos : option vector)
          (kwargs : list (string * string)) (w : World)
          (xl yl : string) (xlim ylim : Q * Q),
     let d := or_default designer (contour_designer Designer_defaults) in
     let w1 := fst (plot_contour Designer_defaults Animator_defaults pos_history canvas
                      title mark designer mesher animator n_processes x y best_pos
                      kwargs w) in
     nd3_iters pos_history <> [] ->
     canvas_live canvas w ->
     0 <= int_val x < Z.of_nat (nd3_dims pos_history) ->
     0 <= int_val y < Z.of_nat (nd3_dims pos_history) ->
     py_getitem (Designer.label d) (int_val x) = Ok xl ->
     py_getitem (Designer.label d) (int_val y) = Ok yl ->
     py_getitem (Designer.limits d) (int_val x) = Ok xlim ->
     py_getitem (Designer.limits d) (int_val y) = Ok ylim ->
     exists a1,
       nth_error (w_axes w1) (canvas_ax canvas w) = Some a1
       /\ ax_xlabel a1 = Some (xl, Designer.text_fontsize d)
       /\ ax_xlim a1 = Some xlim
       /\ ax_ylabel a1 = Some (yl, Designer.text_fontsize d)
       /\ ax_ylim a1 = Some ylim)
  /\ (forall (pos_history : ndarray3) (canvas : option (nat * nat)) (title : string)
             (designer : option Designer.t) (mesher : option Mesher.t)
             (animator : option Animator.t) (mark : option (list Q))
             (n_processes : option Z) (x y : pyint) (best_pos : option vector)
             (kwargs : list (string * string)) (w : World)
             (xl yl zl : string) (xlim ylim zlim : Q * Q),
        let d := or_default designer (surface_designer Designer_defaults) in
        let n_dim := Z.of_nat (nd3_dims pos_history) - 1 in
        let w1 := fst (plot_surface Designer_defaults Animator_defaults pos_history canvas
                         title designer mesher animator mark n_processes x y best_pos
                         kwargs w) in
        nd3_iters pos_history <> [] ->
        canvas_live canvas w ->
        0 <= int_val x < n_dim ->
        0 <= int_val y < n_dim ->
        py_getitem (Designer.label d) (int_val x) = Ok xl ->
        py_getitem (Designer.label d) (int_val y) = Ok yl ->
        py_getitem (Designer.label d) n_dim = Ok zl ->
        py_getitem (Designer.limits d) (int_val x) = Ok xlim ->
        py_getitem (Designer.limits d) (int_val y) = Ok ylim ->
        py_getitem (Designer.limits d) n_dim = Ok zlim ->
        exists a1,
          nth_error (w_axes w1) (surface_ax canvas w) = Some a1
          /\ ax_xlabel a1 = Some (xl, Designer.text_fontsize d)
          /\ ax_xlim a1 = Some xlim
          /\ ax_ylabel a1 = Some (yl, Designer.text_fontsize d)
          /\ ax_ylim a1 = Some ylim
          /\ ax_zlabel a1 = Some (zl, Designer.text_fontsize d)
          /\ ax_zlim a1 = Some zlim).
Proof.
  split.
  - intros pos_history canvas title mark designer mesher animator n_processes x y best_pos
           kwargs w xl yl xlim ylim d w1 Hne Hlive Hx Hy Hxl Hyl Hxlim Hylim.
    destruct (getitem3_first pos_history Hne) as [rows Hfirst].
    unfold w1, plot_contour. rewrite (proj2 (except_TypeError_store _ w)).
    cbv zeta. fold d.
    assert (Hcanvas :
      returns match canvas with
              | Some c => ret c
              | None => plt_subplots (Designer.figsize d)
              end w
        (fun c w0 => c = (canvas_fig canvas w, canvas_ax canvas w)
                     /\ exists a0, nth_error (w_axes w0) (canvas_ax canvas w) = Some a0)).
    { destruct canvas as [[fig ax]|].
      - run1. split; [reflexivity|]. cbn in Hlive |- *.
        destruct (nth_error (w_axes w) ax) eqn:E; [eauto|].
        apply nth_error_None in E. lia.
      - apply returns_plt_subplots. split; [reflexivity|]. cbn.
        eexists. now rewrite nth_error_app2, Nat.sub_diag by lia. }
    run_prefix. eapply returns_weaken; [exact Hcanvas|]. clear Hcanvas.
    intros c w0 [-> [a0 Ha0]]. cbv beta iota.
    set (ax := canvas_ax canvas w) in *.
    run_prefix. run1. cbv beta. run_prefix. run1. cbv beta. cbn [nd_cols].
    run_prefix. eapply returns_weaken; [apply (contour_input_checks_run ax)|].
    intros [] w2 [_ [A2 _]]. cbv beta.
    run_prefix. run1. cbv beta.
    run_prefix.
    eapply returns_weaken;
      [apply (contour_customize_run ax title d x y _ xl yl xlim ylim); assumption|].
    intros [] w3 [_ [_ [_ A3]]]. cbv beta.
    specialize (A3 a0).
    rewrite w_axes_alloc_for, A2, w_axes_alloc_for in A3. specialize (A3 Ha0).
    match goal with
    | |- context [fst (?R w3)] =>
        assert (K : keeps_decor ax R) by solve_keeps;
        destruct (grows_decor _ _ _ (K w3) _ A3) as [a4 [Ha4 D4]]
    end.
    exists a4. split; [exact Ha4|].
    apply decor_fields in D4. cbn in D4. intuition congruence.
  - intros pos_history canvas title designer mesher animator mark n_processes x y best_pos
           kwargs w xl yl zl xlim ylim zlim d n_dim w1 Hne Hlive Hx Hy
           Hxl Hyl Hzl Hxlim Hylim Hzlim.
    destruct (getitem3_first pos_history Hne) as [rows Hfirst].
    unfold w1, plot_surface. rewrite (proj2 (except_TypeError_store _ w)).
    cbv zeta. fold d.
    assert (Hcanvas :
      returns match canvas with
              | Some c => ret c
              | None => plt_subplots (Designer.figsize d)
              end w
        (fun c w0 => c = (canvas_fig canvas w, canvas_ax canvas w)
                     /\ (is_3d w0 (canvas_ax canvas w) = true ->
                         surface_ax canvas w = canvas_ax canvas w)
                     /\ (is_3d w0 (canvas_ax canvas w) = false ->
                         surface_ax canvas w = length (w_axes w0)))).
    { destruct canvas as [[fig ax]|].
      - run1. cbn [surface_ax canvas_ax snd]. repeat split; try reflexivity.
        + intros ->. reflexivity.
        + intros ->. reflexivity.
      - apply returns_plt_subplots. cbn [surface_ax canvas_ax].
        repeat split; try reflexivity.
        + unfold is_3d. cbn [w_axes].
          rewrite nth_error_app2, Nat.sub_diag by lia. cbn. discriminate.
        + intros _. cbn [w_axes]. rewrite length_app. cbn. lia. }
    run_prefix. eapply returns_weaken; [exact Hcanvas|]. clear Hcanvas.
    intros c w0 [-> [S3 S2]]. cbv beta iota.
    set (ax0 := canvas_ax canvas w) in *.
    set (ax := surface_ax canvas w) in *.
    run_prefix. run1. cbv beta. run_prefix. run1. cbv beta. cbn [nd_cols].
    run_prefix. run1. cbv beta. rewrite !int_val_int_for. fold n_dim.
    run_prefix. eapply returns_weaken; [apply (surface_input_checks_run ax)|].
    intros [] w2 [_ A2]. cbv beta.
    rewrite !w_axes_alloc_for in A2.
    run_prefix. apply returns_has_get_zlim. cbv beta.
    assert (H3d :
      returns (if negb (is_3d w2 ax0) then Axes3D (canvas_fig canvas w) else ret ax0) w2
        (fun ax' w2' => ax' = ax /\ exists a0, nth_error (w_axes w2') ax = Some a0)).
    { assert (E : is_3d w2 ax0 = is_3d w0 ax0) by (unfold is_3d; now rewrite A2).
      rewrite E. destruct (is_3d w0 ax0) eqn:D; cbn [negb].
      - run1. rewrite (S3 eq_refl). split; [reflexivity|].
        unfold is_3d in D. rewrite A2.
        destruct (nth_error (w_axes w0) ax0) as [a0|]; [eauto | discriminate].
      - apply returns_Axes3D. rewrite (S2 eq_refl), A2. split; [reflexivity|].
        cbn [w_axes]. rewrite nth_error_app2, Nat.sub_diag by lia. cbn. eauto. }
    run_prefix. eapply returns_weaken; [exact H3d|]. clear H3d.
    intros ax' w2' [-> [a0 Ha0]]. cbv beta.
    run_prefix. run1. cbv beta.
    run_prefix.
    eapply returns_weaken;
      [apply (surface_customize_run ax title d _ x y _ xl yl zl xlim ylim zlim);
       rewrite ?int_val_int_for; assumption|].
    intros [] w3 [_ [_ [_ A3]]]. cbv beta.
    specialize (A3 a0). rewrite w_axes_alloc_for in A3. specialize (A3 Ha0).
    match goal with
    | |- context [fst (?R w3)] =>
        assert (K : keeps_decor ax R) by solve_keeps;
        destruct (grows_decor _ _ _ (K w3) _ A3) as [a4 [Ha4 D4]]
    end.
    exists a4. split; [exact Ha4|].
    apply decor_fields in D4. cbn in D4. intuition congruence.
Qed.

(** ** Histories that agree on the plotted columns *)

Lemma map_result_Forall2 {A B : Type} : forall (f : A -> result B) (l : list A) (bs : list B),
  map_result f l = Ok bs -> Forall2 (fun a b => f a = Ok b) l bs.
Proof.
  induction l as [|a l IH]; intros bs H; cbn in H.
  - injection H as <-. constructor.
  - destruct (f a) as [b|e] eqn:E; [|discriminate]. cbn in H.
    destruct (map_result f l) as [bs'|e] eqn:E'; [|discriminate]. cbn in H.
    injection H as <-. constructor; [exact E | now apply IH].
Qed.

Lemma Forall2_In_r {A B : Type} : forall (R : A -> B -> Prop) (l : list A) (l' : list B) (b : B),
  Forall2 R l l' -> In b l' -> exists a, In a l /\ R a b.
Proof.
  intros R l l' b H. induction H as [|a b' l l' Hab _ IH]; intros Hin.
  - destruct Hin.
  - destruct Hin as [-> | Hin].
    + exists a. split; [now left | exact Hab].
    + destruct (IH Hin) as [a' [Ha' HR]]. exists a'. split; [now right | exact HR].
Qed.

Lemma take_columns_agree : forall (idxs : list Z) (h1 h2 : ndarray3),
  histories_agree idxs h1 h2 -> take_columns h1 idxs = take_columns h2 idxs.
Proof.
  intros idxs h1 h2 [Hp [Hd Hrows]]. unfold take_columns. rewrite <- Hd, <- Hp.
  destruct (map_result (norm_index (nd3_dims h1)) idxs) as [ks|e] eqn:E; [|reflexivity].
  cbn [rbind]. do 2 f_equal.
  apply map_result_Forall2 in E.
  induction Hrows as [|p1 p2 l1 l2 Hp12 _ IH]; [reflexivity|].
  cbn [map]. rewrite IH. f_equal.
  clear IH. induction Hp12 as [|r1 r2 q1 q2 Hr _ IH]; [reflexivity|].
  cbn [map]. rewrite IH. f_equal.
  apply map_ext_in. intros k Hk.
  destruct (Forall2_In_r _ _ _ _ E Hk) as [i [Hi Hik]].
  exact (Hr i k Hi Hik).
Qed.

Lemma getitem3_agree : forall (idxs : list Z) (h1 h2 : ndarray3),
  histories_agree idxs h1 h2 ->
  (exists rows1 rows2,
     getitem3 h1 0 = Ok (mk_ndarray (nd3_dims h1) rows1)
     /\ getitem3 h2 0 = Ok (mk_ndarray (nd3_dims h1) rows2))
  \/ (getitem3 h1 0 = Raise IndexError /\ getitem3 h2 0 = Raise IndexError).
Proof.
  intros idxs [p1 d1 i1] [p2 d2 i2] [Hp [Hd Hrows]]. cbn in *. subst.
  destruct Hrows as [|r1 r2 l1 l2 _ _]; [right; split; reflexivity|].
  left. exists r1, r2. split; reflexivity.
Qed.

(** C9. Two position histories of the same shape that agree on the columns
    [x] and [y] at every iteration and particle make [plot_contour], called
    without a mesher, run identically: the same log, the same axes, the same
    outcome, hence the same frames. *)
Theorem plot_contour_noninterference :
  forall (h1 h2 : ndarray3) (canvas : option (nat * nat)) (title : string)
         (mark : option (list Q)) (designer : option Designer.t)
         (animator : option Animator.t) (n_processes : option Z) (x y : pyint)
         (best_pos : option vector) (kwargs : list (string * string)) (w : World),
    histories_agree [int_val x; int_val y] h1 h2 ->
    let run1 := plot_contour Designer_defaults Animator_defaults h1 canvas title mark
                  designer None animator n_processes x y best_pos kwargs w in
    let run2 := plot_contour Designer_defaults Animator_defaults h2 canvas title mark
                  designer None animator n_processes x y best_pos kwargs w in
    run1 = run2
    /\ forall anim1 anim2,
         snd run1 = Ok anim1 -> snd run2 = Ok anim2 ->
         FuncAnimation.frames anim1 = FuncAnimation.frames anim2
         /\ forall i, draw_frame anim1 i = draw_frame anim2 i.
Proof.
  intros h1 h2 canvas title mark designer animator n_processes x y best_pos kwargs w H
         run1 run2.
  assert (E : run1 = run2); [|split; [exact E|]; rewrite E; intros a1 a2 H1 H2;
                             assert (a1 = a2) by congruence; subst; auto].
  unfold run1, run2. clear run1 run2.
  pose proof (take_columns_agree _ _ _ H) as Htake.
  assert (Hlen : length (nd3_iters h1) = length (nd3_iters h2))
    by (destruct H as [_ [_ HF]]; exact (Forall2_length HF)).
  unfold plot_contour, len. rewrite Htake, Hlen.
  destruct (getitem3_agree _ _ _ H) as [[rows1 [rows2 [-> ->]]] | [-> ->]];
    reflexivity.
Qed.

(** ** Runs that fail *)

Lemma log_kept_ret {A : Type} : forall a : A, log_kept (ret a).
Proof. intros a w. exists []. cbn. now rewrite app_nil_r. Qed.

Lemma log_kept_lift {A : Type} : forall r : result A, log_kept (lift r).
Proof. intros r w. exists []. cbn. now rewrite app_nil_r. Qed.

Lemma log_kept_bind {A B : Type} : forall (m : M A) (k : A -> M B),
  log_kept m -> (forall a, log_kept (k a)) -> log_kept (bind m k).
Proof.
  intros m k Hm Hk w. unfold bind. destruct (Hm w) as [m1 E1].
  destruct (m w) as [w1 [a|e]]; cbn [fst] in *.
  - destruct (Hk a w1) as [m2 E2]. exists (m1 ++ m2). rewrite E2, E1.
    now rewrite app_assoc.
  - exists m1. exact E1.
Qed.

Lemma log_kept_warn : forall msg : string, log_kept (warn msg).
Proof. intros msg w. exists [msg]. reflexivity. Qed.

Lemma log_kept_when : forall (b : bool) (m : M unit), log_kept m -> log_kept (when b m).
Proof. intros b m H. destruct b; [exact H | apply log_kept_ret]. Qed.

Lemma log_kept_PyLong : forall v : Z, log_kept (PyLong_FromSsize_t v).
Proof.
  intros v w. exists []. unfold PyLong_FromSsize_t.
  destruct (small_int v); cbn; now rewrite app_nil_r.
Qed.

Lemma log_kept_len {A : Type} : forall l : list A, log_kept (len l).
Proof. intros l. apply log_kept_PyLong. Qed.

Lemma log_kept_update_axes : forall (ax : nat) (f : Axes -> Axes),
  log_kept (update_axes ax f).
Proof. intros ax f w. exists []. cbn. now rewrite app_nil_r. Qed.

Lemma log_kept_except_TypeError {A : Type} : forall body : M A,
  log_kept body -> log_kept (except_TypeError body).
Proof.
  intros body H w. unfold except_TypeError. destruct (H w) as [msgs E].
  destruct (body w) as [w1 [a|e]]; cbn [fst] in *; [eauto|].
  destruct e; cbn [fst w_log]; eauto.
  exists (msgs ++ ["Please check your input type"%string]). rewrite E.
  now rewrite app_assoc.
Qed.

Create HintDb logkept.

#[local] Hint Resolve log_kept_ret log_kept_lift log_kept_warn log_kept_when
  log_kept_PyLong log_kept_len log_kept_update_axes : logkept.

(** The log of a computation made of the primitives only grows. *)
Ltac solve_log_kept :=
  repeat first
    [ solve [auto with logkept]
    | match goal with
      | |- log_kept (let '(_, _) := ?p in _) => destruct p
      | |- log_kept (if ?b then _ else _) => destruct b
      end
    | apply log_kept_bind; [|intros ?] ].

Lemma log_kept_contour_customize :
  forall (ax : nat) (title : string) (designer : Designer.t) (x y : pyint),
    log_kept (plot_contour_customize ax title designer x y).
Proof.
  intros. unfold plot_contour_customize, ax_set_title, ax_set_xlabel, ax_set_ylabel,
    ax_set_xlim, ax_set_ylim.
  solve_log_kept.
Qed.

Lemma log_kept_contour_mesh :
  forall (ax : nat) (mesher : option Mesher.t) (n_dim : pyint) (n_processes : option Z)
         (x y : pyint) (best_pos : option vector),
    log_kept (plot_contour_mesh ax mesher n_dim n_processes x y best_pos).
Proof.
  intros. unfold plot_contour_mesh, ax_contour.
  destruct mesher; solve_log_kept.
Qed.

Lemma log_kept_contour_mark :
  forall (ax : nat) (mark : option (list Q)) (n_dim x y : pyint),
    log_kept (plot_contour_mark ax mark n_dim x y).
Proof.
  intros. unfold plot_contour_mark, ax_scatter_point.
  destruct mark; solve_log_kept.
Qed.

Lemma log_kept_scatter_empty :
  forall (ax : nat) (is3d : bool) (c : string) (alpha : Q) (kwargs : list (string * string)),
    log_kept (ax_scatter_empty ax is3d c alpha kwargs).
Proof.
  intros. unfold ax_scatter_empty. cbv zeta. solve_log_kept.
Qed.

Lemma raises_lift {A B : Type} : forall (e : exn) (k : A -> M B),
  raises (bind (lift (Raise e)) k).
Proof. intros e k w. exists e. reflexivity. Qed.

Lemma raises_bind {A B : Type} : forall (m : M A) (k : A -> M B),
  (forall a, raises (k a)) -> raises (bind m k).
Proof.
  intros m k H w. unfold bind. destruct (m w) as [w1 [a|e]].
  - apply H.
  - exists e. reflexivity.
Qed.

Lemma raises_except_TypeError {A : Type} : forall (body : M A) (w : World),
  (exists e, snd (body w) = Raise e) ->
  exists e, snd (except_TypeError body w) = Raise e.
Proof.
  intros body w [e H]. unfold except_TypeError.
  destruct (body w) as [w1 [a|e']]; cbn [snd] in *; [discriminate|].
  destruct e'; eauto.
Qed.

Lemma in_log_except_TypeError {A : Type} : forall (body : M A) (w : World) (msg : string),
  In msg (w_log (fst (body w))) -> In msg (w_log (fst (except_TypeError body w))).
Proof.
  intros body w msg H. unfold except_TypeError.
  destruct (body w) as [w1 [a|e]]; cbn [fst] in *; [exact H|].
  destruct e; cbn [fst w_log]; try exact H.
  apply in_or_app. now left.
Qed.

#[local] Hint Resolve log_kept_contour_customize log_kept_contour_mesh
  log_kept_contour_mark log_kept_scatter_empty : logkept.

(** *** Which exception a run raises *)

Lemma py_getitem_fails {A : Type} : forall (l : list A) (i : Z) (e : exn),
  py_getitem l i = Raise e -> e = IndexError.
Proof.
  intros l i e H. unfold py_getitem, norm_index in H.
  destruct ((0 <=? (if i <? 0 then i + Z.of_nat (length l) else i))
            && ((if i <? 0 then i + Z.of_nat (length l) else i) <? Z.of_nat (length l)));
    cbn [rbind] in H; [|congruence].
  destruct (nth_error l _); congruence.
Qed.

Lemma fails_with_ret {A : Type} : forall (P : exn -> Prop) (a : A), fails_with P (ret a).
Proof. intros P a w e H. discriminate H. Qed.

Lemma fails_with_warn : forall (P : exn -> Prop) (msg : string), fails_with P (warn msg).
Proof. intros P msg w e H. discriminate H. Qed.

Lemma fails_with_when : forall (P : exn -> Prop) (b : bool) (m : M unit),
  fails_with P m -> fails_with P (when b m).
Proof. intros P b m H. destruct b; [exact H | apply fails_with_ret]. Qed.

Lemma fails_with_PyLong : forall (P : exn -> Prop) (v : Z),
  fails_with P (PyLong_FromSsize_t v).
Proof.
  intros P v w e H. unfold PyLong_FromSsize_t in H.
  destruct (small_int v); discriminate H.
Qed.

Lemma fails_with_len {A : Type} : forall (P : exn -> Prop) (l : list A),
  fails_with P (len l).
Proof. intros P l. apply fails_with_PyLong. Qed.

Lemma fails_with_update_axes : forall (P : exn -> Prop) (ax : nat) (f : Axes -> Axes),
  fails_with P (update_axes ax f).
Proof. intros P ax f w e H. discriminate H. Qed.

Lemma fails_with_plt_subplots : forall (P : exn -> Prop) (figsize : Q * Q),
  fails_with P (plt_subplots figsize).
Proof. intros P figsize w e H. discriminate H. Qed.

Lemma fails_with_py_getitem {A : Type} : forall (l : list A) (i : Z),
  fails_with (fun e => e = IndexError) (lift (py_getitem l i)).
Proof. intros l i w e H. cbn in H. now apply py_getitem_fails in H. Qed.

Lemma fails_with_getitem3 : forall (a : ndarray3) (i : Z),
  fails_with (fun e => e = IndexError) (lift (getitem3 a i)).
Proof.
  intros a i w e H. cbn in H. unfold getitem3 in H.
  destruct (py_getitem (nd3_iters a) i) as [rows|e'] eqn:E; [discriminate|].
  cbn in H. injection H as <-. now apply py_getitem_fails in E.
Qed.

Lemma fails_with_bind {A B : Type} :
  forall (P : exn -> Prop) (m : M A) (k : A -> M B),
    fails_with P m -> (forall a, fails_with P (k a)) -> fails_with P (bind m k).
Proof.
  intros P m k Hm Hk w e H. unfold bind in H. specialize (Hm w).
  destruct (m w) as [w1 [a|e']]; [exact (Hk a w1 e H)|].
  cbn in H. injection H as <-. now apply Hm.
Qed.

Create HintDb fails.

#[local] Hint Resolve fails_with_ret fails_with_warn fails_with_when fails_with_PyLong
  fails_with_len fails_with_update_axes fails_with_plt_subplots fails_with_py_getitem
  fails_with_getitem3 : fails.

Ltac solve_fails :=
  repeat first
    [ solve [auto with fails]
    | match goal with
      | |- fails_with _ (let '(_, _) := ?p in _) => destruct p
      | |- fails_with _ (if ?b then _ else _) => destruct b
      | |- fails_with _ (match ?o with Some _ => _ | None => _ end) => destruct o
      end
    | apply fails_with_bind; [|intros ?] ].

Lemma fails_with_contour_input_checks :
  forall (P : exn -> Prop) (designer : Designer.t) (n_dim x y : pyint),
    fails_with P (plot_contour_input_checks designer n_dim x y).
Proof. intros. unfold plot_contour_input_checks. solve_fails. Qed.

Lemma fails_with_contour_customize :
  forall (ax : nat) (title : string) (designer : Designer.t) (x y : pyint),
    fails_with (fun e => e = IndexError) (plot_contour_customize ax title designer x y).
Proof.
  intros. unfold plot_contour_customize, ax_set_title, ax_set_xlabel, ax_set_ylabel,
    ax_set_xlim, ax_set_ylim.
  solve_fails.
Qed.

Lemma fails_with_contour_mark :
  forall (ax : nat) (mark : option (list Q)) (n_dim x y : pyint),
    fails_with (fun e => e = IndexError) (plot_contour_mark ax mark n_dim x y).
Proof. intros. unfold plot_contour_mark, ax_scatter_point. solve_fails. Qed.

Lemma fails_with_scatter_empty :
  forall (P : exn -> Prop) (ax : nat) (is3d : bool) (c : string) (alpha : Q)
         (kwargs : list (string * string)),
    fails_with P (ax_scatter_empty ax is3d c alpha kwargs).
Proof. intros. unfold ax_scatter_empty. cbv zeta. solve_fails. Qed.

#[local] Hint Resolve fails_with_contour_input_checks fails_with_contour_customize
  fails_with_contour_mark fails_with_scatter_empty : fails.

Lemma raises_with_lift {A B : Type} : forall (P : exn -> Prop) (e : exn) (k : A -> M B),
  P e -> raises_with P (bind (lift (Raise e)) k).
Proof. intros P e k H w. exists e. split; [reflexivity | exact H]. Qed.

Lemma raises_with_bind {A B : Type} :
  forall (P : exn -> Prop) (m : M A) (k : A -> M B),
    fails_with P m -> (forall a, raises_with P (k a)) -> raises_with P (bind m k).
Proof.
  intros P m k Hm Hk w. unfold bind. specialize (Hm w).
  destruct (m w) as [w1 [a|e]]; [apply Hk|].
  exists e. split; [reflexivity | now apply Hm].
Qed.

Lemma raises_with_except_TypeError {A : Type} :
  forall (P : exn -> Prop) (body : M A) (w : World),
    (exists e, snd (body w) = Raise e /\ P e) ->
    exists e, snd (except_TypeError body w) = Raise e /\ P e.
Proof.
  intros P body w [e [H HP]]. unfold except_TypeError.
  destruct (body w) as [w1 [a|e']]; cbn [snd] in *; [discriminate|].
  injection H as ->. exists e. split; [destruct e; reflexivity | exact HP].
Qed.

Ltac solve_raises :=
  repeat first
    [ apply raises_lift
    | apply raises_bind; intros ?;
      try match goal with
          | |- raises (let '(_, _) := ?p in _) => destruct p
          end ].

Ltac solve_raises_with :=
  repeat first
    [ apply raises_with_lift; reflexivity
    | apply raises_with_bind;
      [ solve_fails
      | intros ?;
        try match goal with
            | |- raises_with _ (let '(_, _) := ?p in _) => destruct p
            end ] ].

End PlotRuns.

(** ** Identity comparison of lengths *)

(** Within the range of the shared small integers, [is not] on two lengths
    is the inequality of their values. *)
Lemma py_is_not_small : forall (v v' : Z) (w w' : World),
  small_int v = true -> small_int v' = true ->
  py_is_not (int_for v w) (int_for v' w') = negb (v =? v').
Proof.
  intros v v' w w' Hv Hv'. unfold py_is_not, py_is, int_for.
  now rewrite Hv, Hv'.
Qed.

(** Two equal lengths outside that range are two objects. *)
Lemma py_is_not_large : forall (v : Z) (w w' : World),
  small_int v = false -> (w_ints w < w_ints w')%nat ->
  py_is_not (int_for v w') (int_for v w) = true.
Proof.
  intros v w w' Hv Hlt. unfold py_is_not, py_is, int_for. rewrite Hv. cbn.
  apply negb_true_iff, Nat.eqb_neq. lia.
Qed.

(** C3, the failing input. A history of 257 dimensions plotted with a
    designer of 257 limits and 257 labels: the lengths equal the number of
    dimensions and [plot_contour] warns about both all the same. *)
Theorem contour_warns_on_equal_lengths :
  let run := plot_contour example_designer example_animator wide_history None
               "Trajectory" None (Some wide_designer) None None None
               (int_literal 0) (int_literal 1) None [] empty_world in
  length (Designer.limits wide_designer) = nd3_dims wide_history
  /\ length (Designer.label wide_designer) = nd3_dims wide_history
  /\ w_log (fst run)
     = ["Limits in designer has incorrect dimensions.";
        "Labels in designer has incorrect dimensions."]%string
  /\ exists anim, snd run = Ok anim.
Proof.
  cbv zeta. split; [reflexivity|]. split; [reflexivity|].
  split; [vm_compute; reflexivity|].
  eexists. vm_compute. reflexivity.
Qed.



(** ** The theorems at concrete inputs *)

Lemma sum_squares_row_wise : row_wise sum_squares.
Proof. exists sum_squares_row. intros a. reflexivity. Defined.

Lemma sum_squares_one_value : one_value_per_row sum_squares.
Proof. intros a. apply length_map. Defined.

(** C1 at a concrete input. *)
Lemma mesh_parallel_eq_sequential_witness :
  row_wise (Mesher.func example_mesher)
  /\ 0 < 3
  /\ _mesh example_mesher (Some 3) 0 1 None = _mesh example_mesher None 0 1 None.
Proof.
  split; [exact sum_squares_row_wise|]. split; [lia|].
  apply (mesh_parallel_eq_sequential example_mesher 3 0 1 None);
    [exact sum_squares_row_wise | lia].
Defined.


(** C10 at a concrete input. *)
Lemma mesh_shapes_witness :
  exists xx yy zz,
    _mesh example_mesher None 1 0 (Some (Floats [5; 6; 7]%Q)) = Ok (xx, yy, zz)
    /\ g_shape xx = (length example_axis, length example_axis)
    /\ g_shape yy = (length example_axis, length example_axis)
    /\ g_shape zz = (length example_axis, length example_axis)
    /\ length (g_data xx) = (length example_axis * length example_axis)%nat
    /\ length (g_data yy) = (length example_axis * length example_axis)%nat
    /\ length (g_data zz) = (length example_axis * length example_axis)%nat.
Proof.
  apply (mesh_shapes example_mesher None 1 0 (Some (Floats [5; 6; 7]%Q)) (0, 1)%Q (0, 1)%Q
           example_axis example_axis).
  - reflexivity.
  - reflexivity.
  - reflexivity.
  - reflexivity.
  - exact sum_squares_one_value.
  - exact I.
  - right. unfold columns_of_tile, tile_width. simpl. lia.
Defined.

(** C8 at a concrete input. *)
Lemma mesh_multi_dimension_defined_witness :
  (exists r, _mesh example_mesher None 1 0 (Some (Floats [5; 6; 7]%Q)) = Ok r)
  /\ _mesh example_mesher None 1 0 None = Raise IndexError.
Proof.
  split.
  - destruct (mesh_multi_dimension_defined example_mesher None 1 0 (Some (Floats [5; 6; 7]%Q))
                (0, 1)%Q (0, 1)%Q example_axis example_axis) as [Hdef _].
    + reflexivity.
    + reflexivity.
    + reflexivity.
    + reflexivity.
    + exact sum_squares_one_value.
    + exact I.
    + intros [H _]. discriminate H.
    + destruct Hdef as [kx [ky [zz [_ [_ [E _]]]]]].
      * unfold columns_of_tile, tile_width. simpl. lia.
      * eexists. exact E.
  - apply (mesh_multi_dimension_defined example_mesher None 1 0 None
             (0, 1)%Q (0, 1)%Q example_axis example_axis).
    + reflexivity.
    + reflexivity.
    + reflexivity.
    + reflexivity.
    + exact sum_squares_one_value.
    + exact I.
    + intros [H _]. discriminate H.
    + unfold columns_of_tile, tile_width. simpl. lia.
Defined.

Lemma flat_history_not_empty : nd3_iters flat_history <> [].
Proof. intros H. discriminate H. Defined.

Lemma deep_history_not_empty : nd3_iters deep_history <> [].
Proof. intros H. discriminate H. Defined.



(** C6 at a concrete input. *)
Lemma plot_cost_history_line_witness :
  returns (plot_cost_history example_designer [3; 2; 1]%Q None "Cost History" None)
    empty_world
    (fun r w1 =>
       r = 0%nat
       /\ exists a1,
            nth_error (w_axes w1) r = Some a1
            /\ ax_artists a1 = [cost_line [3; 2; 1]%Q "Cost"]
            /\ line_points (cost_line [3; 2; 1]%Q "Cost") = [(0, 3%Q); (1, 2%Q); (2, 1%Q)]
            /\ ax_xlabel a1 = Some ("Iterations", "medium")%string
            /\ ax_ylabel a1 = Some ("Cost", "medium")%string).
Proof.
  eapply returns_weaken.
  - apply (plot_cost_history_line example_designer [3; 2; 1]%Q None "Cost History" None
             empty_world "Iterations" "Cost").
    + exact I.
    + reflexivity.
    + reflexivity.
  - cbv beta. intros r w1 [-> [a0 [a1 [-> [Ha1 [Hart [_ [_ [_ [Hxl Hyl]]]]]]]]]].
    split; [reflexivity|]. exists a1.
    split; [exact Ha1|]. split; [exact Hart|]. split; [reflexivity|].
    split; [exact Hxl | exact Hyl].
Defined.

(** C7 at a concrete input: with a mesher whose mesh is a single point the
    calls do not return, and the axes carry the labels and limits all the
    same. *)
Lemma axes_follow_indices_witness :
  (let w1 := fst (plot_contour example_designer example_animator deep_history None
                    "Trajectory" None (Some example_designer) (Some point_mesher) None
                    None (int_literal 1) (int_literal 0) (Some (Floats [5; 6]%Q)) []
                    empty_world) in
   exists a1,
     nth_error (w_axes w1) 0 = Some a1
     /\ ax_xlabel a1 = Some ("y-axis", "medium")%string
     /\ ax_xlim a1 = Some (-1, 1)%Q
     /\ ax_ylabel a1 = Some ("x-axis", "medium")%string
     /\ ax_ylim a1 = Some (-1, 1)%Q)
  /\ (let w1 := fst (plot_surface example_designer example_animator deep_history None
                       "Trajectory" None (Some point_mesher) None None None
                       (int_literal 1) (int_literal 0) (Some (Floats [5; 6]%Q)) []
                       empty_world) in
      exists a1,
        nth_error (w_axes w1) 1 = Some a1
        /\ ax_xlabel a1 = Some ("y-axis", "medium")%string
        /\ ax_xlim a1 = Some (-1, 1)%Q
        /\ ax_ylabel a1 = Some ("x-axis", "medium")%string
        /\ ax_ylim a1 = Some (-1, 1)%Q
        /\ ax_zlabel a1 = Some ("z-axis", "medium")%string
        /\ ax_zlim a1 = Some (-1, 1)%Q).
Proof.
  split.
  - apply (proj1 (axes_follow_indices example_designer example_animator)
             deep_history None "Trajectory"%string None (Some example_designer)
             (Some point_mesher) None None (int_literal 1) (int_literal 0)
             (Some (Floats [5; 6]%Q)) [] empty_world
             "y-axis"%string "x-axis"%string (-1, 1)%Q (-1, 1)%Q).
    + exact deep_history_not_empty.
    + exact I.
    + simpl. lia.
    + simpl. lia.
    + reflexivity.
    + reflexivity.
    + reflexivity.
    + reflexivity.
  - apply (proj2 (axes_follow_indices example_designer example_animator)
             deep_history None "Trajectory"%string None (Some point_mesher) None None
             None (int_literal 1) (int_literal 0) (Some (Floats [5; 6]%Q)) []
             empty_world "y-axis"%string "x-axis"%string "z-axis"%string
             (-1, 1)%Q (-1, 1)%Q (-1, 1)%Q).
    + exact deep_history_not_empty.
    + exact I.
    + simpl. lia.
    + simpl. lia.
    + reflexivity.
    + reflexivity.
    + reflexivity.
    + reflexivity.
    + reflexivity.
    + reflexivity.
Defined.

Lemma deep_histories_agree :
  histories_agree [int_val (int_literal 0); int_val (int_literal 1)]
    deep_history other_deep_history.
Proof.
  split; [reflexivity|]. split; [reflexivity|].
  repeat constructor;
    intros i k [<- | [<- | []]] H; vm_compute in H; injection H as <-; reflexivity.
Defined.

(** C9 at a concrete input. *)
Lemma plot_contour_noninterference_witness :
  let run1 := plot_contour example_designer example_animator deep_history None
                "Trajectory" None (Some example_designer) None None None
                (int_literal 0) (int_literal 1) None [] empty_world in
  let run2 := plot_contour example_designer example_animator other_deep_history None
                "Trajectory" None (Some example_designer) None None None
                (int_literal 0) (int_literal 1) None [] empty_world in
  deep_history <> other_deep_history
  /\ run1 = run2
  /\ forall anim1 anim2,
       snd run1 = Ok anim1 -> snd run2 = Ok anim2 ->
       FuncAnimation.frames anim1 = FuncAnimation.frames anim2
       /\ forall i, draw_frame anim1 i = draw_frame anim2 i.
Proof.
  cbv zeta. split; [intros H; discriminate H|].
  apply (plot_contour_noninterference example_designer example_animator
           deep_history other_deep_history None "Trajectory" None (Some example_designer)
           None None (int_literal 0) (int_literal 1) None [] empty_world).
  exact deep_histories_agree.
Defined.

(** * Further properties *)

(** ** Errors of _mesh *)

Lemma rbind_Ok_inv {A B : Type} : forall (r : result A) (k : A -> result B) (b : B),
  rbind r k = Ok b -> exists a, r = Ok a /\ k a = Ok b.
Proof.
  intros r k b H. destruct r as [a|e]; [eauto | discriminate].
Qed.

(** X1. An index that is not an index of [mesher.limits], counted from
    either end, makes [_mesh] raise [IndexError], whatever the other
    arguments are. *)
Theorem mesh_limits_index_error :
  forall (mesher : Mesher.t) (n_processes : option Z) (x_index y_index : Z)
         (best_pos : option vector),
    ~ index_of (Z.of_nat (length (Mesher.limits mesher))) x_index
    \/ ~ index_of (Z.of_nat (length (Mesher.limits mesher))) y_index ->
    _mesh mesher n_processes x_index y_index best_pos = Raise IndexError.
Proof.
  intros mesher n_processes x_index y_index best_pos H. unfold _mesh, py_getitem.
  destruct (norm_index_cases (length (Mesher.limits mesher)) x_index)
    as [[Hx [kx [-> Hkx]]] | [_ ->]]; [|reflexivity].
  cbn [rbind].
  destruct (nth_error (Mesher.limits mesher) kx) as [xlim|]; [|reflexivity].
  destruct (norm_index_cases (length (Mesher.limits mesher)) y_index)
    as [[Hy [ky [-> Hky]]] | [_ ->]]; [|reflexivity].
  exfalso. unfold index_of in H. tauto.
Qed.

(** X2. When the grid can be built, a number of processes below one makes
    [_mesh] raise [ValueError]: the pool is refused. *)
Theorem mesh_pool_size_error :
  forall (mesher : Mesher.t) (n : Z) (x_index y_index : Z)
         (best_pos : option vector) (xlim ylim : Q * Q) (xs ys : list Q),
    py_getitem (Mesher.limits mesher) x_index = Ok xlim ->
    py_getitem (Mesher.limits mesher) y_index = Ok ylim ->
    np_arange (fst xlim) (snd xlim) (Mesher.delta mesher) = Ok xs ->
    np_arange (fst ylim) (snd ylim) (Mesher.delta mesher) = Ok ys ->
    default_case x_index y_index best_pos \/ columns_of_tile x_index y_index best_pos ->
    n < 1 ->
    _mesh mesher (Some n) x_index y_index best_pos = Raise ValueError.
Proof.
  intros mesher n x_index y_index best_pos xlim ylim xs ys Hx Hy Hxs Hys Hfit Hn.
  rewrite (mesh_unfold _ _ _ _ _ _ _ _ _ Hx Hy Hxs Hys).
  destruct (mesh_points_ok x_index y_index best_pos xs ys Hfit) as [a [-> _]].
  cbn [rbind]. unfold mp_Pool.
  destruct (n <? 1) eqn:E; [reflexivity | apply Z.ltb_ge in E; lia].
Qed.

(** X3. Without a pool, an objective function that does not return one
    value per grid point makes [_mesh] raise [ValueError] when the values
    are reshaped. *)
Theorem mesh_wrong_value_count :
  forall (mesher : Mesher.t) (x_index y_index : Z)
         (best_pos : option vector) (xlim ylim : Q * Q) (xs ys : list Q),
    py_getitem (Mesher.limits mesher) x_index = Ok xlim ->
    py_getitem (Mesher.limits mesher) y_index = Ok ylim ->
    np_arange (fst xlim) (snd xlim) (Mesher.delta mesher) = Ok xs ->
    np_arange (fst ylim) (snd ylim) (Mesher.delta mesher) = Ok ys ->
    default_case x_index y_index best_pos \/ columns_of_tile x_index y_index best_pos ->
    (forall a, length (nd_rows a) = (length ys * length xs)%nat ->
               length (Mesher.func mesher a) <> (length ys * length xs)%nat) ->
    _mesh mesher None x_index y_index best_pos = Raise ValueError.
Proof.
  intros mesher x_index y_index best_pos xlim ylim xs ys Hx Hy Hxs Hys Hfit Hf.
  rewrite (mesh_unfold _ _ _ _ _ _ _ _ _ Hx Hy Hxs Hys).
  destruct (mesh_points_ok x_index y_index best_pos xs ys Hfit) as [a [-> Hlen]].
  cbn [rbind]. unfold reshape. cbn [fst snd].
  destruct (length (Mesher.func mesher a) =? length ys * length xs)%nat eqn:E;
    [|reflexivity].
  apply Nat.eqb_eq in E. exfalso. exact (Hf a Hlen E).
Qed.

(** X4. Whatever the arguments, a result of [_mesh] is three arrays of one
    shape, each with a buffer of that size. *)
Theorem mesh_result_invariant :
  forall (mesher : Mesher.t) (n_processes : option Z) (x_index y_index : Z)
         (best_pos : option vector) (xx yy zz : grid),
    _mesh mesher n_processes x_index y_index best_pos = Ok (xx, yy, zz) ->
    g_shape yy = g_shape xx
    /\ g_shape zz = g_shape xx
    /\ length (g_data xx) = (fst (g_shape xx) * snd (g_shape xx))%nat
    /\ length (g_data yy) = (fst (g_shape xx) * snd (g_shape xx))%nat
    /\ length (g_data zz) = (fst (g_shape xx) * snd (g_shape xx))%nat.
Proof.
  intros mesher n_processes x_index y_index best_pos xx yy zz H. unfold _mesh in H.
  apply rbind_Ok_inv in H. destruct H as [xlim [_ H]].
  apply rbind_Ok_inv in H. destruct H as [ylim [_ H]].
  apply rbind_Ok_inv in H. destruct H as [xs [_ H]].
  apply rbind_Ok_inv in H. destruct H as [ys [_ H]].
  cbv zeta in H.
  apply rbind_Ok_inv in H. destruct H as [pts0 [_ H]].
  apply rbind_Ok_inv in H. destruct H as [pts [_ H]].
  apply rbind_Ok_inv in H. destruct H as [pool [_ H]].
  apply rbind_Ok_inv in H. destruct H as [z [_ H]].
  apply rbind_Ok_inv in H. destruct H as [zz' [Hr H]].
  injection H as <- <- <-.
  unfold reshape in Hr.
  destruct (length z =? fst (g_shape (fst (np_meshgrid xs ys)))
                        * snd (g_shape (fst (np_meshgrid xs ys))))%nat eqn:E;
    [|discriminate].
  injection Hr as <-. apply Nat.eqb_eq in E.
  destruct (length_meshgrid xs ys) as [Lx Ly]. unfold ravel in Lx, Ly.
  cbn [np_meshgrid fst snd g_shape g_data] in *.
  repeat split; assumption.
Qed.

Lemma norm_index_wrap : forall (n : nat) (i : Z),
  - Z.of_nat n <= i < 0 -> norm_index n i = norm_index n (i + Z.of_nat n).
Proof.
  intros n i H. unfold norm_index.
  destruct (i <? 0) eqn:E; [|apply Z.ltb_ge in E; lia].
  destruct (i + Z.of_nat n <? 0) eqn:E'; [apply Z.ltb_lt in E'; lia | reflexivity].
Qed.

(** X5. With a [best_pos] as long as [mesher.limits], indices counted from
    the end give the mesh of the same indices counted from the start. *)
Theorem mesh_negative_indices :
  forall (mesher : Mesher.t) (n_processes : option Z) (x_index y_index : Z)
         (v : vector),
    let n := Z.of_nat (length (Mesher.limits mesher)) in
    vector_len v = length (Mesher.limits mesher) ->
    - n <= x_index < 0 ->
    - n <= y_index < 0 ->
    _mesh mesher n_processes x_index y_index (Some v)
    = _mesh mesher n_processes (x_index + n) (y_index + n) (Some v).
Proof.
  intros mesher n_processes x_index y_index v n Hv Hx Hy.
  assert (Ex : py_getitem (Mesher.limits mesher) x_index
               = py_getitem (Mesher.limits mesher) (x_index + n))
    by (unfold py_getitem; now rewrite norm_index_wrap).
  assert (Ey : py_getitem (Mesher.limits mesher) y_index
               = py_getitem (Mesher.limits mesher) (y_index + n))
    by (unfold py_getitem; now rewrite norm_index_wrap).
  destruct (py_getitem (Mesher.limits mesher) x_index) as [xlim|e] eqn:Gx;
    [|unfold _mesh; rewrite Gx, <- Ex; reflexivity].
  destruct (py_getitem (Mesher.limits mesher) y_index) as [ylim|e] eqn:Gy;
    [|unfold _mesh; rewrite Gx, <- Ex, Gy, <- Ey; reflexivity].
  destruct (np_arange (fst xlim) (snd xlim) (Mesher.delta mesher)) as [xs|e] eqn:Ax;
    [|unfold _mesh; rewrite Gx, <- Ex, Gy, <- Ey; cbn [rbind]; rewrite Ax; reflexivity].
  destruct (np_arange (fst ylim) (snd ylim) (Mesher.delta mesher)) as [ys|e] eqn:Ay;
    [|unfold _mesh; rewrite Gx, <- Ex, Gy, <- Ey; cbn [rbind]; rewrite Ax; cbn [rbind];
      rewrite Ay; reflexivity].
  rewrite (mesh_unfold _ _ _ _ _ _ _ _ _ Gx Gy Ax Ay).
  rewrite (mesh_unfold _ _ _ _ _ _ _ _ _ (eq_sym Ex) (eq_sym Ey) Ax Ay).
  unfold mesh_points, multi_dimension. cbn [is_not_None].
  assert (Hw : length (tile_row (Some v)) = vector_len v)
    by (destruct v; apply length_map).
  rewrite !orb_true_r, Hw, Hv.
  now rewrite (norm_index_wrap _ x_index), (norm_index_wrap _ y_index).
Qed.

(** ** Frames *)

(** X6. Drawing a frame replaces what the frame before it drew: the plot
    after frame [j] is the same whichever frame was drawn first. *)
Theorem animate_forgets_previous_frame :
  forall (i j : nat) (data : ndarray3) (plot plot1 : PathCollection),
    _animate i data plot = Ok plot1 ->
    _animate j data plot1 = _animate j data plot.
Proof.
  intros i j data plot plot1 H. unfold _animate, getitem3 in *.
  destruct (py_getitem (nd3_iters data) (Z.of_nat i)) as [rows_i|e]; [|discriminate].
  destruct (py_getitem (nd3_iters data) (Z.of_nat j)) as [rows_j|e]; [|reflexivity].
  cbn [rbind nd_cols] in *.
  destruct (nd3_dims data =? 2)%nat; injection H as <-; reflexivity.
Qed.

(** X7. A frame index that is not below the number of iterations makes
    [_animate] raise [IndexError]. *)
Theorem animate_out_of_range :
  forall (i : nat) (data : ndarray3) (plot : PathCollection),
    (length (nd3_iters data) <= i)%nat ->
    _animate i data plot = Raise IndexError.
Proof.
  intros i data plot H. unfold _animate, getitem3.
  rewrite py_getitem_raises by lia. reflexivity.
Qed.

(** ** Computations that leave the log alone *)

Lemma quiet_ret {A : Type} : forall a : A, quiet (ret a).
Proof. intros a w. split; [reflexivity | discriminate]. Qed.

Lemma quiet_bind {A B : Type} : forall (m : M A) (k : A -> M B),
  quiet m -> (forall a, quiet (k a)) -> quiet (bind m k).
Proof.
  intros m k Hm Hk w. unfold bind. destruct (Hm w) as [L E].
  destruct (m w) as [w1 [a|e]]; cbn [fst snd] in *.
  - destruct (Hk a w1) as [L' E']. split; [congruence | exact E'].
  - split; [assumption|]. intros H. apply E. injection H as ->. reflexivity.
Qed.

Lemma quiet_lift {A : Type} : forall r : result A,
  r <> Raise TypeError -> quiet (lift r).
Proof. intros r H w. split; [reflexivity | exact H]. Qed.

Lemma quiet_PyLong : forall v : Z, quiet (PyLong_FromSsize_t v).
Proof.
  intros v w. unfold PyLong_FromSsize_t.
  destruct (small_int v); split; cbn; (reflexivity || discriminate).
Qed.

Lemma quiet_len {A : Type} : forall l : list A, quiet (len l).
Proof. intros l. apply quiet_PyLong. Qed.

Lemma quiet_update_axes : forall (ax : nat) (f : Axes -> Axes), quiet (update_axes ax f).
Proof. intros ax f w. split; [reflexivity | discriminate]. Qed.

Lemma py_getitem_not_TypeError {A : Type} : forall (l : list A) (i : Z),
  py_getitem l i <> Raise TypeError.
Proof.
  intros l i. unfold py_getitem.
  destruct (norm_index_cases (length l) i) as [[_ [k [-> _]]] | [_ ->]];
    cbn [rbind]; [destruct (nth_error l k)|]; discriminate.
Qed.

Lemma take_columns_not_TypeError : forall (pos_history : ndarray3) (idxs : list Z),
  take_columns pos_history idxs <> Raise TypeError.
Proof.
  intros pos_history idxs. unfold take_columns.
  assert (H : map_result (norm_index (nd3_dims pos_history)) idxs <> Raise TypeError).
  { induction idxs as [|i idxs IH]; cbn [map_result]; [discriminate|].
    destruct (norm_index_cases (nd3_dims pos_history) i) as [[_ [k [-> _]]] | [_ ->]];
      cbn [rbind]; [|discriminate].
    destruct (map_result (norm_index (nd3_dims pos_history)) idxs) as [ks|e];
      cbn [rbind]; [discriminate | congruence]. }
  destruct (map_result (norm_index (nd3_dims pos_history)) idxs); cbn [rbind];
    [discriminate | congruence].
Qed.

Create HintDb quiet.

#[local] Hint Resolve quiet_ret quiet_PyLong quiet_len quiet_update_axes : quiet.
#[local] Hint Extern 1 (quiet (lift _)) =>
  apply quiet_lift; first [apply py_getitem_not_TypeError
                          | apply take_columns_not_TypeError] : quiet.

Ltac solve_quiet :=
  repeat first
    [ solve [auto with quiet]
    | apply quiet_bind; [|intros ?] ].

Lemma quiet_contour_customize :
  forall (ax : nat) (title : string) (designer : Designer.t) (x y : pyint),
    quiet (plot_contour_customize ax title designer x y).
Proof.
  intros. unfold plot_contour_customize, ax_set_title, ax_set_xlabel, ax_set_ylabel,
    ax_set_xlim, ax_set_ylim.
  solve_quiet.
Qed.

Lemma quiet_scatter_empty :
  forall (ax : nat) (is3d : bool) (c : string) (alpha : Q) (kwargs : list (string * string)),
    quiet (ax_scatter_empty ax is3d c alpha kwargs).
Proof.
  intros. unfold ax_scatter_empty. cbv zeta. solve_quiet.
Qed.

Lemma except_TypeError_other {A : Type} : forall (body : M A) (w : World),
  snd (body w) <> Raise TypeError -> except_TypeError body w = body w.
Proof.
  intros body w H. unfold except_TypeError.
  destruct (body w) as [w1 [a|e]]; [reflexivity|].
  destruct e; try reflexivity. now contradiction H.
Qed.

(** ** Computations that draw on one axes only *)

Lemma touches_only_ret {A : Type} : forall (ax : nat) (a : A), touches_only ax (ret a).
Proof. intros ax a w. cbn. auto. Qed.

Lemma touches_only_lift {A : Type} : forall (ax : nat) (r : result A),
  touches_only ax (lift r).
Proof. intros ax r w. cbn. auto. Qed.

Lemma touches_only_bind {A B : Type} : forall (ax : nat) (m : M A) (k : A -> M B),
  touches_only ax m -> (forall a, touches_only ax (k a)) -> touches_only ax (bind m k).
Proof.
  intros ax m k Hm Hk w. unfold bind. destruct (Hm w) as [F [L O]].
  destruct (m w) as [w1 [a|e]]; cbn [fst] in *.
  - destruct (Hk a w1) as [F' [L' O']]. split; [congruence|]. split; [congruence|].
    intros r Hr. now rewrite O', O.
  - auto.
Qed.

Lemma touches_only_warn : forall (ax : nat) (msg : string), touches_only ax (warn msg).
Proof. intros ax msg w. cbn. auto. Qed.

Lemma touches_only_when : forall (ax : nat) (b : bool) (m : M unit),
  touches_only ax m -> touches_only ax (when b m).
Proof. intros ax b m H. destruct b; [exact H | apply touches_only_ret]. Qed.

Lemma touches_only_PyLong : forall (ax : nat) (v : Z),
  touches_only ax (PyLong_FromSsize_t v).
Proof.
  intros ax v w. unfold PyLong_FromSsize_t. destruct (small_int v); cbn; auto.
Qed.

Lemma touches_only_len {A : Type} : forall (ax : nat) (l : list A),
  touches_only ax (len l).
Proof. intros ax l. apply touches_only_PyLong. Qed.

Lemma touches_only_update_axes : forall (ax : nat) (f : Axes -> Axes),
  touches_only ax (update_axes ax f).
Proof.
  intros ax f w. cbn [fst update_axes w_figs w_axes].
  split; [reflexivity|].
  destruct (nth_error (w_axes w) ax) as [a|]; [|auto].
  split; [apply length_list_set|].
  intros r Hr. apply nth_error_list_set_neq. congruence.
Qed.

Lemma touches_only_has_get_zlim : forall ax ax' : nat, touches_only ax (has_get_zlim ax').
Proof. intros ax ax' w. cbn. auto. Qed.

Lemma touches_only_except_TypeError {A : Type} : forall (ax : nat) (body : M A),
  touches_only ax body -> touches_only ax (except_TypeError body).
Proof.
  intros ax body H w. unfold except_TypeError. specialize (H w).
  destruct (body w) as [w1 [a|e]]; cbn [fst] in *; [exact H|].
  destruct e; exact H.
Qed.

Create HintDb touches.

#[local] Hint Resolve touches_only_ret touches_only_lift touches_only_warn
  touches_only_when touches_only_PyLong touches_only_len touches_only_update_axes
  touches_only_has_get_zlim : touches.

Ltac solve_touches :=
  repeat first
    [ solve [auto with touches]
    | match goal with
      | |- touches_only _ (let '(_, _) := ?p in _) => destruct p
      | |- touches_only _ (if ?b then _ else _) => destruct b
      | |- touches_only _ (match ?o with Some _ => _ | None => _ end) => destruct o
      end
    | apply touches_only_bind; [|intros ?] ].

Lemma touches_only_contour_input_checks :
  forall (ax : nat) (designer : Designer.t) (n_dim x y : pyint),
    touches_only ax (plot_contour_input_checks designer n_dim x y).
Proof. intros. unfold plot_contour_input_checks. solve_touches. Qed.

Lemma touches_only_contour_customize :
  forall (ax : nat) (title : string) (designer : Designer.t) (x y : pyint),
    touches_only ax (plot_contour_customize ax title designer x y).
Proof.
  intros. unfold plot_contour_customize, ax_set_title, ax_set_xlabel, ax_set_ylabel,
    ax_set_xlim, ax_set_ylim.
  solve_touches.
Qed.

Lemma touches_only_contour_mesh :
  forall (ax : nat) (mesher : option Mesher.t) (n_dim : pyint) (n_processes : option Z)
         (x y : pyint) (best_pos : option vector),
    touches_only ax (plot_contour_mesh ax mesher n_dim n_processes x y best_pos).
Proof. intros. unfold plot_contour_mesh, ax_contour. solve_touches. Qed.

Lemma touches_only_contour_mark :
  forall (ax : nat) (mark : option (list Q)) (n_dim x y : pyint),
    touches_only ax (plot_contour_mark ax mark n_dim x y).
Proof. intros. unfold plot_contour_mark, ax_scatter_point. solve_touches. Qed.

Lemma touches_only_scatter_empty :
  forall (ax : nat) (is3d : bool) (c : string) (alpha : Q) (kwargs : list (string * string)),
    touches_only ax (ax_scatter_empty ax is3d c alpha kwargs).
Proof. intros. unfold ax_scatter_empty. cbv zeta. solve_touches. Qed.

Lemma touches_only_surface_input_checks :
  forall (ax : nat) (designer : Designer.t) (n_dim x y : pyint),
    touches_only ax (plot_surface_input_checks designer n_dim x y).
Proof. intros. unfold plot_surface_input_checks. solve_touches. Qed.

Lemma touches_only_surface_customize :
  forall (ax : nat) (title : string) (designer : Designer.t) (n_dim x y : pyint),
    touches_only ax (plot_surface_customize ax title designer n_dim x y).
Proof.
  intros. unfold plot_surface_customize, ax_set_title, ax_set_xlabel, ax_set_ylabel,
    ax_set_zlabel, ax_set_xlim, ax_set_ylim, ax_set_zlim.
  solve_touches.
Qed.

Lemma touches_only_surface_mesh :
  forall (ax : nat) (designer : Designer.t) (mesher : option Mesher.t) (n_dim : pyint)
         (n_processes : option Z) (x y : pyint) (best_pos : option vector),
    touches_only ax (plot_surface_mesh ax designer mesher n_dim n_processes x y best_pos).
Proof. intros. unfold plot_surface_mesh, ax_plot_surface. solve_touches. Qed.

Lemma touches_only_surface_mark :
  forall (ax : nat) (mark : option (list Q)) (n_dim x y : pyint),
    touches_only ax (plot_surface_mark ax mark n_dim x y).
Proof. intros. unfold plot_surface_mark, ax_scatter_point. solve_touches. Qed.

(** ** Edge cases of the plotting functions *)

Section FurtherRuns.

Variable Designer_defaults : Designer.t.
Variable Animator_defaults : Animator.t.

(** X8. On a history without iterations [plot_contour] and [plot_surface]
    raise [IndexError] and log nothing; a call without canvas has by then
    created its figure and an empty 2-D axes. *)
Theorem plots_raise_on_empty_history :
  forall (pos_history : ndarray3) (canvas : option (nat * nat)) (title : string)
         (mark : option (list Q)) (designer : option Designer.t)
         (mesher : option Mesher.t) (animator : option Animator.t)
         (n_processes : option Z) (x y : pyint) (best_pos : option vector)
         (kwargs : list (string * string)) (w : World),
    nd3_iters pos_history = [] ->
    let contour := plot_contour Designer_defaults Animator_defaults pos_history canvas
                     title mark designer mesher animator n_processes x y best_pos kwargs w in
    let surface := plot_surface Designer_defaults Animator_defaults pos_history canvas
                     title designer mesher animator mark n_processes x y best_pos kwargs w in
    let created (d : Designer.t) : World :=
      match canvas with
      | Some _ => w
      | None => mk_World (w_log w) (w_figs w ++ [Designer.figsize d])
                  (w_axes w ++ [new_Axes (length (w_figs w)) false]) (w_ints w)
      end in
    contour = (created (or_default designer (contour_designer Designer_defaults)),
               Raise IndexError)
    /\ surface = (created (or_default designer (surface_designer Designer_defaults)),
                  Raise IndexError).
Proof.
  intros pos_history canvas title mark designer mesher animator n_processes x y best_pos
         kwargs w Hempty contour surface created.
  unfold contour, surface, created, plot_contour, plot_surface, except_TypeError.
  cbv zeta. rewrite (getitem3_empty _ Hempty).
  destruct canvas as [[fig ax]|]; split; reflexivity.
Qed.

(** Run the first step of the computation in the goal, which returns. *)
Ltac run_head :=
  match goal with
  | |- context [bind ?m ?k ?w] => pattern (bind m k w); apply run_bind_returns
  end.

Lemma cost_history_axes_run :
  forall (ax : option nat) (figsize : Q * Q) (w0 w : World),
    ax_live ax w ->
    w_axes w0 = w_axes w -> w_figs w0 = w_figs w -> w_log w0 = w_log w ->
    returns match ax with
            | Some a => ret a
            | None => (' (_, ax0) <- plt_subplots figsize ;; ret ax0)%M
            end w0
      (fun r w1 => r = match ax with Some r0 => r0 | None => length (w_axes w) end
                   /\ w_log w1 = w_log w
                   /\ exists a0,
                        match ax with
                        | Some r0 => nth_error (w_axes w) r0 = Some a0
                        | None => a0 = new_Axes (length (w_figs w)) false
                        end
                        /\ nth_error (w_axes w1) r = Some a0).
Proof.
  intros ax figsize w0 w Hlive Ea Ef El. destruct ax as [r0|].
  - run1. split; [reflexivity|]. split; [exact El|]. cbn in Hlive.
    destruct (nth_error (w_axes w) r0) as [a0|] eqn:E;
      [|apply nth_error_None in E; lia].
    exists a0. split; [reflexivity|]. now rewrite Ea.
  - run1. apply returns_plt_subplots. run1. cbn [w_axes w_log].
    rewrite Ea, Ef. split; [reflexivity|]. split; [exact El|].
    eexists. split; [reflexivity|].
    now rewrite nth_error_app2, Nat.sub_diag by lia.
Qed.

(** X9. With a designer that has fewer than two labels [plot_cost_history]
    raises [IndexError] without logging anything, after it has drawn the
    line and set the title on the axes. *)
Theorem plot_cost_history_short_label :
  forall (cost_history : list Q) (ax : option nat) (title : string)
         (d : Designer.t) (w : World),
    (length (Designer.label d) < 2)%nat ->
    ax_live ax w ->
    let run := plot_cost_history Designer_defaults cost_history ax title (Some d) w in
    let r := match ax with Some r0 => r0 | None => length (w_axes w) end in
    snd run = Raise IndexError
    /\ w_log (fst run) = w_log w
    /\ exists a0 a1,
         match ax with
         | Some r0 => nth_error (w_axes w) r0 = Some a0
         | None => a0 = new_Axes (length (w_figs w)) false
         end
         /\ nth_error (w_axes (fst run)) r = Some a1
         /\ ax_artists a1 = ax_artists a0 ++ [cost_line cost_history (Designer.legend d)]
         /\ ax_title a1 = Some (title, Designer.title_fontsize d).
Proof.
  intros cost_history ax title d w Hshort Hlive run r.
  set (P := fun out : World * result nat =>
              snd out = Raise IndexError
              /\ w_log (fst out) = w_log w
              /\ exists a0 a1,
                   match ax with
                   | Some r0 => nth_error (w_axes w) r0 = Some a0
                   | None => a0 = new_Axes (length (w_figs w)) false
                   end
                   /\ nth_error (w_axes (fst out)) r = Some a1
                   /\ ax_artists a1
                      = ax_artists a0 ++ [cost_line cost_history (Designer.legend d)]
                   /\ ax_title a1 = Some (title, Designer.title_fontsize d)).
  change (P run). unfold run, plot_cost_history. cbv zeta. cbn [or_default].
  match goal with |- P (except_TypeError ?body w) =>
    assert (HP : P (body w)); [|rewrite except_TypeError_other;
                                [exact HP | destruct HP as [-> _]; discriminate]] end.
  run_head. run1. cbv beta.
  run_head.
  eapply returns_weaken;
    [apply (cost_history_axes_run ax (Designer.figsize d) _ w Hlive);
     first [apply w_axes_alloc_for | apply w_log_alloc_for
           | unfold alloc_for; destruct (small_int _); reflexivity]|].
  intros r' w0 [-> [L0 [a0 [Ha0 Hw0]]]]. cbv beta. fold r in Hw0 |- *.
  unfold ax_plot, ax_set_title, ax_legend_, ax_set_xlabel.
  run_head. run1. cbv beta. run_head. run1. cbv beta. run_head. run1. cbv beta.
  unfold np_arange_int. rewrite int_val_int_for, Nat2Z.id.
  destruct d as [fs tf xf lg lb lm cm]. cbn [Designer.label Designer.legend
    Designer.title_fontsize Designer.text_fontsize] in *.
  destruct lb as [|l0 [|l1 lb]]; [| |cbn in Hshort; lia].
  - unfold P. cbn [bind lift py_getitem norm_index rbind fst snd w_log modify_axes].
    split; [reflexivity|]. split; [exact L0|]. exists a0. eexists.
    split; [exact Ha0|]. split; [repeat apply nth_error_modify_axes; exact Hw0|].
    split; reflexivity.
  - run_head. eapply returns_lift; [reflexivity|]. cbv beta.
    run_head. run1. cbv beta.
    unfold P. cbn [bind lift fst snd w_log modify_axes].
    split; [reflexivity|]. split; [exact L0|]. exists a0. eexists.
    split; [exact Ha0|]. split; [repeat apply nth_error_modify_axes; exact Hw0|].
    split; reflexivity.
Qed.

Lemma w_log_log_if : forall (b : bool) (msg : string) (w : World),
  w_log (log_if b msg w) = w_log w ++ (if b then [msg] else []).
Proof.
  intros b msg w. destruct b; cbn; [reflexivity | now rewrite app_nil_r].
Qed.

Lemma quiet_contour_mesh_None :
  forall (ax : nat) (n_dim : pyint) (n_processes : option Z) (x y : pyint)
         (best_pos : option vector),
    quiet (plot_contour_mesh ax None n_dim n_processes x y best_pos).
Proof. intros. apply quiet_ret. Qed.

Lemma quiet_contour_mark_None : forall (ax : nat) (n_dim x y : pyint),
  quiet (plot_contour_mark ax None n_dim x y).
Proof. intros. apply quiet_ret. Qed.

#[local] Hint Resolve quiet_contour_customize quiet_scatter_empty
  quiet_contour_mesh_None quiet_contour_mark_None : quiet.

(** Without mesher and mark, and with all the numbers compared among the
    shared small integers, the log of [plot_contour] grows by the warnings
    of the input checks and nothing else, whatever the outcome. *)
Lemma contour_log :
  forall (pos_history : ndarray3) (canvas : option (nat * nat)) (title : string)
         (designer : option Designer.t) (animator : option Animator.t)
         (n_processes : option Z) (x y : pyint) (best_pos : option vector)
         (kwargs : list (string * string)) (w : World),
    let d := or_default designer (contour_designer Designer_defaults) in
    let n_dim := Z.of_nat (nd3_dims pos_history) in
    nd3_iters pos_history <> [] ->
    small_int n_dim = true ->
    small_int (Z.of_nat (length (Designer.limits d))) = true ->
    small_int (Z.of_nat (length (Designer.label d))) = true ->
    w_log (fst (plot_contour Designer_defaults Animator_defaults pos_history canvas title
                  None designer None animator n_processes x y best_pos kwargs w))
    = w_log w ++ expected_contour_warnings d n_dim x y.
Proof.
  intros pos_history canvas title designer animator n_processes x y best_pos kwargs w
         d n_dim Hne Sn Slim Slab.
  destruct (getitem3_first pos_history Hne) as [rows Hfirst].
  set (P := fun out : World * result FuncAnimation.t =>
              w_log (fst out) = w_log w ++ expected_contour_warnings d n_dim x y
              /\ snd out <> Raise TypeError).
  unfold plot_contour. cbv zeta. fold d.
  match goal with |- w_log (fst (except_TypeError ?body w)) = _ =>
    assert (HP : P (body w)); [|rewrite except_TypeError_other; apply HP] end.
  rewrite Hfirst.
  assert (Hcanvas :
    returns match canvas with
            | Some c => ret c
            | None => plt_subplots (Designer.figsize d)
            end w (fun _ w0 => w_log w0 = w_log w)).
  { destruct canvas as [[fig ax]|]; [run1 | apply returns_plt_subplots]; reflexivity. }
  run_head. eapply returns_weaken; [exact Hcanvas|]. clear Hcanvas.
  intros [fig ax] w0 L0. cbv beta iota.
  run_head. run1. cbv beta. cbn [nd_cols]. fold n_dim.
  run_head. run1. cbv beta.
  run_head. unfold plot_contour_input_checks. repeat run1. cbv beta.
  match goal with |- P (?R ?W) =>
    assert (HQ : quiet R) by solve_quiet; destruct (HQ W) as [LQ EQ] end.
  split; [|exact EQ]. rewrite LQ. clear LQ EQ HQ.
  repeat (rewrite w_log_log_if || rewrite w_log_alloc_for).
  rewrite L0, int_val_int_for, !py_is_not_small by assumption.
  unfold expected_contour_warnings. rewrite <- !app_assoc.
  destruct (Z.of_nat (length (Designer.limits d)) =? n_dim);
    destruct (Z.of_nat (length (Designer.label d)) =? n_dim); reflexivity.
Qed.




(** ** What the plotting functions leave alone *)

Lemma touches_only_bind_ret {A B : Type} : forall (ax : nat) (a : A) (k : A -> M B),
  touches_only ax (k a) -> touches_only ax (bind (ret a) k).
Proof. intros ax a k H w. exact (H w). Qed.

#[local] Hint Resolve touches_only_contour_input_checks touches_only_contour_customize
  touches_only_contour_mesh touches_only_contour_mark touches_only_scatter_empty
  touches_only_surface_input_checks touches_only_surface_customize
  touches_only_surface_mesh touches_only_surface_mark : touches.

(** X14. Called with a canvas, [plot_contour] creates no figure and no
    axes and changes no axes but the canvas's, whether it returns or
    raises. *)
Theorem contour_touches_only_canvas :
  forall (pos_history : ndarray3) (fig ax : nat) (title : string)
         (mark : option (list Q)) (designer : option Designer.t)
         (mesher : option Mesher.t) (animator : option Animator.t)
         (n_processes : option Z) (x y : pyint) (best_pos : option vector)
         (kwargs : list (string * string)) (w : World),
    let w1 := fst (plot_contour Designer_defaults Animator_defaults pos_history
                     (Some (fig, ax)) title mark designer mesher animator n_processes
                     x y best_pos kwargs w) in
    w_figs w1 = w_figs w
    /\ length (w_axes w1) = length (w_axes w)
    /\ forall r, r <> ax -> nth_error (w_axes w1) r = nth_error (w_axes w) r.
Proof.
  intros pos_history fig ax title mark designer mesher animator n_processes x y best_pos
         kwargs w.
  assert (H : touches_only ax
                (plot_contour Designer_defaults Animator_defaults pos_history
                   (Some (fig, ax)) title mark designer mesher animator n_processes
                   x y best_pos kwargs)).
  { unfold plot_contour. apply touches_only_except_TypeError. cbv zeta.
    apply touches_only_bind_ret. solve_touches. }
  exact (H w).
Qed.

(** X15. Called with an axes, [plot_cost_history] creates no figure and no
    axes and changes no axes but that one, whether it returns or raises. *)
Theorem cost_history_touches_only_ax :
  forall (cost_history : list Q) (ax : nat) (title : string)
         (designer : option Designer.t) (w : World),
    let w1 := fst (plot_cost_history Designer_defaults cost_history (Some ax) title
                     designer w) in
    w_figs w1 = w_figs w
    /\ length (w_axes w1) = length (w_axes w)
    /\ forall r, r <> ax -> nth_error (w_axes w1) r = nth_error (w_axes w) r.
Proof.
  intros cost_history ax title designer w.
  assert (H : touches_only ax
                (plot_cost_history Designer_defaults cost_history (Some ax) title designer)).
  { unfold plot_cost_history. apply touches_only_except_TypeError. cbv zeta.
    apply touches_only_bind; [auto with touches | intros n].
    apply touches_only_bind_ret.
    unfold ax_plot, ax_set_title, ax_legend_, ax_set_xlabel, ax_set_ylabel, ax_tick_params.
    solve_touches. }
  exact (H w).
Qed.

(** X16. Called without a canvas on a non-empty history, [plot_surface]
    creates one figure and two axes, whether it returns or raises: the 2-D
    axes of [plt.subplots], which it leaves empty, and the axes it draws on;
    the axes that existed before are unchanged. *)
Theorem surface_leaves_empty_axes :
  forall (pos_history : ndarray3) (title : string) (designer : option Designer.t)
         (mesher : option Mesher.t) (animator : option Animator.t)
         (mark : option (list Q)) (n_processes : option Z) (x y : pyint)
         (best_pos : option vector) (kwargs : list (string * string)) (w : World),
    nd3_iters pos_history <> [] ->
    let d := or_default designer (surface_designer Designer_defaults) in
    let w1 := fst (plot_surface Designer_defaults Animator_defaults pos_history None title
                     designer mesher animator mark n_processes x y best_pos kwargs w) in
    w_figs w1 = w_figs w ++ [Designer.figsize d]
    /\ length (w_axes w1) = S (S (length (w_axes w)))
    /\ nth_error (w_axes w1) (length (w_axes w))
       = Some (new_Axes (length (w_figs w)) false)
    /\ forall r, (r < length (w_axes w))%nat ->
                 nth_error (w_axes w1) r = nth_error (w_axes w) r.
Proof.
  intros pos_history title designer mesher animator mark n_processes x y best_pos kwargs w
         Hne d w1.
  destruct (getitem3_first pos_history Hne) as [rows Hfirst].
  set (P := fun out : World * result FuncAnimation.t =>
              w_figs (fst out) = w_figs w ++ [Designer.figsize d]
              /\ length (w_axes (fst out)) = S (S (length (w_axes w)))
              /\ nth_error (w_axes (fst out)) (length (w_axes w))
                 = Some (new_Axes (length (w_figs w)) false)
              /\ forall r, (r < length (w_axes w))%nat ->
                           nth_error (w_axes (fst out)) r = nth_error (w_axes w) r).
  unfold w1, plot_surface. cbv zeta. fold d.
  match goal with |- context [except_TypeError ?body w] =>
    destruct (except_TypeError_store body w) as [EF EA];
    rewrite EF, !EA; clear EF EA; change (P (body w)) end.
  rewrite Hfirst.
  run_head. apply returns_plt_subplots. cbv beta iota.
  run_head. run1. cbv beta. cbn [nd_cols].
  run_head. run1. cbv beta. run_head. run1. cbv beta.
  set (ax0 := length (w_axes w)).
  run_head.
  eapply returns_weaken; [apply (surface_input_checks_run ax0)|].
  intros [] wc [Gc Ac]. cbv beta.
  assert (Fc := grows_figs _ _ _ Gc).
  rewrite !w_axes_alloc_for in Ac. cbn [w_axes] in Ac.
  assert (Fc' : w_figs wc = w_figs w ++ [Designer.figsize d]).
  { rewrite Fc. unfold alloc_for. repeat destruct (small_int _); reflexivity. }
  clear Fc Gc.
  run_head. apply returns_has_get_zlim. cbv beta.
  assert (E3 : is_3d wc ax0 = false).
  { unfold is_3d. rewrite Ac. unfold ax0.
    now rewrite nth_error_app2, Nat.sub_diag by lia. }
  rewrite E3. cbn [negb].
  run_head. apply returns_Axes3D. cbv beta. rewrite Ac.
  match goal with |- P (?R ?W) =>
    assert (HT : touches_only (S ax0) R);
      [rewrite length_app; cbn [length]; rewrite Nat.add_comm; cbn [Nat.add];
       fold ax0; solve_touches
      | destruct (HT W) as [TF [TL TO]] ]
  end.
  cbn [w_figs w_axes] in TF, TL, TO.
  unfold P. rewrite TF, TL. split; [exact Fc'|].
  split; [rewrite !length_app; cbn; lia|].
  split; [rewrite TO by (unfold ax0; lia);
          rewrite nth_error_app1 by (rewrite length_app; cbn; lia);
          unfold ax0; now rewrite nth_error_app2, Nat.sub_diag by lia|].
  intros r Hr. rewrite TO by (unfold ax0; lia).
  rewrite nth_error_app1 by (rewrite length_app; cbn; lia).
  now rewrite nth_error_app1 by lia.
Qed.


(** ** The mark *)

(** A length outside the shared small integers is a new object: it is
    none of the integer objects known before. *)
Lemma py_is_unshared : forall (v : Z) (w : World) (n : pyint),
  small_int v = false -> int_known n w -> py_is (int_for v w) n = false.
Proof.
  intros v w n Hv Hn. unfold py_is, int_for, int_known in *. rewrite Hv.
  destruct (int_id n) as [v'|a]; cbn; [reflexivity | apply Nat.eqb_neq; lia].
Qed.

Lemma contour_mark_unshared_run :
  forall (ax : nat) (mark : list Q) (n_dim x y : pyint) (w : World),
    (256 < length mark)%nat ->
    int_known n_dim w ->
    returns (plot_contour_mark ax (Some mark) n_dim x y) w
      (fun _ w1 =>
         w_axes w1 = w_axes w
         /\ w_log w1
            = w_log w
              ++ ["Number of dimensions of given mark does not fit plotting dimension nor problem dimension."%string]).
Proof.
  intros ax mark n_dim x y w Hlong Hn.
  assert (Hbig : small_int (Z.of_nat (length mark)) = false).
  { unfold small_int. apply andb_false_iff. right. apply Z.leb_gt. lia. }
  unfold plot_contour_mark.
  run1. run1. cbv beta. rewrite int_val_int_for.
  destruct (Z.of_nat (length mark) <? 2) eqn:E2; [apply Z.ltb_lt in E2; lia|].
  run1. run1. cbv beta.
  rewrite (py_is_unshared _ _ (int_literal 2) Hbig) by reflexivity.
  run1. run1. cbv beta.
  rewrite (py_is_unshared _ _ n_dim Hbig)
    by (eapply int_known_grows; [|apply (grows_alloc_for ax)];
        eapply int_known_grows; [|apply (grows_alloc_for ax)]; exact Hn).
  run1. cbn [log_msg w_axes w_log].
  now rewrite !w_axes_alloc_for, !w_log_alloc_for.
Qed.


Lemma surface_mark_indexed_run :
  forall (ax : nat) (mark : list Q) (n_dim x y : pyint) (w : World) (mx my mz : Q),
    (3 < length mark)%nat ->
    Z.of_nat (length mark) = int_val n_dim + 1 ->
    py_getitem mark (int_val x) = Ok mx ->
    py_getitem mark (int_val y) = Ok my ->
    py_getitem mark (int_val n_dim) = Ok mz ->
    returns (plot_surface_mark ax (Some mark) n_dim x y) w
      (fun _ w1 =>
         w_log w1 = w_log w
         /\ forall a, nth_error (w_axes w) ax = Some a ->
                      nth_error (w_axes w1) ax
                      = Some (add_artist (MarkPoint [mx; my; mz] "red" "x") a)).
Proof.
  intros ax mark n_dim x y w mx my mz Hlong Hlen Hmx Hmy Hmz.
  unfold plot_surface_mark.
  run1. run1. cbv beta. rewrite int_val_int_for.
  destruct (Z.of_nat (length mark) <? 3) eqn:E3; [apply Z.ltb_lt in E3; lia|].
  run1. run1. cbv beta. rewrite int_val_int_for.
  destruct (Z.of_nat (length mark) =? 3) eqn:P3; [apply Z.eqb_eq in P3; lia|].
  run1. run1. run1. run1. cbv beta. rewrite !int_val_int_for.
  destruct (Z.of_nat (length mark) =? int_val n_dim + 1) eqn:Pn;
    [|apply Z.eqb_neq in Pn; lia].
  unfold ax_scatter_point. repeat run1. cbv beta.
  split.
  - cbn [modify_axes w_log]. now rewrite !w_log_alloc_for.
  - intros a Ha. apply nth_error_modify_axes. now rewrite !w_axes_alloc_for.
Qed.


(** ** Errors of the mesher *)

Lemma except_TypeError_raises {A : Type} : forall (body : M A) (w : World) (e : exn),
  snd (body w) = Raise e -> snd (except_TypeError body w) = Raise e.
Proof.
  intros body w e H. unfold except_TypeError.
  destruct (body w) as [w' [a|e']]; cbn in H |- *; [discriminate|].
  injection H as ->. destruct e; reflexivity.
Qed.

Lemma bind_raises {A B : Type} : forall (m : M A) (k : A -> M B) (w : World) (e : exn),
  snd (m w) = Raise e -> snd (bind m k w) = Raise e.
Proof.
  intros m k w e H. unfold bind.
  destruct (m w) as [w1 [a|e']]; cbn in H |- *; [discriminate | congruence].
Qed.

(** X19. An exception of [_mesh] is the exception of the plotting call:
    on a non-empty history, with labels and limits at the indices used,
    [plot_contour] and [plot_surface] called with a mesher for which
    [_mesh] raises raise the same exception. *)
Theorem mesh_error_reaches_caller :
  forall (pos_history : ndarray3) (canvas : option (nat * nat)) (title : string)
         (mark : option (list Q)) (designer : option Designer.t) (mesher : Mesher.t)
         (animator : option Animator.t) (n_processes : option Z) (x y : pyint)
         (best_pos : option vector) (kwargs : list (string * string)) (w : World)
         (e : exn),
    let n_dim := Z.of_nat (nd3_dims pos_history) - 1 in
    nd3_iters pos_history <> [] ->
    _mesh mesher n_processes (int_val x) (int_val y) best_pos = Raise e ->
    (designer_covers (or_default designer (contour_designer Designer_defaults))
       [int_val x; int_val y] ->
     snd (plot_contour Designer_defaults Animator_defaults pos_history canvas title mark
            designer (Some mesher) animator n_processes x y best_pos kwargs w)
     = Raise e)
    /\ (designer_covers (or_default designer (surface_designer Designer_defaults))
          [int_val x; int_val y; n_dim] ->
        snd (plot_surface Designer_defaults Animator_defaults pos_history canvas title
               designer (Some mesher) animator mark n_processes x y best_pos kwargs w)
        = Raise e).
Proof.
  intros pos_history canvas title mark designer mesher animator n_processes x y best_pos
         kwargs w e n_dim Hne Hmesh.
  destruct (getitem3_first pos_history Hne) as [rows Hfirst].
  split; intros Hcov.
  - destruct (designer_covers_lookup _ _ (int_val x) Hcov) as [[xl Hxl] [xlim Hxlim]];
      [now left|].
    destruct (designer_covers_lookup _ _ (int_val y) Hcov) as [[yl Hyl] [ylim Hylim]];
      [right; now left|].
    unfold plot_contour. apply except_TypeError_raises. cbv zeta.
    run_head.
    assert (Hcanvas :
      forall Q : nat * nat -> World -> Prop,
        (forall c w0, Q c w0) ->
        returns match canvas with
                | Some c => ret c
                | None => plt_subplots
                            (Designer.figsize
                               (or_default designer (contour_designer Designer_defaults)))
                end w Q).
    { intros Q HQ. destruct canvas as [[fig ax]|];
        [run1 | apply returns_plt_subplots]; apply HQ. }
    eapply returns_weaken; [apply (Hcanvas (fun _ _ => True)); trivial|].
    intros [fig ax] w0 _. cbv beta iota.
    run_head. run1. cbv beta. run_head. run1. cbv beta.
    run_head. eapply returns_weaken; [apply (contour_input_checks_run ax)|].
    intros [] w1 _. cbv beta.
    run_head. run1. cbv beta.
    run_head.
    eapply returns_weaken;
      [apply (contour_customize_run ax title _ x y _ xl yl xlim ylim); assumption|].
    intros [] w2 _. cbv beta.
    apply bind_raises. unfold plot_contour_mesh.
    run_head. run1. cbv beta. run_head. run1. cbv beta.
    cbn [bind lift]. rewrite Hmesh. reflexivity.
  - destruct (designer_covers_lookup _ _ (int_val x) Hcov) as [[xl Hxl] [xlim Hxlim]];
      [now left|].
    destruct (designer_covers_lookup _ _ (int_val y) Hcov) as [[yl Hyl] [ylim Hylim]];
      [right; now left|].
    destruct (designer_covers_lookup _ _ n_dim Hcov) as [[zl Hzl] [zlim Hzlim]];
      [right; right; now left|].
    unfold plot_surface. apply except_TypeError_raises. cbv zeta.
    run_head.
    assert (Hcanvas :
      forall Q : nat * nat -> World -> Prop,
        (forall c w0, Q c w0) ->
        returns match canvas with
                | Some c => ret c
                | None => plt_subplots
                            (Designer.figsize
                               (or_default designer (surface_designer Designer_defaults)))
                end w Q).
    { intros Q HQ. destruct canvas as [[fig ax]|];
        [run1 | apply returns_plt_subplots]; apply HQ. }
    eapply returns_weaken; [apply (Hcanvas (fun _ _ => True)); trivial|].
    intros [fig ax] w0 _. cbv beta iota.
    run_head. run1. cbv beta. run_head. run1. cbv beta. run_head. run1. cbv beta.
    cbn [nd_cols]. rewrite !int_val_int_for. fold n_dim.
    run_head. eapply returns_weaken; [apply (surface_input_checks_run ax)|].
    intros [] w1 _. cbv beta.
    run_head. apply returns_has_get_zlim. cbv beta.
    run_head.
    assert (H3d :
      returns (if negb (is_3d w1 ax) then Axes3D fig else ret ax) w1 (fun _ _ => True)).
    { destruct (negb (is_3d w1 ax)); [apply returns_Axes3D | run1]; exact I. }
    eapply returns_weaken; [exact H3d|]. clear H3d.
    intros ax' w1' _. cbv beta.
    run_head. run1. cbv beta.
    run_head.
    eapply returns_weaken;
      [apply (surface_customize_run ax' title _ _ x y _ xl yl zl xlim ylim zlim);
       rewrite ?int_val_int_for; assumption|].
    intros [] w2 _. cbv beta.
    apply bind_raises. unfold plot_surface_mesh.
    run_head. run1. cbv beta. run_head. run1. cbv beta.
    cbn [bind lift]. rewrite Hmesh. reflexivity.
Qed.

(** ** The handler of TypeError *)

Lemma except_TypeError_handles {A : Type} : forall (body : M A) (w : World),
  snd (body w) = Raise TypeError ->
  snd (except_TypeError body w) = Raise TypeError
  /\ w_log (fst (except_TypeError body w))
     = w_log (fst (body w)) ++ ["Please check your input type"%string].
Proof.
  intros body w H. unfold except_TypeError.
  destruct (body w) as [w1 [a|e]]; cbn [snd] in H; [discriminate|].
  injection H as ->. split; reflexivity.
Qed.

(** X20. When the mesher gives a mesh of fewer than two rows or fewer than
    two columns, [ax.contour] raises [TypeError]: on a non-empty history
    with designer labels and limits at [x] and [y], [plot_contour] logs
    ["Please check your input type"] as its last message and raises
    [TypeError]. *)
Theorem contour_small_mesh_type_error :
  forall (pos_history : ndarray3) (canvas : option (nat * nat)) (title : string)
         (mark : option (list Q)) (designer : option Designer.t) (mesher : Mesher.t)
         (animator : option Animator.t) (n_processes : option Z) (x y : pyint)
         (best_pos : option vector) (kwargs : list (string * string)) (w : World)
         (xx yy zz : grid),
    let run := plot_contour Designer_defaults Animator_defaults pos_history canvas title
                 mark designer (Some mesher) animator n_processes x y best_pos kwargs w in
    nd3_iters pos_history <> [] ->
    designer_covers (or_default designer (contour_designer Designer_defaults))
      [int_val x; int_val y] ->
    _mesh mesher n_processes (int_val x) (int_val y) best_pos = Ok (xx, yy, zz) ->
    (fst (g_shape zz) < 2)%nat \/ (snd (g_shape zz) < 2)%nat ->
    snd run = Raise TypeError
    /\ exists msgs, w_log (fst run) = msgs ++ ["Please check your input type"%string].
Proof.
  intros pos_history canvas title mark designer mesher animator n_processes x y best_pos
         kwargs w xx yy zz run Hne Hcov Hmesh Hsmall.
  destruct (getitem3_first pos_history Hne) as [rows Hfirst].
  destruct (designer_covers_lookup _ _ (int_val x) Hcov) as [[xl Hxl] [xlim Hxlim]];
    [now left|].
  destruct (designer_covers_lookup _ _ (int_val y) Hcov) as [[yl Hyl] [ylim Hylim]];
    [right; now left|].
  assert (Hargs : contour_args zz (Mesher.levels mesher) = Raise TypeError).
  { unfold contour_args.
    destruct Hsmall as [H | H]; apply Nat.ltb_lt in H; rewrite H;
      [reflexivity | now rewrite orb_true_r]. }
  unfold run, plot_contour.
  match goal with |- snd (except_TypeError ?body w) = _ /\ _ =>
    assert (Hbody : snd (body w) = Raise TypeError) end.
  { cbv zeta. run_head.
    assert (Hcanvas :
      returns match canvas with
              | Some c => ret c
              | None => plt_subplots
                          (Designer.figsize
                             (or_default designer (contour_designer Designer_defaults)))
              end w (fun _ _ => True)).
    { destruct canvas as [[fig ax]|]; [run1 | apply returns_plt_subplots]; exact I. }
    eapply returns_weaken; [exact Hcanvas|]. clear Hcanvas.
    intros [fig ax] w0 _. cbv beta iota.
    run_head. run1. cbv beta. run_head. run1. cbv beta.
    run_head. eapply returns_weaken; [apply (contour_input_checks_run ax)|].
    intros [] w1 _. cbv beta.
    run_head. run1. cbv beta.
    run_head.
    eapply returns_weaken;
      [apply (contour_customize_run ax title _ x y _ xl yl xlim ylim); assumption|].
    intros [] w2 _. cbv beta.
    apply bind_raises. unfold plot_contour_mesh.
    run_head. run1. cbv beta. run_head. run1. cbv beta.
    run_head. run1. cbv beta iota.
    unfold ax_contour. cbn [bind lift]. rewrite Hargs. reflexivity. }
  destruct (except_TypeError_handles _ w Hbody) as [Hr Hl].
  split; [exact Hr|]. eexists. exact Hl.
Qed.

End FurtherRuns.

(** ** The further properties at concrete inputs *)

(** X1 at a concrete input. *)
Lemma mesh_limits_index_error_witness :
  _mesh example_mesher None 2 0 None = Raise IndexError.
Proof.
  apply (mesh_limits_index_error example_mesher None 2 0 None).
  left. unfold index_of. simpl. lia.
Defined.

(** X2 at a concrete input. *)
Lemma mesh_pool_size_error_witness :
  _mesh example_mesher (Some 0) 0 1 None = Raise ValueError.
Proof.
  apply (mesh_pool_size_error example_mesher 0 0 1 None (0, 1)%Q (0, 1)%Q
           example_axis example_axis).
  - reflexivity.
  - reflexivity.
  - reflexivity.
  - reflexivity.
  - left. repeat split.
  - lia.
Defined.

(** X3 at a concrete input. *)
Lemma mesh_wrong_value_count_witness :
  _mesh silent_mesher None 0 1 None = Raise ValueError.
Proof.
  apply (mesh_wrong_value_count silent_mesher 0 1 None (0, 1)%Q (0, 1)%Q
           example_axis example_axis).
  - reflexivity.
  - reflexivity.
  - reflexivity.
  - reflexivity.
  - left. repeat split.
  - intros a _ H. discriminate H.
Defined.

(** X4 at a concrete input. *)
Lemma mesh_result_invariant_witness :
  exists xx yy zz,
    _mesh example_mesher None 0 1 None = Ok (xx, yy, zz)
    /\ g_shape yy = g_shape xx
    /\ g_shape zz = g_shape xx
    /\ length (g_data xx) = (fst (g_shape xx) * snd (g_shape xx))%nat
    /\ length (g_data yy) = (fst (g_shape xx) * snd (g_shape xx))%nat
    /\ length (g_data zz) = (fst (g_shape xx) * snd (g_shape xx))%nat.
Proof.
  eexists. eexists. eexists. split.
  - vm_compute. reflexivity.
  - apply (mesh_result_invariant example_mesher None 0 1 None). reflexivity.
Defined.

(** X5 at a concrete input. *)
Lemma mesh_negative_indices_witness :
  _mesh example_mesher None (-2) (-1) (Some (Floats [5; 6]%Q))
  = _mesh example_mesher None 0 1 (Some (Floats [5; 6]%Q)).
Proof.
  apply (mesh_negative_indices example_mesher None (-2) (-1) (Floats [5; 6]%Q)).
  - reflexivity.
  - simpl. lia.
  - simpl. lia.
Defined.

(** X6 at a concrete input. *)
Lemma animate_forgets_previous_frame_witness :
  exists plot1,
    _animate 0 flat_history (empty_scatter false []) = Ok plot1
    /\ _animate 1 flat_history plot1 = _animate 1 flat_history (empty_scatter false []).
Proof.
  eexists. split.
  - reflexivity.
  - apply (animate_forgets_previous_frame 0 1 flat_history (empty_scatter false [])).
    reflexivity.
Defined.

(** X7 at a concrete input. *)
Lemma animate_out_of_range_witness :
  _animate 2 flat_history (empty_scatter false []) = Raise IndexError.
Proof.
  apply (animate_out_of_range 2 flat_history (empty_scatter false [])). simpl. lia.
Defined.

(** X8 at a concrete input. *)
Lemma plots_raise_on_empty_history_witness :
  let created := mk_World [] [(10, 8)%Q] [new_Axes 0 false] 0 in
  plot_contour example_designer example_animator empty_history None "Trajectory" None
    (Some example_designer) None None None (int_literal 0) (int_literal 1) None []
    empty_world
  = (created, Raise IndexError)
  /\ plot_surface example_designer example_animator empty_history None "Trajectory"
       (Some example_designer) None None None None (int_literal 0) (int_literal 1) None []
       empty_world
     = (created, Raise IndexError).
Proof.
  apply (plots_raise_on_empty_history example_designer example_animator empty_history
           None "Trajectory" None (Some example_designer) None None None
           (int_literal 0) (int_literal 1) None [] empty_world).
  reflexivity.
Defined.

(** X9 at a concrete input. *)
Lemma plot_cost_history_short_label_witness :
  let run := plot_cost_history example_designer [3; 2; 1]%Q None "Cost History"
               (Some one_label_designer) empty_world in
  snd run = Raise IndexError /\ w_log (fst run) = [].
Proof.
  cbv zeta.
  destruct (plot_cost_history_short_label example_designer [3; 2; 1]%Q None
              "Cost History" one_label_designer empty_world) as [Hraise [Hlog _]].
  - simpl. lia.
  - exact I.
  - split; [exact Hraise | exact Hlog].
Defined.





(** X16 at a concrete input. *)
Lemma surface_leaves_empty_axes_witness :
  let w1 := fst (plot_surface example_designer example_animator deep_history None
                   "Trajectory" (Some example_designer) None None None None
                   (int_literal 0) (int_literal 1) None [] empty_world) in
  w_figs w1 = [(10, 8)%Q]
  /\ length (w_axes w1) = 2%nat
  /\ nth_error (w_axes w1) 0 = Some (new_Axes 0 false)
  /\ forall r, (r < 0)%nat -> nth_error (w_axes w1) r = nth_error [] r.
Proof.
  apply (surface_leaves_empty_axes example_designer example_animator deep_history
           "Trajectory" (Some example_designer) None None None None
           (int_literal 0) (int_literal 1) None [] empty_world).
  exact deep_history_not_empty.
Defined.

Lemma wide_history_not_empty : nd3_iters wide_history <> [].
Proof. intros H. discriminate H. Defined.



(** X19 at a concrete input. *)
Lemma mesh_error_reaches_caller_witness :
  snd (plot_contour example_designer example_animator flat_history None "Trajectory"
         None (Some example_designer) (Some example_mesher) None None
         (int_literal 2) (int_literal 1) None [] empty_world)
  = Raise IndexError
  /\ snd (plot_surface example_designer example_animator flat_history None "Trajectory"
            (Some example_designer) (Some example_mesher) None None None
            (int_literal 2) (int_literal 1) None [] empty_world)
     = Raise IndexError.
Proof.
  destruct (mesh_error_reaches_caller example_designer example_animator flat_history None
              "Trajectory" None (Some example_designer) example_mesher None None
              (int_literal 2) (int_literal 1) None [] empty_world IndexError
              flat_history_not_empty eq_refl) as [Hcontour Hsurface].
  split.
  - apply Hcontour. repeat constructor; simpl; lia.
  - apply Hsurface. repeat constructor; simpl; lia.
Defined.

(** X20 at a concrete input. *)
Lemma contour_small_mesh_type_error_witness :
  let run := plot_contour example_designer example_animator flat_history None
               "Trajectory" None None (Some point_mesher) None None
               (int_literal 0) (int_literal 1) None [] empty_world in
  snd run = Raise TypeError
  /\ exists msgs, w_log (fst run) = msgs ++ ["Please check your input type"%string].
Proof.
  eapply (contour_small_mesh_type_error example_designer example_animator flat_history
            None "Trajectory" None None point_mesher None None
            (int_literal 0) (int_literal 1) None [] empty_world).
  - exact flat_history_not_empty.
  - repeat constructor; simpl; lia.
  - vm_compute. reflexivity.
  - left. simpl. lia.
Defined.
